(** * Inclined-plane velocity simulation: model and properties

    A shallow embedding of [inclined_simulation_pyscript.py].  The classes
    [Button], [GraphPlot], [InclineScene] and [SimulationController] become
    modules holding a state record and one function per method; a method
    that mutates [self] returns the new state.

    Numbers.  Python floats are read as exact rationals ([Q]): a decimal
    literal denotes its decimal value, [+ - * /] are exact, comparisons are
    the order of [Q], and [math.sin(math.radians(30))] is [1/2] (the source
    comments [A] as 4.9).  Rounding is not modelled.  Python's [==] on
    floats is [Qeq]; an attribute that is assigned and read back is equal to
    what was assigned in the sense of [=].

    Exceptions.  [list.index], subscripting, [float(str)] and [/] can
    raise; they return in the error monad [Exc].

    Drawing.  A [draw] method returns the drawing commands it issues, in
    order.  Text metrics, number formatting and the value of [math.sqrt]
    are left to the class [Display]; [linregress] and [curve_fit] to the
    class [SciPy]. *)

From Stdlib Require Import QArith Qabs Qround ZArith List String Ascii Lia Lqa Bool.
From Stdlib Require Import DecimalString.
Import ListNotations.

Local Open Scope string_scope.
Local Open Scope list_scope.
Local Open Scope Z_scope.
Local Open Scope Q_scope.

(** ** Exceptions *)

Inductive PyExc : Type := ValueError | IndexError | ZeroDivisionError.

Inductive Exc (A : Type) : Type :=
| Ok (a : A)
| Raise (e : PyExc).
Arguments Ok {A} a.
Arguments Raise {A} e.

Definition bind {A B : Type} (m : Exc A) (k : A -> Exc B) : Exc B :=
  match m with
  | Ok a => k a
  | Raise e => Raise e
  end.

Notation "x <- m ;; k" := (bind m (fun x => k))
  (at level 61, m at next level, right associativity).
Notation "' p <- m ;; k" := (bind m (fun x => let p := x in k))
  (at level 61, p pattern, m at next level, right associativity).

(** ** Python built-ins used by the program *)

(** [l[i]] for a non-negative index. *)
Definition py_getitem {A : Type} (l : list A) (i : nat) : Exc A :=
  match nth_error l i with
  | Some a => Ok a
  | None => Raise IndexError
  end.

(** [l[-1]]. *)
Definition py_last (l : list Q) : Q := last l 0.

(** [l.index(x)] on a list of floats: the first position holding a value
    equal ([==]) to [x]. *)
Fixpoint py_index (x : Q) (l : list Q) : Exc nat :=
  match l with
  | [] => Raise ValueError
  | y :: l' => if Qeq_bool y x then Ok O
               else i <- py_index x l' ;; Ok (S i)
  end.

(** [x in l]. *)
Definition py_in (x : Q) (l : list Q) : bool := existsb (fun y => Qeq_bool y x) l.

(** [x / y] on floats. *)
Definition py_div (x y : Q) : Exc Q :=
  if Qeq_bool y 0 then Raise ZeroDivisionError else Ok (x / y).

(** [int(x)]: truncation towards zero. *)
Definition py_int (x : Q) : Z := Z.quot (Qnum x) (Zpos (Qden x)).

(** *** Strings *)

Definition is_space (c : ascii) : bool :=
  let n := nat_of_ascii c in
  (Nat.eqb n 32 || (Nat.leb 9 n && Nat.leb n 13) || (Nat.leb 28 n && Nat.leb n 31))%bool.

Fixpoint split_by (p : ascii -> bool) (s : string) : list string :=
  match s with
  | EmptyString => [EmptyString]
  | String c s' =>
      if p c then EmptyString :: split_by p s'
      else match split_by p s' with
           | [] => [String c EmptyString]
           | w :: ws => String c w :: ws
           end
  end.

(** [s.split(sep)] for a one-character separator. *)
Definition str_split (sep : ascii) (s : string) : list string :=
  split_by (Ascii.eqb sep) s.

Definition nonempty (s : string) : bool :=
  match s with EmptyString => false | _ => true end.

(** [s.split()]: the maximal runs of non-blank characters. *)
Definition str_split_ws (s : string) : list string :=
  filter nonempty (split_by is_space s).

Fixpoint str_lstrip (s : string) : string :=
  match s with
  | String c s' => if is_space c then str_lstrip s' else s
  | EmptyString => EmptyString
  end.

Fixpoint str_rstrip (s : string) : string :=
  match s with
  | EmptyString => EmptyString
  | String c s' =>
      match str_rstrip s' with
      | EmptyString => if is_space c then EmptyString else String c EmptyString
      | r => String c r
      end
  end.

(** [s.strip()]. *)
Definition str_strip (s : string) : string := str_rstrip (str_lstrip s).

Definition digit_of_ascii (c : ascii) : option Z :=
  let n := nat_of_ascii c in
  if (Nat.leb 48 n && Nat.leb n 57)%bool then Some (Z.of_nat (n - 48)) else None.

(** Value and length of a run of decimal digits. *)
Fixpoint digits_value (s : string) (acc : Z) (len : nat) : option (Z * nat) :=
  match s with
  | EmptyString => Some (acc, len)
  | String c s' =>
      match digit_of_ascii c with
      | Some d => digits_value s' (10 * acc + d)%Z (S len)
      | None => None
      end
  end.

(** [float(s)] on the numerals the program feeds it: an unsigned run of
    digits with an optional fractional part, blanks around it ignored.
    Any other text is answered with [ValueError]; Python's exponent, sign,
    [inf] and [nan] forms never occur in a button label. *)
Definition py_float (s : string) : Exc Q :=
  match str_split "." (str_strip s) with
  | [ip] =>
      match digits_value ip 0 0 with
      | Some (n, S _) => Ok (inject_Z n)
      | _ => Raise ValueError
      end
  | [ip; fp] =>
      match digits_value ip 0 0, digits_value fp 0 0 with
      | Some (n, li), Some (m, lf) =>
          match (li + lf)%nat with
          | O => Raise ValueError
          | _ => Ok (Qmake (n * 10 ^ Z.of_nat lf + m) (Z.to_pos (10 ^ Z.of_nat lf)))
          end
      | _, _ => Raise ValueError
      end
  | _ => Raise ValueError
  end.

Definition ascii_of_digit (d : Z) : ascii := ascii_of_nat (48 + Z.to_nat d).

Fixpoint frac_digits (fuel : nat) (r d : Z) : string :=
  match fuel with
  | O => EmptyString
  | S fuel' =>
      if (r =? 0)%Z then EmptyString
      else String (ascii_of_digit (r * 10 / d))
                  (frac_digits fuel' ((r * 10) mod d) d)
  end.

(** [f"{x}"] for a non-negative float whose decimal expansion is short: the
    integer part, a point, and the fractional digits (["0"] when there are
    none), as [repr] prints such a value. *)
Definition py_str_float (x : Q) : string :=
  let n := Qnum x in
  let d := Zpos (Qden x) in
  let fd := frac_digits 17 (n mod d) d in
  (NilZero.string_of_int (Z.to_int (n / d)) ++ "." ++
   (if nonempty fd then fd else "0"))%string.

(** ** Constants *)

Definition WINDOW_WIDTH : Z := 1024.
Definition WINDOW_HEIGHT : Z := 768.
Definition LEFT_PANEL_WIDTH : Z := 600.
Definition RIGHT_PANEL_WIDTH : Z := WINDOW_WIDTH - LEFT_PANEL_WIDTH.
Definition FPS : Z := 60.
Definition G : Q := 9.8.
(** [math.sin(math.radians(30))]. *)
Definition SIN_THETA : Q := 1 # 2.
(** [math.cos(math.radians(30))] is irrational; the model carries its
    value to sixteen decimals.  It only scales the block's pixel position. *)
Definition COS_THETA : Q := 0.8660254037844387.
Definition A : Q := G * SIN_THETA.
Definition L_PHYSICAL_MAX : Q := 2.5.
Definition L_PIXEL_MAX : Q := 400.

Definition HEIGHTS : list Q := [0.25; 0.50; 0.75; 1.00; 1.25].
Definition PLANE_LENGTHS : list Q := [0.50; 1.00; 1.50; 2.00; 2.50].
Definition EXP_AVG_SPEEDS : list Q := [1.11; 1.0; 1.5; 2.0; 2.5].
Definition EXP_STD_DEVS : list Q := [0.03; 0.04; 0.03; 0.03; 0.04].

Definition Color : Type := (Z * Z * Z)%type.
Definition WHITE : Color := (255, 255, 255)%Z.
Definition RED : Color := (200, 0, 0)%Z.
Definition BLACK : Color := (0, 0, 0)%Z.
Definition GREEN : Color := (0, 200, 0)%Z.
Definition YELLOW : Color := (255, 255, 0)%Z.
Definition DARK_GRAY : Color := (50, 50, 50)%Z.
Definition LIGHT_GRAY : Color := (200, 200, 200)%Z.
Definition NAVY : Color := (0, 0, 100)%Z.
Definition LIGHT_BLUE : Color := (200, 200, 255)%Z.

(** ** pygame: rectangles, events, drawing *)

Record Rect : Type := mkRect { rx : Z; ry : Z; rw : Z; rh : Z }.

Definition rect_left (r : Rect) : Z := rx r.
Definition rect_top (r : Rect) : Z := ry r.
Definition rect_right (r : Rect) : Z := rx r + rw r.
Definition rect_bottom (r : Rect) : Z := ry r + rh r.
Definition rect_width (r : Rect) : Z := rw r.
Definition rect_height (r : Rect) : Z := rh r.

(** [Rect.collidepoint]: the right and bottom edges are outside. *)
Definition collidepoint (r : Rect) (p : Z * Z) : bool :=
  ((rect_left r <=? fst p) && (fst p <? rect_right r) &&
   (rect_top r <=? snd p) && (snd p <? rect_bottom r))%Z%bool.

Definition K_ESCAPE : Z := 27.

Inductive Event : Type :=
| QUIT
| KEYDOWN (key : Z)
| MOUSEBUTTONDOWN
| OtherEvent.

(** What a drawing call leaves on the surface. *)
Inductive DrawCmd : Type :=
| draw_rect (color : Color) (r : Rect) (width : Z)
| draw_line (color : Color) (p1 p2 : Q * Q) (width : Z)
| draw_circle (color : Color) (center : Z * Z) (radius : Z)
| blit_text (text : string) (color : Color) (pos : Z * Z).

Definition ZQ (p : Z * Z) : Q * Q := (inject_Z (fst p), inject_Z (snd p)).

(** What [InclineScene.draw] leaves on the surface.  The block is given
    by the arguments handed to [pygame.Rect], two floats and two ints. *)
Inductive SceneCmd : Type :=
| scene_line (color : Color) (p1 p2 : Q * Q) (width : Z)
| scene_circle (color : Color) (center : Z * Z) (radius : Z)
| scene_rect (color : Color) (x y : Q) (w h : Z).

(** [pygame.font.SysFont(name, size, bold)]. *)
Definition Font : Type := (string * Z * bool)%type.

(** [Rect.center], in the integer arithmetic of pygame. *)
Definition rect_center (r : Rect) : Z * Z :=
  ((rx r + Z.quot (rw r) 2)%Z, (ry r + Z.quot (rh r) 2)%Z).

(** What [SimulationController.draw] leaves on the screen: its own
    rectangles and texts, the buttons, and the commands of the scene and
    of the graph.  [text_centered] is a rendered text blitted with its
    rectangle centred on a point. *)
Inductive ScreenCmd : Type :=
| fill (color : Color)
| panel_rect (color : Color) (x y w h : Z)
| button_rect (color : Color) (r : Rect) (width border_radius : Z)
| text_centered (font : Font) (text : string) (color : Color) (center : Z * Z)
| text_at (font : Font) (text : string) (color : Color) (pos : Z * Z)
| scene_cmd (cmd : SceneCmd)
| graph_cmd (cmd : DrawCmd).

(** Comparisons of floats, as booleans. *)
Definition py_lt (x y : Q) : bool := if Qlt_le_dec x y then true else false.
Definition py_le (x y : Q) : bool := if Qlt_le_dec y x then false else true.
Definition py_gt (x y : Q) : bool := py_lt y x.
Definition py_ge (x y : Q) : bool := py_le y x.

(** ** numpy and scipy

    [np.linspace] is written out.  The two fitting routines and the power
    of a float by a float exponent are library code over the reals; the
    program is modelled over any implementation of them. *)

Definition np_linspace (start stop : Q) (num : nat) : list Q :=
  let step := (stop - start) / inject_Z (Z.of_nat (num - 1)) in
  let y := map (fun i => inject_Z (Z.of_nat i) * step + start) (seq 0 num) in
  match num with
  | O | S O => y
  | _ => removelast y ++ [stop]
  end.

Class SciPy : Type := {
  (** [stats.linregress(x, y)]: slope, intercept, r_value. *)
  linregress : list Q -> list Q -> Q * Q * Q;
  (** [curve_fit(f, xdata, ydata)]: the optimal two parameters. *)
  curve_fit : (Q -> Q -> Q -> Q) -> list Q -> list Q -> Q * Q;
  (** [h ** p]. *)
  np_power : Q -> Q -> Q
}.

(** ** Fonts, float formatting and the square root

    The width of a rendered text, the text of a float printed with a given
    number of decimals ([f"{x:.2f}"]) and the value of [math.sqrt] on a
    non-negative float belong to libraries as well. *)

Class Display : Type := {
  text_width : Font -> string -> Z;
  format_float : nat -> Q -> string;
  sqrt_value : Q -> Q
}.

(** [math.sqrt(x)]: a negative argument is a [ValueError]. *)
Definition math_sqrt `{Display} (x : Q) : Exc Q :=
  if py_lt x 0 then Raise ValueError else Ok (sqrt_value x).

(** ** class Button *)

Module Button.

Record state : Type := mk { rect : Rect; text : string; clicked : bool }.

Definition init (x y width height : Z) (txt : string) : state :=
  {| rect := mkRect x y width height; text := txt; clicked := false |}.

Definition set_text (txt : string) (b : state) : state :=
  {| rect := rect b; text := txt; clicked := clicked b |}.

Definition is_hovered (b : state) (mouse_pos : Z * Z) : bool :=
  collidepoint (rect b) mouse_pos.

Definition is_clicked (b : state) (event : Event) (mouse_pos : Z * Z)
  : state * bool :=
  match event with
  | MOUSEBUTTONDOWN =>
      if is_hovered b mouse_pos
      then ({| rect := rect b; text := text b; clicked := true |}, true)
      else (b, false)
  | _ => (b, false)
  end.

(** Every button of the program is built with the default colours and
    the 18-point font of [__init__]. *)
Definition font : Font := ("Arial", 18%Z, false).

Definition draw (b : state) (hovered : bool) : list ScreenCmd :=
  let color := if hovered then LIGHT_BLUE else NAVY in
  [ button_rect color (rect b) 0 5;
    button_rect BLACK (rect b) 2 5;
    text_centered font (text b) WHITE (rect_center (rect b)) ].

End Button.

(** ** class GraphPlot *)

Module GraphPlot.

Record state : Type := mk { rect : Rect; points : list (Q * Q) }.

Definition init (x y width height : Z) : state :=
  {| rect := mkRect x y width height; points := [] |}.

Definition add_point (g : state) (s v : Q) : state :=
  {| rect := rect g; points := points g ++ [(s, v)] |}.

Definition clear (g : state) : state :=
  {| rect := rect g; points := [] |}.

(** [rect.left + 20 + (s / max_s) * (rect.width - 40)] *)
Definition plot_x (g : state) (max_s s : Q) : Q :=
  inject_Z (rect_left (rect g)) + 20
  + (s / max_s) * (inject_Z (rect_width (rect g)) - 40).

(** [rect.bottom - 20 - (v / max_v) * (rect.height - 40)] *)
Definition plot_y (g : state) (max_v v : Q) : Q :=
  inject_Z (rect_bottom (rect g)) - 20
  - (v / max_v) * (inject_Z (rect_height (rect g)) - 40).

(** The loop over [self.points]. *)
Definition scatter (g : state) (max_s max_v : Q) : list DrawCmd :=
  flat_map
    (fun sv : Q * Q =>
       let (s, v) := sv in
       if py_gt s max_s then []
       else [draw_circle RED
               (py_int (plot_x g max_s s), py_int (plot_y g max_v v)) 2])
    (points g).

(** The loops [for i in range(len(x_vals) - 1)]. *)
Definition polyline (g : state) (color : Color) (max_s max_v : Q)
    (x_vals v_vals : list Q) : list DrawCmd :=
  map
    (fun i =>
       let x1 := plot_x g max_s (nth i x_vals 0) in
       let y1 := plot_y g max_v (nth i v_vals 0) in
       let x2 := plot_x g max_s (nth (i + 1) x_vals 0) in
       let y2 := plot_y g max_v (nth (i + 1) v_vals 0) in
       draw_line color (x1, y1) (x2, y2) 1)
    (seq 0 (List.length x_vals - 1)).

Section Draw.
Context `{SciPy}.

Definition power_law (h A_fit p : Q) : Q := A_fit * np_power h p.

Definition draw (g : state) (selected_height : Q) : Exc (list DrawCmd) :=
  let r := rect g in
  let x_axis_y := (rect_bottom r - 20)%Z in
  let y_axis_x := (rect_left r + 20)%Z in
  let frame :=
    [ draw_rect WHITE r 0;
      draw_rect BLACK r 1;
      draw_line BLACK (ZQ (rect_left r, x_axis_y)) (ZQ (rect_right r, x_axis_y)) 2;
      draw_line BLACK (ZQ (y_axis_x, rect_top r)) (ZQ (y_axis_x, rect_bottom r)) 2;
      blit_text "s (m)" BLACK ((rect_right r - 30)%Z, (x_axis_y + 5)%Z);
      blit_text "v (m/s)" BLACK ((y_axis_x - 15)%Z, (rect_top r - 15)%Z) ] in
  let max_s := py_last PLANE_LENGTHS in
  let max_v := 4.0 in
  let dots := scatter g max_s max_v in
  if py_in selected_height HEIGHTS then
    idx <- py_index selected_height HEIGHTS ;;
    L <- py_getitem PLANE_LENGTHS idx ;;
    let h_array := HEIGHTS in
    let v_exp := EXP_AVG_SPEEDS in
    let '(slope, intercept, r_value) := linregress h_array v_exp in
    let x_vals := np_linspace 0 max_s 100 in
    let v_linear := map (fun x => slope * (x / 2) + intercept) x_vals in
    let green := polyline g GREEN max_s max_v x_vals v_linear in
    let '(A_fit, p) := curve_fit power_law h_array v_exp in
    let v_power := map (fun x => power_law (x / 2) A_fit p) x_vals in
    let yellow := polyline g YELLOW max_s max_v x_vals v_power in
    let s_highlight := L in
    v_highlight <- py_getitem v_exp idx ;;
    let x_h := plot_x g max_s s_highlight in
    let y_h := plot_y g max_v v_highlight in
    Ok (frame ++ dots ++ green ++ yellow
        ++ [draw_circle BLACK (py_int x_h, py_int y_h) 5])
  else Ok (frame ++ dots).

End Draw.

End GraphPlot.

(** ** class InclineScene *)

Module InclineScene.

Record state : Type := mk {
  rect : Rect;
  incline_start : Z * Z;
  block_size : Z;
  block_pos : Q * Q;
  t : Q;
  s : Q;
  L : Q
}.

Definition init (x y width height : Z) : state :=
  let r := mkRect x y width height in
  let start := ((rect_left r + 50)%Z, (rect_bottom r - 50)%Z) in
  {| rect := r; incline_start := start; block_size := 30;
     block_pos := ZQ start; t := 0; s := 0; L := nth 0 PLANE_LENGTHS 0 |}.

Definition reset (sc : state) : state :=
  {| rect := rect sc; incline_start := incline_start sc;
     block_size := block_size sc;
     block_pos := ZQ (incline_start sc); t := 0; s := 0; L := L sc |}.

Definition set_height (h : Q) (sc : state) : Exc state :=
  idx <- py_index h HEIGHTS ;;
  len <- py_getitem PLANE_LENGTHS idx ;;
  Ok (reset {| rect := rect sc; incline_start := incline_start sc;
               block_size := block_size sc; block_pos := block_pos sc;
               t := t sc; s := s sc; L := len |}).

(** Returns the new scene and the pair [(s, A * t)]. *)
Definition update (dt : Q) (sc : state) : state * (Q * Q) :=
  let sc' :=
    if py_lt (s sc) (L sc) then
      let t1 := t sc + dt in
      let s1 := 0.5 * A * t1 ^ 2 in
      let s2 := if py_gt s1 (L sc) then L sc else s1 in
      let pixel_s := (s2 / L_PHYSICAL_MAX) * L_PIXEL_MAX in
      let delta_x := pixel_s * COS_THETA in
      let delta_y := pixel_s * SIN_THETA in
      {| rect := rect sc; incline_start := incline_start sc;
         block_size := block_size sc;
         block_pos := (inject_Z (fst (incline_start sc)) + delta_x,
                       inject_Z (snd (incline_start sc)) - delta_y);
         t := t1; s := s2; L := L sc |}
    else sc in
  (sc', (s sc', A * t sc')).

(** The scene after [n] calls [update(dt)]. *)
Fixpoint run (n : nat) (dt : Q) (sc : state) : state :=
  match n with
  | O => sc
  | S n' => run n' dt (fst (update dt sc))
  end.

(** Where a displacement [d] along the incline falls on the screen. *)
Definition screen_pos (sc : state) (d : Q) : Q * Q :=
  let pixel_s := (d / L_PHYSICAL_MAX) * L_PIXEL_MAX in
  (inject_Z (fst (incline_start sc)) + pixel_s * COS_THETA,
   inject_Z (snd (incline_start sc)) - pixel_s * SIN_THETA).

(** The incline, a mark every half metre, and the block. *)
Definition draw (sc : state) : list SceneCmd :=
  let incline_end :=
    (inject_Z (fst (incline_start sc)) + L_PIXEL_MAX * COS_THETA,
     inject_Z (snd (incline_start sc)) - L_PIXEL_MAX * SIN_THETA) in
  [scene_line DARK_GRAY (ZQ (incline_start sc)) incline_end 5]
  ++ map (fun i : nat =>
            let s := inject_Z (Z.of_nat i) * 0.5 in
            let pixel_s := (s / L_PHYSICAL_MAX) * L_PIXEL_MAX in
            let x := inject_Z (fst (incline_start sc)) + pixel_s * COS_THETA in
            let y := inject_Z (snd (incline_start sc)) - pixel_s * SIN_THETA in
            scene_circle BLACK (py_int x, py_int y) 3)
         (seq 0 (Z.to_nat (py_int (L_PHYSICAL_MAX * 2) + 1)))
  ++ [scene_rect RED
        (fst (block_pos sc) - inject_Z (block_size sc / 2))
        (snd (block_pos sc) - inject_Z (block_size sc / 2))
        (block_size sc) (block_size sc)].

End InclineScene.

(** ** class SimulationController *)

Module SimulationController.

(** The dictionary stored in [fit_results]. *)
Record FitResults : Type := mkFit {
  linear : Q * Q * Q;
  power : Q * Q
}.

Record state : Type := mk {
  selected_height : Q;
  running : bool;
  paused : bool;
  scene : InclineScene.state;
  graph : GraphPlot.state;
  buttons : list Button.state;
  start_button : Button.state;
  reset_button : Button.state;
  fit_results : option FitResults;
  match_status : string
}.

Definition set_selected_height (h : Q) (c : state) : state :=
  mk h (running c) (paused c) (scene c) (graph c) (buttons c)
     (start_button c) (reset_button c) (fit_results c) (match_status c).
Definition set_running (b : bool) (c : state) : state :=
  mk (selected_height c) b (paused c) (scene c) (graph c) (buttons c)
     (start_button c) (reset_button c) (fit_results c) (match_status c).
Definition set_paused (b : bool) (c : state) : state :=
  mk (selected_height c) (running c) b (scene c) (graph c) (buttons c)
     (start_button c) (reset_button c) (fit_results c) (match_status c).
Definition set_scene (sc : InclineScene.state) (c : state) : state :=
  mk (selected_height c) (running c) (paused c) sc (graph c) (buttons c)
     (start_button c) (reset_button c) (fit_results c) (match_status c).
Definition set_graph (g : GraphPlot.state) (c : state) : state :=
  mk (selected_height c) (running c) (paused c) (scene c) g (buttons c)
     (start_button c) (reset_button c) (fit_results c) (match_status c).
Definition set_buttons (bs : list Button.state) (c : state) : state :=
  mk (selected_height c) (running c) (paused c) (scene c) (graph c) bs
     (start_button c) (reset_button c) (fit_results c) (match_status c).
Definition set_start_button (b : Button.state) (c : state) : state :=
  mk (selected_height c) (running c) (paused c) (scene c) (graph c)
     (buttons c) b (reset_button c) (fit_results c) (match_status c).
Definition set_reset_button (b : Button.state) (c : state) : state :=
  mk (selected_height c) (running c) (paused c) (scene c) (graph c)
     (buttons c) (start_button c) b (fit_results c) (match_status c).
Definition set_fit_results (f : option FitResults) (c : state) : state :=
  mk (selected_height c) (running c) (paused c) (scene c) (graph c)
     (buttons c) (start_button c) (reset_button c) f (match_status c).
Definition set_match_status (m : string) (c : state) : state :=
  mk (selected_height c) (running c) (paused c) (scene c) (graph c)
     (buttons c) (start_button c) (reset_button c) (fit_results c) m.

(** [enumerate(l)]. *)
Definition enumerate {X : Type} (l : list X) : list (nat * X) :=
  combine (seq 0 (List.length l)) l.

Definition init : state :=
  {| selected_height := nth 0 HEIGHTS 0;
     running := false;
     paused := false;
     scene := InclineScene.init 0 100 LEFT_PANEL_WIDTH (WINDOW_HEIGHT - 100);
     graph := GraphPlot.init (LEFT_PANEL_WIDTH + 20) 400 (RIGHT_PANEL_WIDTH - 40) 200;
     buttons :=
       map (fun ih : nat * Q =>
              let (i, h) := ih in
              Button.init (LEFT_PANEL_WIDTH + 20) (150 + Z.of_nat i * 40) 150 30
                ("h = " ++ py_str_float h ++ " m")%string)
           (enumerate HEIGHTS);
     start_button := Button.init (LEFT_PANEL_WIDTH + 20) 350 150 30 "Start";
     reset_button := Button.init (LEFT_PANEL_WIDTH + 20) 390 150 30 "Reset";
     fit_results := None;
     match_status := "" |}.

(** [float(btn.text.split('=')[1].strip().split()[0])] *)
Definition height_of_text (txt : string) : Exc Q :=
  rhs <- py_getitem (str_split "=" txt) 1 ;;
  word <- py_getitem (str_split_ws (str_strip rhs)) 0 ;;
  py_float word.

(** Body of [if btn.is_clicked(event, mouse_pos):] for a height button. *)
Definition on_height_button (btn : Button.state) (c : state) : Exc state :=
  h <- height_of_text (Button.text btn) ;;
  let c := set_selected_height h c in
  sc <- InclineScene.set_height (selected_height c) (scene c) ;;
  let c := set_scene sc c in
  let c := set_running false c in
  let c := set_paused false c in
  let c := set_start_button (Button.set_text "Start" (start_button c)) c in
  let c := set_graph (GraphPlot.clear (graph c)) c in
  let c := set_fit_results None c in
  Ok (set_match_status "" c).

(** [for btn in self.buttons:], over the buttons still to visit; returns
    them as the loop leaves them (their [clicked] flag may be set). *)
Fixpoint for_buttons (event : Event) (mouse_pos : Z * Z)
    (btns : list Button.state) (c : state)
  : Exc (list Button.state * state) :=
  match btns with
  | [] => Ok ([], c)
  | btn :: rest =>
      let (btn', hit) := Button.is_clicked btn event mouse_pos in
      c1 <- (if hit then on_height_button btn' c else Ok c) ;;
      r <- for_buttons event mouse_pos rest c1 ;;
      Ok (btn' :: fst r, snd r)
  end.

Definition on_start_button (c : state) : state :=
  if negb (running c) then
    let c := set_running true c in
    let c := set_paused false c in
    set_start_button (Button.set_text "Pause" (start_button c)) c
  else
    let c := set_paused (negb (paused c)) c in
    set_start_button
      (Button.set_text (if paused c then "Resume" else "Pause") (start_button c)) c.

Definition on_reset_button (c : state) : state :=
  let c := set_scene (InclineScene.reset (scene c)) c in
  let c := set_running false c in
  let c := set_paused false c in
  let c := set_start_button (Button.set_text "Start" (start_button c)) c in
  let c := set_graph (GraphPlot.clear (graph c)) c in
  let c := set_fit_results None c in
  set_match_status "" c.

(** One turn of [for event in events:] past the two quit tests. *)
Definition handle_event (event : Event) (mouse_pos : Z * Z) (c : state)
  : Exc state :=
  r <- for_buttons event mouse_pos (buttons c) c ;;
  let c := set_buttons (fst r) (snd r) in
  let (sb, hit) := Button.is_clicked (start_button c) event mouse_pos in
  let c := set_start_button sb c in
  let c := if hit then on_start_button c else c in
  let (rb, hit) := Button.is_clicked (reset_button c) event mouse_pos in
  let c := set_reset_button rb c in
  let c := if hit then on_reset_button c else c in
  Ok c.

Definition is_quit (event : Event) : bool :=
  match event with
  | QUIT => true
  | KEYDOWN key => (key =? K_ESCAPE)%Z
  | _ => false
  end.

(** Returns the loop's verdict (keep running or not) and the new state. *)
Fixpoint handle_events (events : list Event) (mouse_pos : Z * Z) (c : state)
  : Exc (bool * state) :=
  match events with
  | [] => Ok (true, c)
  | event :: rest =>
      if is_quit event then Ok (false, c)
      else c' <- handle_event event mouse_pos c ;;
           handle_events rest mouse_pos c'
  end.

(** [self.scene.L / actual_time if actual_time > 0 else 0] *)
Definition measured_speed (L actual_time : Q) : Exc Q :=
  if py_gt actual_time 0 then py_div L actual_time else Ok 0.

(** ["Success" if abs(measured_v - exp_v) <= exp_sd else "Deviation"] *)
Definition verdict (measured_v exp_v exp_sd : Q) : string :=
  if py_le (Qabs (measured_v - exp_v)) exp_sd then "Success" else "Deviation".

(** The argument [1.0 / FPS] of [controller.update] in [main]. *)
Definition frame_dt : Q := 1.0 / inject_Z FPS.

Section Update.
Context `{SciPy}.

Definition power_law (h A_fit p : Q) : Q := A_fit * np_power h p.

Definition update (dt : Q) (c : state) : Exc state :=
  if (running c && negb (paused c))%bool then
    let (sc, sv) := InclineScene.update dt (scene c) in
    let (s, v) := sv in
    let c := set_scene sc c in
    let c := set_graph (GraphPlot.add_point (graph c) s v) c in
    if py_ge s (InclineScene.L (scene c)) then
      let c := set_running false c in
      let c := set_start_button (Button.set_text "Start" (start_button c)) c in
      idx <- py_index (selected_height c) HEIGHTS ;;
      let actual_time := InclineScene.t (scene c) in
      measured_v <- measured_speed (InclineScene.L (scene c)) actual_time ;;
      exp_v <- py_getitem EXP_AVG_SPEEDS idx ;;
      exp_sd <- py_getitem EXP_STD_DEVS idx ;;
      let c := set_match_status (verdict measured_v exp_v exp_sd) c in
      let h_array := HEIGHTS in
      let v_exp := EXP_AVG_SPEEDS in
      let '(slope, intercept, r_value) := linregress h_array v_exp in
      let '(A_fit, p) := curve_fit power_law h_array v_exp in
      Ok (set_fit_results
            (Some {| linear := (slope, intercept, r_value ^ 2);
                     power := (A_fit, p) |}) c)
    else Ok c
  else Ok c.

(** The states the main loop can pass through: it starts from a fresh
    controller and alternates [handle_events], on any events and mouse
    position, with [update(1.0 / FPS)]. *)
Inductive reachable : state -> Prop :=
| reach_init : reachable init
| reach_events c events mouse_pos b c' :
    reachable c ->
    handle_events events mouse_pos c = Ok (b, c') ->
    reachable c'
| reach_update c c' :
    reachable c ->
    update frame_dt c = Ok c' ->
    reachable c'.

(** One iteration of [while running:], drawing left out. *)
Definition frame (events : list Event) (mouse_pos : Z * Z) (c : state)
  : Exc (bool * state) :=
  r <- handle_events events mouse_pos c ;;
  c' <- update frame_dt (snd r) ;;
  Ok (fst r, c').

(** [main]'s loop over the frames it is fed; it stops after the frame
    in which [handle_events] answers [False]. *)
Fixpoint main_loop (frames : list (list Event * (Z * Z))) (c : state)
  : Exc state :=
  match frames with
  | [] => Ok c
  | (events, mouse_pos) :: rest =>
      r <- frame events mouse_pos c ;;
      if fst r then main_loop rest (snd r) else Ok (snd r)
  end.

(** [n] consecutive calls [update(1.0 / FPS)]. *)
Fixpoint ticks (n : nat) (c : state) : Exc state :=
  match n with
  | O => Ok c
  | S n' => c' <- update frame_dt c ;; ticks n' c'
  end.

End Update.

Section Drawing.
Context `{SciPy} `{Display}.

Definition font : Font := ("Arial", 18%Z, false).
Definition header_font : Font := ("Arial", 24%Z, true).

(** The superscript two of the R-squared line, in UTF-8. *)
Definition squared : string :=
  String (ascii_of_nat 194) (String (ascii_of_nat 178) EmptyString).

(** The lines of the read-out. *)
Definition data_texts (c : state) (idx : nat) (len t_theory v_theory : Q)
  : Exc (list string) :=
  exp_v <- py_getitem EXP_AVG_SPEEDS idx ;;
  exp_sd <- py_getitem EXP_STD_DEVS idx ;;
  let base :=
    [ ("Height: " ++ format_float 2 (selected_height c) ++ " m")%string;
      ("Length: " ++ format_float 2 len ++ " m")%string;
      ("Exp. Avg. Speed: " ++ format_float 2 exp_v ++ " m/s")%string;
      ("Exp. SD: " ++ format_float 2 exp_sd ++ " m/s")%string;
      ("Theor. Avg. Speed: " ++ format_float 2 v_theory ++ " m/s")%string;
      ("Theor. Time: " ++ format_float 2 t_theory ++ " s")%string;
      ("Elapsed Time: " ++ format_float 2 (InclineScene.t (scene c)) ++ " s")%string;
      ("Inst. Speed: " ++ format_float 2 (A * InclineScene.t (scene c))
         ++ " m/s")%string ] in
  let verdict_line :=
    if nonempty (match_status c)
    then [("Match: " ++ match_status c)%string] else [] in
  let fit_lines :=
    match fit_results c with
    | Some f =>
        let '(slope, intercept, r2) := linear f in
        let '(A_fit, p) := power f in
        [ ("Linear Fit: v = " ++ format_float 2 slope ++ "h + "
             ++ format_float 2 intercept)%string;
          ("Linear R" ++ squared ++ ": " ++ format_float 4 r2)%string;
          ("Power Fit: v = " ++ format_float 2 A_fit ++ "h^"
             ++ format_float 2 p)%string ]
    | None => []
    end in
  Ok (base ++ verdict_line ++ fit_lines).

(** [draw(surface)]; [mouse_pos] is what [pygame.mouse.get_pos()] answers
    and [fps] what [clock.get_fps()] answers during the call. *)
Definition draw (mouse_pos : Z * Z) (fps : Q) (c : state)
  : Exc (list ScreenCmd) :=
  let title := "Inclined-Plane Velocity Simulation" in
  let background :=
    [ fill LIGHT_GRAY;
      panel_rect LIGHT_BLUE LEFT_PANEL_WIDTH 0 RIGHT_PANEL_WIDTH WINDOW_HEIGHT;
      panel_rect BLACK 50 50 100 100;
      text_at header_font title BLACK
        ((WINDOW_WIDTH / 2 - text_width header_font title / 2)%Z, 20%Z) ] in
  let scene_part := map scene_cmd (InclineScene.draw (scene c)) in
  let button_part :=
    flat_map (fun btn => Button.draw btn (Button.is_hovered btn mouse_pos))
             (buttons c)
    ++ Button.draw (start_button c) (Button.is_hovered (start_button c) mouse_pos)
    ++ Button.draw (reset_button c) (Button.is_hovered (reset_button c) mouse_pos) in
  idx <- py_index (selected_height c) HEIGHTS ;;
  len <- py_getitem PLANE_LENGTHS idx ;;
  t_theory <- math_sqrt (2 * len / A) ;;
  v_theory <- py_div len t_theory ;;
  texts <- data_texts c idx len t_theory v_theory ;;
  let text_part :=
    map (fun it : nat * string =>
           text_at font (snd it) BLACK
             ((LEFT_PANEL_WIDTH + 20)%Z, (600 + Z.of_nat (fst it) * 20)%Z))
        (enumerate texts) in
  graph_part <- GraphPlot.draw (graph c) (selected_height c) ;;
  let fps_text :=
    ("FPS: " ++ NilZero.string_of_int (Z.to_int (py_int fps)))%string in
  Ok (background ++ scene_part ++ button_part ++ text_part
      ++ map graph_cmd graph_part ++ [text_at font fps_text BLACK (10, 10)%Z]).

(** What one iteration of [while running:] is fed: the events and the
    mouse position of [handle_events], and the mouse position and frame
    rate read during [draw]. *)
Record FrameInput : Type := mkFrameInput {
  frame_events : list Event;
  frame_mouse : Z * Z;
  draw_mouse : Z * Z;
  frame_fps : Q
}.

(** One whole iteration of [while running:]: events, update, draw.  The
    answer holds the loop's verdict, the new controller and the screen
    that [flip] shows. *)
Definition frame_drawn (i : FrameInput) (c : state)
  : Exc (bool * state * list ScreenCmd) :=
  r <- handle_events (frame_events i) (frame_mouse i) c ;;
  c' <- update frame_dt (snd r) ;;
  screen <- draw (draw_mouse i) (frame_fps i) c' ;;
  Ok (fst r, c', screen).

(** [main]'s loop with its drawing: the final controller and the screens
    shown, one per iteration. *)
Fixpoint main_loop_drawn (frames : list FrameInput) (c : state)
  : Exc (state * list (list ScreenCmd)) :=
  match frames with
  | [] => Ok (c, [])
  | i :: rest =>
      r <- frame_drawn i c ;;
      let '(go_on, c', screen) := r in
      if go_on
      then r' <- main_loop_drawn rest c' ;; Ok (fst r', screen :: snd r')
      else Ok (c', [screen])
  end.

End Drawing.

End SimulationController.

(** * Notions used to state the properties *)

(** ** Invariants of the main loop *)

Module SceneSpec.
Import InclineScene.

(** What the main loop maintains of a scene: time does not run
    backwards, the displacement lies on the plane, never exceeds the
    kinematic value and equals it short of the end, and the plane length
    is a preset one. *)
Definition inv (sc : state) : Prop :=
  0 <= t sc /\ 0 <= s sc /\ s sc <= L sc /\
  s sc <= 0.5 * A * t sc ^ 2 /\ In (L sc) PLANE_LENGTHS /\
  (s sc < L sc -> s sc == 0.5 * A * t sc ^ 2).

(** An integer count of ticks large enough for the kinematic value to
    pass [len]. *)
Definition enough_ticks (len dt : Q) : nat :=
  Z.to_nat (Z.max 1 (Qceiling (len / (0.5 * A * (dt * dt))))).

End SceneSpec.

Module ControllerSpec.
Import SimulationController.

(** The labels and rectangles of the height buttons are those given at
    construction; clicks only set the [clicked] flag. *)
Definition buttons_ok (bs : list Button.state) : Prop :=
  map Button.rect bs = map Button.rect (buttons init) /\
  map Button.text bs = map Button.text (buttons init).

Definition layout (c : state) : Prop :=
  buttons_ok (buttons c) /\
  Button.rect (start_button c) = Button.rect (start_button init) /\
  Button.rect (reset_button c) = Button.rect (reset_button init).

(** The selected height is a preset and the scene's plane length is the
    one at its index. *)
Definition selection_ok (c : state) : Prop :=
  exists idx : nat,
    py_index (selected_height c) HEIGHTS = Ok idx /\
    nth_error PLANE_LENGTHS idx = Some (InclineScene.L (scene c)).

(** The part of the invariant that the loop over the height buttons
    works on; the buttons themselves are put back afterwards. *)
Definition core (c : state) : Prop :=
  SceneSpec.inv (scene c) /\ selection_ok c /\
  Button.rect (start_button c) = Button.rect (start_button init) /\
  Button.rect (reset_button c) = Button.rect (reset_button init).

Definition inv (c : state) : Prop := core c /\ buttons_ok (buttons c).

(** The seven widgets, top to bottom. *)
Definition widget_rects : list Rect :=
  map Button.rect (buttons init)
    ++ [Button.rect (start_button init); Button.rect (reset_button init)].

End ControllerSpec.

(** ** Reading the drawing commands *)

Definition color_eqb (a b : Color) : bool :=
  let '(r1, g1, b1) := a in
  let '(r2, g2, b2) := b in
  ((r1 =? r2) && (g1 =? g2) && (b1 =? b2))%Z%bool.

(** The line segments of a given colour among the drawing commands, in
    drawing order, and likewise the circles. *)
Definition lines_of (color : Color) (cmds : list DrawCmd) : list DrawCmd :=
  filter (fun cmd => match cmd with
                     | draw_line col _ _ _ => color_eqb col color
                     | _ => false
                     end) cmds.

Definition circles_of (color : Color) (cmds : list DrawCmd) : list DrawCmd :=
  filter (fun cmd => match cmd with
                     | draw_circle col _ _ => color_eqb col color
                     | _ => false
                     end) cmds.

(** ** Sample inputs

    [no_fit] stands in for scipy where the model is run on concrete
    inputs: it fits nothing and returns fixed parameters, which is all the
    examples need. *)

Definition no_fit : SciPy :=
  {| linregress := fun _ _ => (0, 0, 0);
     curve_fit := fun _ _ _ => (1, 1);
     np_power := fun h _ => h |}.

Definition get_ok {X : Type} (d : X) (m : Exc X) : X :=
  match m with Ok x => x | Raise _ => d end.

(** A stand-in for the font, the float formatting and the square root:
    every character ten pixels wide, floats printed in full, and the
    square root by four steps of Newton's iteration from 1. *)
Definition newton_sqrt (x : Q) : Q :=
  Nat.iter 4 (fun y => Qred ((y + x / y) / 2)) 1.

Definition plain_display : Display :=
  {| text_width := fun _ txt => (10 * Z.of_nat (String.length txt))%Z;
     format_float := fun _ x => py_str_float x;
     sqrt_value := newton_sqrt |}.

Module Sample.
Import SimulationController.
#[local] Existing Instance no_fit.

(** A fresh controller after a click on the start button. *)
Definition c_started : state :=
  snd (get_ok (true, init) (handle_events [MOUSEBUTTONDOWN] (630, 355)%Z init)).

(** The same after 27 ticks, one short of the end of the 0.5 m plane,
    and after 28 ticks, when the run has completed. *)
Definition c_before_end : state := get_ok c_started (ticks 27 c_started).
Definition c_done : state := get_ok c_started (ticks 28 c_started).

(** Number of ticks a run takes on the plane of the [i]-th preset. *)
Fixpoint first_done (fuel : nat) (n : nat) (sc : InclineScene.state) : option nat :=
  match fuel with
  | O => None
  | S fuel' =>
      if py_ge (InclineScene.s sc) (InclineScene.L sc) then Some n
      else first_done fuel' (S n) (fst (InclineScene.update frame_dt sc))
  end.

Definition ticks_needed (h : Q) : option nat :=
  match InclineScene.set_height h (scene init) with
  | Ok sc => first_done 100 0 sc
  | Raise _ => None
  end.

(** A run on the longest plane: the 1.25 m button, then start, then the
    61 ticks the run takes. *)
Definition c_long_started : state :=
  let c := snd (get_ok (true, init)
                  (handle_events [MOUSEBUTTONDOWN] (630, 320)%Z init)) in
  snd (get_ok (true, c) (handle_events [MOUSEBUTTONDOWN] (630, 355)%Z c)).
Definition c_long_done : state := get_ok c_long_started (ticks 61 c_long_started).

(** A running controller on the 1.0 m plane (experimental mean 1.0,
    deviation 0.04) whose next tick ends the run after [time_after]
    seconds; with 1 s the measured speed is on the mean.  The main loop
    reaches no such state. *)
Definition about_to_end (time_after : Q) : state :=
  set_scene
    (InclineScene.mk (InclineScene.rect (scene init))
       (InclineScene.incline_start (scene init))
       (InclineScene.block_size (scene init))
       (InclineScene.block_pos (scene init))
       (time_after - frame_dt) 0.9 1.00)
    (set_selected_height 0.50 (set_running true init)).
Definition c_on_target : state := about_to_end 1.

End Sample.

(** ** What the main loop maintains beyond the invariant above *)

Module LoopSpec.
Import SimulationController.

(** The label the start button carries in each state of the controller. *)
Definition start_label (is_running is_paused : bool) : string :=
  if is_running then (if is_paused then "Resume" else "Pause") else "Start".

(** Two controllers that differ at most in their widgets' rectangles and
    [clicked] flags. *)
Definition same_view (c c' : state) : Prop :=
  selected_height c' = selected_height c /\
  running c' = running c /\ paused c' = paused c /\
  scene c' = scene c /\ graph c' = graph c /\
  Button.text (start_button c') = Button.text (start_button c) /\
  fit_results c' = fit_results c /\ match_status c' = match_status c.

Definition flags_ok (c : state) : Prop :=
  (paused c = true -> running c = true) /\
  Button.text (start_button c) = start_label (running c) (paused c).

(** Elapsed time is a whole number of frames, and when the end of the
    plane has been reached the frame before was still short of it. *)
Definition time_ok (sc : InclineScene.state) : Prop :=
  (exists k : nat,
      InclineScene.t sc == inject_Z (Z.of_nat k) * frame_dt) /\
  (InclineScene.L sc <= InclineScene.s sc ->
   0.5 * A * (InclineScene.t sc - frame_dt) ^ 2 < InclineScene.L sc).

(** Every recorded sample lies between 0 and the present displacement,
    with a speed that is not negative. *)
Definition trace_ok (c : state) : Prop :=
  Forall (fun sv : Q * Q =>
            0 <= fst sv /\ fst sv <= InclineScene.s (scene c) /\ 0 <= snd sv)
         (GraphPlot.points (graph c)).

(** The block sits where its displacement puts it on the incline. *)
Definition block_ok (sc : InclineScene.state) : Prop :=
  InclineScene.incline_start sc = (50, 718)%Z /\
  InclineScene.block_size sc = 30%Z /\
  fst (InclineScene.block_pos sc)
    == fst (InclineScene.screen_pos sc (InclineScene.s sc)) /\
  snd (InclineScene.block_pos sc)
    == snd (InclineScene.screen_pos sc (InclineScene.s sc)).

(** Number of frames a run takes on each preset plane. *)
Definition run_frames : list nat := [28; 39; 47; 55; 61]%nat.

Section Fit.
Context `{SciPy}.

(** The dictionary [update] stores when a run completes. *)
Definition the_fit : FitResults :=
  let '(slope, intercept, r_value) := linregress HEIGHTS EXP_AVG_SPEEDS in
  let '(A_fit, p) := curve_fit power_law HEIGHTS EXP_AVG_SPEEDS in
  {| linear := (slope, intercept, r_value ^ 2); power := (A_fit, p) |}.

Definition fit_ok (c : state) : Prop :=
  (fit_results c = None /\ match_status c = "") \/
  (fit_results c = Some the_fit /\ match_status c = "Deviation" /\
   InclineScene.L (scene c) <= InclineScene.s (scene c)).

(** All of the above, for a controller. *)
Definition view_inv (c : state) : Prop :=
  SceneSpec.inv (scene c) /\ flags_ok c /\ time_ok (scene c) /\
  trace_ok c /\ block_ok (scene c) /\ fit_ok c.

End Fit.

End LoopSpec.

(** * Properties *)

(** Split a conjunction into its parts without unfolding definitions. *)
Ltac splits := repeat match goal with |- _ /\ _ => split end.

Ltac simpl_state :=
  cbn [SimulationController.selected_height SimulationController.running
       SimulationController.paused SimulationController.scene
       SimulationController.graph SimulationController.buttons
       SimulationController.start_button SimulationController.reset_button
       SimulationController.fit_results SimulationController.match_status
       SimulationController.set_selected_height SimulationController.set_running
       SimulationController.set_paused SimulationController.set_scene
       SimulationController.set_graph SimulationController.set_buttons
       SimulationController.set_start_button
       SimulationController.set_reset_button
       SimulationController.set_fit_results
       SimulationController.set_match_status
       Button.rect Button.text Button.set_text
       GraphPlot.points GraphPlot.clear GraphPlot.add_point fst snd] in *.

(** ** Comparisons and built-ins *)

Lemma py_lt_spec (x y : Q) : py_lt x y = true <-> x < y.
Proof.
  unfold py_lt; destruct (Qlt_le_dec x y) as [Hlt | Hle]; split; intros Hx;
    try reflexivity; try assumption; try discriminate.
  exfalso; apply (Qlt_irrefl x); apply Qlt_le_trans with y; assumption.
Qed.

Lemma py_lt_false (x y : Q) : py_lt x y = false <-> y <= x.
Proof.
  unfold py_lt; destruct (Qlt_le_dec x y) as [Hlt | Hle]; split; intros Hx;
    try reflexivity; try assumption; try discriminate.
  exfalso; apply (Qlt_irrefl x); apply Qlt_le_trans with y; assumption.
Qed.

Lemma py_le_spec (x y : Q) : py_le x y = true <-> x <= y.
Proof.
  unfold py_le; destruct (Qlt_le_dec y x) as [Hlt | Hle]; split; intros Hx;
    try reflexivity; try assumption; try discriminate.
  exfalso; apply (Qlt_irrefl y); apply Qlt_le_trans with x; assumption.
Qed.

Lemma py_le_false (x y : Q) : py_le x y = false <-> y < x.
Proof.
  unfold py_le; destruct (Qlt_le_dec y x) as [Hlt | Hle]; split; intros Hx;
    try reflexivity; try assumption; try discriminate.
  exfalso; apply (Qlt_irrefl y); apply Qlt_le_trans with x; assumption.
Qed.

Lemma py_gt_spec (x y : Q) : py_gt x y = true <-> y < x.
Proof. apply py_lt_spec. Qed.

Lemma py_gt_false (x y : Q) : py_gt x y = false <-> x <= y.
Proof. apply py_lt_false. Qed.

Lemma py_ge_spec (x y : Q) : py_ge x y = true <-> y <= x.
Proof. apply py_le_spec. Qed.

Lemma py_ge_false (x y : Q) : py_ge x y = false <-> x < y.
Proof. apply py_le_false. Qed.

Lemma sq_power (x : Q) : x ^ 2 == x * x.
Proof. reflexivity. Qed.

Lemma A_value : A == 4.9.
Proof. reflexivity. Qed.

Lemma frame_dt_pos : 0 < SimulationController.frame_dt.
Proof. reflexivity. Qed.

(** ** The preset tables *)

Lemma tables_length :
  List.length HEIGHTS = 5%nat /\ List.length PLANE_LENGTHS = 5%nat /\
  List.length EXP_AVG_SPEEDS = 5%nat /\ List.length EXP_STD_DEVS = 5%nat.
Proof. repeat split. Qed.

(** C3: at every index of the five-entry tables, the plane length is the
    height at that index divided by sin 30 degrees, that is, twice the
    height. *)
Theorem C3_plane_length_is_height_over_sin (i : nat) :
  (i < 5)%nat ->
  exists h len : Q,
    nth_error HEIGHTS i = Some h /\
    nth_error PLANE_LENGTHS i = Some len /\
    len == h / SIN_THETA /\
    len == 2 * h.
Proof.
  intros Hi.
  do 5 (destruct i as [| i];
        [eexists; eexists; repeat split; reflexivity | ]).
  lia.
Qed.

Lemma C3_plane_length_witness :
  exists h len : Q,
    nth_error HEIGHTS 3 = Some h /\
    nth_error PLANE_LENGTHS 3 = Some len /\
    len == h / SIN_THETA /\
    len == 2 * h.
Proof.
  apply (C3_plane_length_is_height_over_sin 3). lia.
Defined.

(** ** The scene *)

Module SceneFacts.
Import InclineScene SceneSpec.

Lemma update_L (dt : Q) (sc : state) : L (fst (update dt sc)) = L sc.
Proof. unfold update; simpl. destruct (py_lt (s sc) (L sc)); reflexivity. Qed.

(** A scene that has reached the end of the plane is left alone. *)
Lemma update_done (dt : Q) (sc : state) :
  L sc <= s sc -> update dt sc = (sc, (s sc, A * t sc)).
Proof.
  intros Hdone. unfold update.
  apply py_lt_false in Hdone. rewrite Hdone. reflexivity.
Qed.

Lemma update_moving (dt : Q) (sc : state) :
  s sc < L sc ->
  t (fst (update dt sc)) = t sc + dt /\
  (0.5 * A * (t sc + dt) ^ 2 <= L sc ->
     s (fst (update dt sc)) = 0.5 * A * (t sc + dt) ^ 2) /\
  (L sc < 0.5 * A * (t sc + dt) ^ 2 -> s (fst (update dt sc)) = L sc).
Proof.
  intros Hmov. unfold update.
  apply py_lt_spec in Hmov. rewrite Hmov. cbn [fst t s].
  split; [reflexivity | split; intros Hc].
  - apply py_gt_false in Hc. rewrite Hc. reflexivity.
  - apply py_gt_spec in Hc. rewrite Hc. reflexivity.
Qed.

Lemma run_L (n : nat) (dt : Q) (sc : state) : L (run n dt sc) = L sc.
Proof.
  revert sc; induction n as [| n IH]; intros sc; cbn [run]; [reflexivity | ].
  rewrite IH. apply update_L.
Qed.

Lemma run_done (n : nat) (dt : Q) (sc : state) :
  L sc <= s sc -> run n dt sc = sc.
Proof.
  intros Hdone; induction n as [| n IH]; cbn [run]; [reflexivity | ].
  rewrite (update_done dt sc Hdone). exact IH.
Qed.

Lemma plane_length_pos (x : Q) : In x PLANE_LENGTHS -> 0 < x.
Proof.
  unfold PLANE_LENGTHS; simpl.
  intros [E | [E | [E | [E | [E | []]]]]]; subst x; reflexivity.
Qed.

Lemma inv_reset (sc : state) : In (L sc) PLANE_LENGTHS -> inv (reset sc).
Proof.
  intros HL. unfold inv, reset; cbn [t s L].
  repeat split; try (apply Qle_refl); try assumption; try discriminate.
  apply Qlt_le_weak, plane_length_pos, HL.
Qed.

Lemma inv_init (x y w h : Z) : inv (init x y w h).
Proof.
  unfold inv, init; cbn [t s L].
  repeat split; try discriminate. simpl; auto.
Qed.

Lemma sq_mono (x y : Q) : 0 <= x -> x <= y -> x * x <= y * y.
Proof. intros; nra. Qed.

Lemma inv_update (dt : Q) (sc : state) :
  0 <= dt -> inv sc -> inv (fst (update dt sc)) /\ s sc <= s (fst (update dt sc)).
Proof.
  intros Hdt (Ht & Hs0 & HsL & Hkin & HL & Hfree).
  destruct (Qlt_le_dec (s sc) (L sc)) as [Hmov | Hdone].
  - destruct (update_moving dt sc Hmov) as (Et & Ele & Egt).
    assert (Hgrow : 0.5 * A * t sc ^ 2 <= 0.5 * A * (t sc + dt) ^ 2).
    { rewrite !sq_power, A_value.
      assert (t sc * t sc <= (t sc + dt) * (t sc + dt)) by (apply sq_mono; lra).
      lra. }
    unfold inv. rewrite update_L, Et.
    destruct (Qlt_le_dec (L sc) (0.5 * A * (t sc + dt) ^ 2)) as [Hc | Hc].
    + rewrite (Egt Hc). repeat split; try lra; assumption.
    + rewrite (Ele Hc). repeat split; try lra; assumption.
  - rewrite (update_done dt sc Hdone). cbn [fst].
    unfold inv; repeat split; try assumption; apply Qle_refl.
Qed.

Lemma inv_run (n : nat) (dt : Q) (sc : state) :
  0 <= dt -> inv sc -> inv (run n dt sc) /\ s sc <= s (run n dt sc).
Proof.
  intros Hdt; revert sc; induction n as [| n IH]; intros sc Hinv; cbn [run].
  - split; [assumption | apply Qle_refl].
  - destruct (inv_update dt sc Hdt Hinv) as [Hinv1 Hle1].
    destruct (IH _ Hinv1) as [Hinv2 Hle2].
    split; [assumption | lra].
Qed.

(** Until the end of the plane is reached, [n] updates add [n * dt] to the
    elapsed time. *)
Lemma run_time (n : nat) (dt : Q) (sc : state) :
  L sc <= s (run n dt sc) \/
  t (run n dt sc) == t sc + inject_Z (Z.of_nat n) * dt.
Proof.
  revert sc; induction n as [| n IH]; intros sc.
  - right. cbn [run]. change (inject_Z (Z.of_nat 0)) with 0. lra.
  - destruct (Qlt_le_dec (s sc) (L sc)) as [Hmov | Hdone].
    + cbn [run].
      destruct (IH (fst (update dt sc))) as [Hd | Ht].
      * left. rewrite update_L in Hd. exact Hd.
      * right. rewrite Ht.
        destruct (update_moving dt sc Hmov) as (Et & _). rewrite Et.
        rewrite Nat2Z.inj_succ. unfold Z.succ. rewrite inject_Z_plus.
        change (inject_Z 1) with 1. lra.
    + left. rewrite (run_done _ dt sc Hdone). exact Hdone.
Qed.

Lemma sq_dominates (x N d : Q) :
  0 < d -> 1 <= N -> x <= N -> x * d <= N * N * d.
Proof.
  intros Hd H1 Hx.
  assert (Ha : x * d <= N * d) by nra.
  assert (Hn : N <= N * N) by nra.
  assert (Hb : N * d <= N * N * d) by (apply Qmult_le_compat_r; lra).
  lra.
Qed.

Lemma enough_ticks_spec (len dt : Q) :
  0 < dt ->
  len <= 0.5 * A * (inject_Z (Z.of_nat (enough_ticks len dt)) * dt) ^ 2.
Proof.
  intros Hdt. unfold enough_ticks.
  set (d := 0.5 * A * (dt * dt)).
  assert (Hd : 0 < d).
  { unfold d. rewrite A_value. nra. }
  set (z := Z.max 1 (Qceiling (len / d))).
  assert (Hz1 : (1 <= z)%Z) by (unfold z; lia).
  rewrite Z2Nat.id by lia.
  assert (Hn1 : 1 <= inject_Z z).
  { change 1 with (inject_Z 1). rewrite <- Zle_Qle. exact Hz1. }
  assert (Hnx : len / d <= inject_Z z).
  { apply Qle_trans with (inject_Z (Qceiling (len / d))).
    - apply Qle_ceiling.
    - rewrite <- Zle_Qle. unfold z; lia. }
  assert (Hx : len == (len / d) * d).
  { field. intros E. rewrite E in Hd. apply (Qlt_irrefl 0 Hd). }
  rewrite sq_power.
  setoid_replace (0.5 * A * (inject_Z z * dt * (inject_Z z * dt)))
    with (inject_Z z * inject_Z z * d) by (unfold d; ring).
  rewrite Hx at 1.
  apply sq_dominates; assumption.
Qed.

(** Every run ends: from a scene the main loop can hold, finitely many
    ticks of a positive size bring the displacement to the plane length. *)
Lemma run_completes (dt : Q) (sc : state) :
  0 < dt -> inv sc ->
  exists n : nat, L sc <= s (run n dt sc).
Proof.
  intros Hdt Hinv.
  exists (enough_ticks (L sc) dt).
  set (n := enough_ticks (L sc) dt).
  destruct (Qlt_le_dec (s (run n dt sc)) (L sc)) as [Hshort | Hdone];
    [exfalso | exact Hdone].
  destruct (run_time n dt sc) as [Hd | Ht]; [lra | ].
  destruct (inv_run n dt sc (Qlt_le_weak _ _ Hdt) Hinv) as [Hinvn _].
  destruct Hinvn as (_ & _ & _ & _ & _ & Hfree).
  rewrite run_L in Hfree. specialize (Hfree Hshort).
  pose proof (enough_ticks_spec (L sc) dt Hdt) as Hen. fold n in Hen.
  destruct Hinv as (Ht0 & _).
  rewrite Ht in Hfree. rewrite sq_power in Hfree, Hen.
  rewrite A_value in Hfree, Hen.
  set (N := inject_Z (Z.of_nat n)) in *.
  assert (HN : 0 <= N).
  { unfold N. change 0 with (inject_Z 0). rewrite <- Zle_Qle. lia. }
  assert (Hmono : N * dt * (N * dt) <= (t sc + N * dt) * (t sc + N * dt)).
  { apply sq_mono; nra. }
  lra.
Qed.

End SceneFacts.

(** ** The controller *)

Module ControllerFacts.
Import SimulationController ControllerSpec.

Lemma measured_speed_spec (len time : Q) :
  exists v : Q,
    measured_speed len time = Ok v /\
    (0 < time -> v = len / time) /\
    (time <= 0 -> v = 0).
Proof.
  unfold measured_speed.
  destruct (py_gt time 0) eqn:Hgt.
  - apply py_gt_spec in Hgt.
    exists (len / time). unfold py_div.
    destruct (Qeq_bool time 0) eqn:Hz.
    + apply Qeq_bool_eq in Hz. rewrite Hz in Hgt.
      exfalso; apply (Qlt_irrefl 0 Hgt).
    + repeat split; intros; try reflexivity. exfalso; lra.
  - apply py_gt_false in Hgt.
    exists 0. repeat split; intros; try reflexivity. exfalso; lra.
Qed.

Lemma inv_layout (c : state) : inv c -> layout c.
Proof. intros [(_ & _ & Hs & Hr) Hb]. repeat split; try assumption; apply Hb. Qed.

Lemma controller_inv_init : inv init.
Proof.
  split; [split; [apply SceneFacts.inv_init | ] | split; reflexivity].
  split; [ | split; reflexivity].
  exists 0%nat. split; reflexivity.
Qed.

(** Each label reads back as the height it was printed from. *)
Lemma height_of_label (txt : string) :
  In txt (map Button.text (buttons init)) ->
  exists (h : Q) (idx : nat) (len : Q),
    height_of_text txt = Ok h /\
    py_index h HEIGHTS = Ok idx /\
    nth_error PLANE_LENGTHS idx = Some len /\
    nth_error (map Button.text (buttons init)) idx = Some txt.
Proof.
  intros Hin.
  change (map Button.text (buttons init))
    with ["h = 0.25 m"; "h = 0.5 m"; "h = 0.75 m"; "h = 1.0 m"; "h = 1.25 m"]
    in *.
  destruct Hin as [E | [E | [E | [E | [E | []]]]]]; subst txt;
    eexists; eexists; eexists;
    (split; [vm_compute; reflexivity | ]);
    (split; [vm_compute; reflexivity | ]);
    split; reflexivity.
Qed.

Lemma set_height_ok (h : Q) (idx : nat) (len : Q) (sc : InclineScene.state) :
  py_index h HEIGHTS = Ok idx ->
  nth_error PLANE_LENGTHS idx = Some len ->
  exists sc' : InclineScene.state,
    InclineScene.set_height h sc = Ok sc' /\
    InclineScene.L sc' = len /\ InclineScene.t sc' = 0 /\
    InclineScene.s sc' = 0 /\
    InclineScene.block_pos sc' = ZQ (InclineScene.incline_start sc) /\
    SceneSpec.inv sc'.
Proof.
  intros Hidx Hlen. unfold InclineScene.set_height.
  rewrite Hidx. cbn [bind]. unfold py_getitem. rewrite Hlen. cbn [bind].
  eexists. repeat (split; [reflexivity | ]).
  apply SceneFacts.inv_reset. cbn [InclineScene.L].
  eapply nth_error_In; eassumption.
Qed.

(** Effect of the branch taken for a clicked height button. *)
Lemma on_height_button_spec (btn : Button.state) (c : state) :
  In (Button.text btn) (map Button.text (buttons init)) ->
  exists (h : Q) (idx : nat) (len : Q) (c' : state),
    height_of_text (Button.text btn) = Ok h /\
    py_index h HEIGHTS = Ok idx /\
    nth_error PLANE_LENGTHS idx = Some len /\
    nth_error (map Button.text (buttons init)) idx = Some (Button.text btn) /\
    on_height_button btn c = Ok c' /\
    selected_height c' = h /\
    InclineScene.L (scene c') = len /\
    InclineScene.t (scene c') = 0 /\
    InclineScene.s (scene c') = 0 /\
    InclineScene.block_pos (scene c') = ZQ (InclineScene.incline_start (scene c)) /\
    SceneSpec.inv (scene c') /\
    running c' = false /\ paused c' = false /\
    Button.text (start_button c') = "Start" /\
    Button.rect (start_button c') = Button.rect (start_button c) /\
    reset_button c' = reset_button c /\
    buttons c' = buttons c /\
    GraphPlot.points (graph c') = [] /\
    fit_results c' = None /\ match_status c' = "".
Proof.
  intros Hin.
  destruct (height_of_label _ Hin) as (h & idx & len & Hh & Hidx & Hlen & Hnth).
  destruct (set_height_ok h idx len (scene c) Hidx Hlen)
    as (sc' & Hset & HL & Ht & Hs & Hb & Hinv).
  exists h, idx, len. unfold on_height_button.
  rewrite Hh. cbn [bind]. cbn [selected_height set_selected_height scene].
  rewrite Hset. cbn [bind].
  eexists. splits; try eassumption; try reflexivity;
    cbn [scene set_match_status set_fit_results set_graph set_start_button
         set_paused set_running set_scene set_selected_height];
    assumption.
Qed.

(** *** Clicks and geometry *)

Lemma is_clicked_keeps (b : Button.state) (ev : Event) (pos : Z * Z) :
  Button.rect (fst (Button.is_clicked b ev pos)) = Button.rect b /\
  Button.text (fst (Button.is_clicked b ev pos)) = Button.text b.
Proof.
  unfold Button.is_clicked.
  destruct ev; try (split; reflexivity).
  destruct (Button.is_hovered b pos); split; reflexivity.
Qed.

Lemma is_clicked_miss (b : Button.state) (pos : Z * Z) :
  Button.is_hovered b pos = false ->
  Button.is_clicked b MOUSEBUTTONDOWN pos = (b, false).
Proof. intros Hm. unfold Button.is_clicked. rewrite Hm. reflexivity. Qed.

Lemma is_clicked_hit (b : Button.state) (pos : Z * Z) :
  Button.is_hovered b pos = true ->
  Button.is_clicked b MOUSEBUTTONDOWN pos =
    (Button.mk (Button.rect b) (Button.text b) true, true).
Proof. intros Hm. unfold Button.is_clicked. rewrite Hm. reflexivity. Qed.

Lemma widget_rect (k : nat) (r : Rect) :
  nth_error widget_rects k = Some r ->
  r = mkRect 620 (150 + 40 * Z.of_nat k) 150 30.
Proof.
  intros Hk.
  do 7 (destruct k as [| k]; [injection Hk as <-; reflexivity | ]).
  destruct k; discriminate.
Qed.

(** The widgets do not overlap: a point lies in at most one of them. *)
Lemma widgets_disjoint (k1 k2 : nat) (r1 r2 : Rect) (pos : Z * Z) :
  nth_error widget_rects k1 = Some r1 ->
  nth_error widget_rects k2 = Some r2 ->
  k1 <> k2 ->
  collidepoint r1 pos = true -> collidepoint r2 pos = false.
Proof.
  intros H1 H2 Hne Hin.
  apply widget_rect in H1, H2. subst r1 r2.
  unfold collidepoint, rect_left, rect_right, rect_top, rect_bottom in *.
  cbn [rx ry rw rh] in *.
  destruct pos as [x y]; cbn [fst snd] in *.
  apply andb_true_iff in Hin; destruct Hin as [Hin Hd].
  apply andb_true_iff in Hin; destruct Hin as [Hin Hc].
  apply andb_true_iff in Hin; destruct Hin as [Ha Hb].
  apply Z.leb_le in Ha, Hc. apply Z.ltb_lt in Hb, Hd.
  destruct (150 + 40 * Z.of_nat k2 <=? y)%Z eqn:E1;
    destruct (y <? 150 + 40 * Z.of_nat k2 + 30)%Z eqn:E2;
    rewrite ?andb_false_r; try reflexivity.
  apply Z.leb_le in E1. apply Z.ltb_lt in E2. lia.
Qed.

Lemma height_button_rect (c : state) (j : nat) (b : Button.state) :
  layout c -> nth_error (buttons c) j = Some b ->
  nth_error widget_rects j = Some (Button.rect b).
Proof.
  intros [[Hr _] _] Hj. unfold widget_rects.
  rewrite nth_error_app1.
  - rewrite <- Hr. rewrite nth_error_map, Hj. reflexivity.
  - rewrite <- Hr, length_map. apply nth_error_Some. congruence.
Qed.

Lemma start_button_rect (c : state) :
  layout c -> nth_error widget_rects 5 = Some (Button.rect (start_button c)).
Proof. intros (_ & Hs & _). rewrite Hs. reflexivity. Qed.

Lemma reset_button_rect (c : state) :
  layout c -> nth_error widget_rects 6 = Some (Button.rect (reset_button c)).
Proof. intros (_ & _ & Hr). rewrite Hr. reflexivity. Qed.

Lemma for_buttons_miss (ev : Event) (pos : Z * Z)
    (btns : list Button.state) (c : state) :
  (forall b, In b btns -> Button.is_clicked b ev pos = (b, false)) ->
  for_buttons ev pos btns c = Ok (btns, c).
Proof.
  induction btns as [| b rest IH]; intros Hmiss; cbn [for_buttons].
  - reflexivity.
  - rewrite (Hmiss b (or_introl eq_refl)). cbn [bind].
    rewrite IH by (intros b' Hb'; apply Hmiss; right; exact Hb').
    reflexivity.
Qed.

Lemma for_buttons_hit (pos : Z * Z) (pre post : list Button.state)
    (b : Button.state) (c : state) :
  (forall b', In b' pre -> Button.is_hovered b' pos = false) ->
  (forall b', In b' post -> Button.is_hovered b' pos = false) ->
  Button.is_hovered b pos = true ->
  for_buttons MOUSEBUTTONDOWN pos (pre ++ b :: post) c =
    (let b1 := Button.mk (Button.rect b) (Button.text b) true in
     c1 <- on_height_button b1 c ;; Ok (pre ++ b1 :: post, c1)).
Proof.
  intros Hpre Hpost Hb.
  induction pre as [| p pre IH]; cbn [app for_buttons].
  - rewrite (is_clicked_hit b pos Hb).
    destruct (on_height_button _ c) as [c1 | e]; cbn [bind]; [ | reflexivity].
    rewrite for_buttons_miss; [reflexivity | ].
    intros b' Hb'. apply is_clicked_miss, Hpost, Hb'.
  - rewrite (is_clicked_miss p pos) by (apply Hpre; left; reflexivity).
    cbn [bind]. rewrite IH by (intros b' Hb'; apply Hpre; right; exact Hb').
    cbn zeta.
    destruct (on_height_button _ c) as [c1 | e]; reflexivity.
Qed.

(** *** The invariant of the main loop *)

Lemma core_frame (c c' : state) :
  core c ->
  SceneSpec.inv (scene c') ->
  InclineScene.L (scene c') = InclineScene.L (scene c) ->
  selected_height c' = selected_height c ->
  Button.rect (start_button c') = Button.rect (start_button c) ->
  Button.rect (reset_button c') = Button.rect (reset_button c) ->
  core c'.
Proof.
  intros (_ & (idx & Hidx & Hlen) & Hs & Hr) Hsc HL Hh Hs' Hr'.
  split; [exact Hsc | split; [ | split; congruence]].
  exists idx. rewrite Hh, HL. split; assumption.
Qed.

Lemma for_buttons_core (ev : Event) (pos : Z * Z)
    (btns : list Button.state) (c : state) :
  (forall b, In b btns -> In (Button.text b) (map Button.text (buttons init))) ->
  core c ->
  exists (bs' : list Button.state) (c' : state),
    for_buttons ev pos btns c = Ok (bs', c') /\
    core c' /\
    map Button.rect bs' = map Button.rect btns /\
    map Button.text bs' = map Button.text btns.
Proof.
  revert c; induction btns as [| b rest IH]; intros c Htxt Hcore;
    cbn [for_buttons].
  - exists [], c. splits; auto.
  - destruct (is_clicked_keeps b ev pos) as [Hr Ht].
    destruct (Button.is_clicked b ev pos) as [b' hit]; cbn [fst] in Hr, Ht.
    assert (Hstep : exists c1, (if hit then on_height_button b' c else Ok c) = Ok c1
                               /\ core c1).
    { destruct hit; [ | exists c; split; [reflexivity | assumption]].
      assert (Hin : In (Button.text b') (map Button.text (buttons init))).
      { rewrite Ht. apply Htxt. left; reflexivity. }
      destruct (on_height_button_spec b' c Hin)
        as (h & idx & len & c1 & _ & Hidx & Hlen & _ & Hrun & Hsel & HL & _ & _
            & _ & Hinv & _ & _ & _ & Hsr & Hrb & _).
      exists c1. split; [exact Hrun | ].
      destruct Hcore as (_ & _ & Hs & Hrr).
      split; [exact Hinv | split; [ | split; congruence]].
      exists idx. rewrite Hsel, HL. split; assumption. }
    destruct Hstep as (c1 & -> & Hcore1). cbn [bind].
    destruct (IH c1) as (bs' & c' & -> & Hcore' & Hrs & Hts); [ | exact Hcore1 | ].
    { intros b0 Hb0. apply Htxt. right; exact Hb0. }
    cbn [bind fst snd]. exists (b' :: bs'), c'.
    splits; [reflexivity | exact Hcore' | | ]; cbn [map]; congruence.
Qed.

Lemma buttons_ok_texts (bs : list Button.state) :
  buttons_ok bs ->
  forall b, In b bs -> In (Button.text b) (map Button.text (buttons init)).
Proof.
  intros [_ Ht] b Hb. rewrite <- Ht. apply in_map, Hb.
Qed.

Lemma core_on_start_button (c : state) : core c -> core (on_start_button c).
Proof.
  intros Hc. unfold on_start_button.
  destruct (negb (running c)); apply (core_frame c);
    try exact Hc; try reflexivity; simpl_state; apply Hc.
Qed.

Lemma core_on_reset_button (c : state) : core c -> core (on_reset_button c).
Proof.
  intros Hc. apply (core_frame c); try exact Hc; try reflexivity.
  unfold on_reset_button; simpl_state.
  apply SceneFacts.inv_reset. apply Hc.
Qed.

Lemma handle_event_inv (ev : Event) (pos : Z * Z) (c : state) :
  inv c -> exists c', handle_event ev pos c = Ok c' /\ inv c'.
Proof.
  intros [Hcore Hbs]. unfold handle_event.
  destruct (for_buttons_core ev pos (buttons c) c (buttons_ok_texts _ Hbs) Hcore)
    as (bs' & c1 & -> & Hcore1 & Hrs & Hts).
  cbn [bind fst snd].
  set (c2 := set_buttons bs' c1).
  assert (Hcore2 : core c2)
    by (apply (core_frame c1); try exact Hcore1; try reflexivity; apply Hcore1).
  assert (Hbs2 : buttons_ok (buttons c2)).
  { unfold c2; simpl_state. destruct Hbs as [Hr Ht]. split; congruence. }
  clearbody c2.
  destruct (is_clicked_keeps (start_button c2) ev pos) as [Hr _].
  destruct (Button.is_clicked (start_button c2) ev pos) as [sb hit1].
  cbn [fst] in Hr.
  set (c3 := set_start_button sb c2).
  assert (Hcore3 : core c3)
    by (apply (core_frame c2); try exact Hcore2; try exact Hr; try reflexivity;
        apply Hcore2).
  assert (Hbs3 : buttons c3 = buttons c2) by reflexivity.
  clearbody c3.
  set (c4 := if hit1 then on_start_button c3 else c3).
  assert (Hcore4 : core c4).
  { unfold c4; destruct hit1; [apply core_on_start_button | ]; exact Hcore3. }
  assert (Hbs4 : buttons c4 = buttons c3).
  { unfold c4, on_start_button.
    destruct hit1; [destruct (negb (running c3)) | ]; reflexivity. }
  clearbody c4.
  destruct (is_clicked_keeps (reset_button c4) ev pos) as [Hr4 _].
  destruct (Button.is_clicked (reset_button c4) ev pos) as [rb hit2].
  cbn [fst] in Hr4.
  set (c5 := set_reset_button rb c4).
  assert (Hcore5 : core c5)
    by (apply (core_frame c4); try exact Hcore4; try exact Hr4; try reflexivity;
        apply Hcore4).
  assert (Hbs5 : buttons c5 = buttons c4) by reflexivity.
  clearbody c5.
  eexists. split; [reflexivity | ].
  split.
  - destruct hit2; [apply core_on_reset_button | ]; exact Hcore5.
  - replace (buttons (if hit2 then on_reset_button c5 else c5)) with (buttons c5)
      by (destruct hit2; reflexivity).
    congruence.
Qed.

Lemma handle_events_inv (events : list Event) (pos : Z * Z) (c : state) :
  inv c -> exists b c', handle_events events pos c = Ok (b, c') /\ inv c'.
Proof.
  revert c; induction events as [| ev rest IH]; intros c Hinv;
    cbn [handle_events].
  - exists true, c. split; [reflexivity | exact Hinv].
  - destruct (is_quit ev).
    + exists false, c. split; [reflexivity | exact Hinv].
    + destruct (handle_event_inv ev pos c Hinv) as (c1 & -> & Hinv1).
      cbn [bind]. apply IH, Hinv1.
Qed.

Lemma py_index_nth (x : Q) (l : list Q) (idx : nat) :
  py_index x l = Ok idx ->
  exists y : Q, nth_error l idx = Some y /\ y == x.
Proof.
  revert idx; induction l as [| y l IH]; intros idx Hidx; cbn [py_index] in Hidx.
  - discriminate.
  - destruct (Qeq_bool y x) eqn:E.
    + injection Hidx as <-. exists y. split; [reflexivity | ].
      apply Qeq_bool_eq, E.
    + destruct (py_index x l) as [i | e]; cbn [bind] in Hidx; [ | discriminate].
      injection Hidx as <-. apply (IH i eq_refl).
Qed.

Lemma getitem_same_length {X Y : Type} (l1 : list X) (l2 : list Y)
    (idx : nat) (x : X) :
  List.length l1 = List.length l2 ->
  nth_error l1 idx = Some x ->
  exists y : Y, py_getitem l2 idx = Ok y /\ nth_error l2 idx = Some y.
Proof.
  intros Hlen Hx. unfold py_getitem.
  destruct (nth_error l2 idx) as [y | ] eqn:E.
  - exists y; split; reflexivity.
  - apply nth_error_None in E.
    assert (idx < List.length l1)%nat by (apply nth_error_Some; congruence).
    lia.
Qed.

Lemma scene_update_shape (dt : Q) (sc : InclineScene.state) :
  InclineScene.update dt sc =
    (fst (InclineScene.update dt sc),
     (InclineScene.s (fst (InclineScene.update dt sc)),
      A * InclineScene.t (fst (InclineScene.update dt sc)))).
Proof. reflexivity. Qed.

Section WithSciPy.
Context `{SciPy}.

(** A tick of an idle or paused controller changes nothing. *)
Lemma update_idle (dt : Q) (c : state) :
  running c = false \/ paused c = true -> update dt c = Ok c.
Proof.
  intros [Hr | Hp]; unfold update; [rewrite Hr | rewrite Hp];
    rewrite ?andb_false_r; reflexivity.
Qed.

(** A tick of a running controller: the scene advances, a sample is
    recorded, and on completion the run is stopped and judged. *)
Lemma update_running (dt : Q) (c : state) :
  running c = true -> paused c = false -> selection_ok c ->
  let sc := fst (InclineScene.update dt (scene c)) in
  exists c' : state,
    update dt c = Ok c' /\
    scene c' = sc /\
    selected_height c' = selected_height c /\
    buttons c' = buttons c /\
    reset_button c' = reset_button c /\
    Button.rect (start_button c') = Button.rect (start_button c) /\
    paused c' = false /\
    GraphPlot.points (graph c') =
      GraphPlot.points (graph c)
        ++ [(InclineScene.s sc, A * InclineScene.t sc)] /\
    (InclineScene.s sc < InclineScene.L sc ->
       running c' = true /\ match_status c' = match_status c /\
       fit_results c' = fit_results c /\ start_button c' = start_button c) /\
    (InclineScene.L sc <= InclineScene.s sc ->
       running c' = false /\
       Button.text (start_button c') = "Start" /\
       fit_results c' <> None /\
       exists (idx : nat) (exp_v exp_sd measured_v : Q),
         py_index (selected_height c) HEIGHTS = Ok idx /\
         nth_error EXP_AVG_SPEEDS idx = Some exp_v /\
         nth_error EXP_STD_DEVS idx = Some exp_sd /\
         measured_speed (InclineScene.L sc) (InclineScene.t sc) = Ok measured_v /\
         match_status c' = verdict measured_v exp_v exp_sd).
Proof.
  intros Hr Hp (idx & Hidx & Hlen) sc.
  unfold update. rewrite Hr, Hp. cbn [andb negb].
  rewrite scene_update_shape. fold sc. simpl_state.
  destruct (py_ge (InclineScene.s sc) (InclineScene.L sc)) eqn:Hge.
  - apply py_ge_spec in Hge.
    rewrite Hidx. cbn [bind].
    destruct (measured_speed_spec (InclineScene.L sc) (InclineScene.t sc))
      as (mv & -> & _). cbn [bind].
    destruct (getitem_same_length PLANE_LENGTHS EXP_AVG_SPEEDS idx _ eq_refl Hlen)
      as (ev & -> & Hev).
    destruct (getitem_same_length PLANE_LENGTHS EXP_STD_DEVS idx _ eq_refl Hlen)
      as (sd & -> & Hsd).
    cbn [bind].
    destruct (linregress HEIGHTS EXP_AVG_SPEEDS) as [[slope intercept] r_value].
    destruct (curve_fit power_law HEIGHTS EXP_AVG_SPEEDS) as [A_fit p].
    eexists. split; [reflexivity | ]. simpl_state.
    splits; try reflexivity; try assumption.
    + intros Hlt. exfalso. lra.
    + intros _. splits; try reflexivity; [discriminate | ].
      exists idx, ev, sd, mv. splits; auto.
  - apply py_ge_false in Hge.
    eexists. split; [reflexivity | ]. simpl_state.
    splits; try reflexivity; try assumption.
    + intros _. splits; try reflexivity; assumption.
    + intros Hle. exfalso. lra.
Qed.

Lemma update_inv (c : state) :
  inv c -> exists c', update frame_dt c = Ok c' /\ inv c'.
Proof.
  intros Hinv.
  destruct (running c) eqn:Hr; [destruct (paused c) eqn:Hp | ].
  - exists c. split; [apply update_idle; right; exact Hp | exact Hinv].
  - destruct Hinv as [Hcore Hbs].
    destruct (update_running frame_dt c Hr Hp (proj1 (proj2 Hcore)))
      as (c' & Hupd & Hsc & Hsel & Hb & Hrb & Hsb & _).
    exists c'. split; [exact Hupd | ].
    destruct (SceneFacts.inv_update frame_dt (scene c)
                (Qlt_le_weak _ _ frame_dt_pos) (proj1 Hcore)) as [Hsi _].
    split; [ | rewrite Hb; exact Hbs].
    apply (core_frame c); try assumption.
    + rewrite Hsc; exact Hsi.
    + rewrite Hsc. apply SceneFacts.update_L.
    + rewrite Hrb; reflexivity.
  - exists c. split; [apply update_idle; left; exact Hr | exact Hinv].
Qed.

Theorem reachable_inv (c : state) : reachable c -> inv c.
Proof.
  induction 1 as [| c events pos b c' _ IH Hev | c c' _ IH Hup].
  - apply controller_inv_init.
  - destruct (handle_events_inv events pos c IH) as (b1 & c1 & E & Hinv).
    rewrite E in Hev. injection Hev as _ <-. exact Hinv.
  - destruct (update_inv c IH) as (c1 & E & Hinv).
    rewrite E in Hup. injection Hup as <-. exact Hinv.
Qed.

Lemma reachable_ticks (n : nat) (c c' : state) :
  reachable c -> ticks n c = Ok c' -> reachable c'.
Proof.
  revert c; induction n as [| n IH]; intros c Hc Ht; cbn [ticks] in Ht.
  - injection Ht as <-. exact Hc.
  - destruct (update frame_dt c) as [c1 | e] eqn:E; cbn [bind] in Ht;
      [ | discriminate].
    apply (IH c1); [ | exact Ht]. apply (reach_update c); assumption.
Qed.

End WithSciPy.

(** *** What a single click does *)

Lemma labels_distinct (i j : nat) (txt : string) :
  nth_error (map Button.text (buttons init)) i = Some txt ->
  nth_error (map Button.text (buttons init)) j = Some txt ->
  i = j.
Proof.
  change (map Button.text (buttons init))
    with ["h = 0.25 m"; "h = 0.5 m"; "h = 0.75 m"; "h = 1.0 m"; "h = 1.25 m"].
  intros Hi Hj.
  do 5 (destruct i as [| i];
        [injection Hi as <-;
         do 5 (destruct j as [| j]; [try reflexivity; discriminate | ]);
         destruct j; discriminate | ]).
  destruct i; discriminate.
Qed.

Lemma others_missed (c : state) (k : nat) (r : Rect) (pos : Z * Z) :
  layout c ->
  nth_error widget_rects k = Some r ->
  collidepoint r pos = true ->
  forall j b, j <> k -> nth_error (buttons c) j = Some b ->
              Button.is_hovered b pos = false.
Proof.
  intros Hlay Hk Hin j b Hne Hj.
  unfold Button.is_hovered.
  apply (widgets_disjoint k j r (Button.rect b) pos); auto.
  apply (height_button_rect c); assumption.
Qed.

(** A click that lands in no height button leaves the loop over them
    without effect. *)
Lemma for_buttons_elsewhere (c : state) (k : nat) (r : Rect) (pos : Z * Z) :
  layout c ->
  nth_error widget_rects k = Some r ->
  collidepoint r pos = true ->
  (5 <= k)%nat ->
  for_buttons MOUSEBUTTONDOWN pos (buttons c) c = Ok (buttons c, c).
Proof.
  intros Hlay Hk Hin Hk5.
  apply for_buttons_miss. intros b Hb.
  apply is_clicked_miss.
  destruct (In_nth_error _ _ Hb) as [j Hj].
  apply (others_missed c k r pos Hlay Hk Hin j b); [ | exact Hj].
  assert (j < List.length (buttons c))%nat by (apply nth_error_Some; congruence).
  destruct Hlay as [[Hr _] _].
  assert (List.length (buttons c) = 5%nat).
  { rewrite <- (length_map Button.rect), Hr. reflexivity. }
  lia.
Qed.

Lemma click_height_button (c : state) (i : nat) (btn : Button.state)
    (pos : Z * Z) :
  layout c ->
  nth_error (buttons c) i = Some btn ->
  Button.is_hovered btn pos = true ->
  exists (c1 : state) (bs : list Button.state),
    on_height_button (Button.mk (Button.rect btn) (Button.text btn) true) c = Ok c1 /\
    handle_event MOUSEBUTTONDOWN pos c =
      Ok (set_reset_button (reset_button c1)
            (set_start_button (start_button c1) (set_buttons bs c1))) /\
    buttons_ok bs.
Proof.
  intros Hlay Hi Hhit.
  pose proof (height_button_rect c i btn Hlay Hi) as Hrect.
  destruct (nth_error_split _ _ Hi) as (pre & post & Hsplit & Hlen).
  assert (Htxt : In (Button.text btn) (map Button.text (buttons init))).
  { destruct Hlay as [[_ Ht] _]. rewrite <- Ht. apply in_map.
    eapply nth_error_In; eassumption. }
  set (b1 := Button.mk (Button.rect btn) (Button.text btn) true).
  destruct (on_height_button_spec b1 c Htxt)
    as (h & idx & len & c1 & _ & _ & _ & _ & Hrun & _ & _ & _ & _ & _ & _ & _ & _
        & _ & Hsr & Hrb & _).
  exists c1, (pre ++ b1 :: post). split; [exact Hrun | ].
  unfold handle_event. rewrite Hsplit.
  rewrite for_buttons_hit; [ | | | exact Hhit].
  - cbn zeta. fold b1. rewrite Hrun. cbn [bind fst snd]. simpl_state.
    rewrite is_clicked_miss.
    2:{ unfold Button.is_hovered. rewrite Hsr.
        apply (widgets_disjoint i 5 (Button.rect btn) _ pos Hrect
                 (start_button_rect c Hlay)); [ | exact Hhit].
        assert (i < 5)%nat; [ | lia].
        destruct Hlay as [[Hr _] _].
        assert (i < List.length (buttons c))%nat
          by (apply nth_error_Some; congruence).
        rewrite <- (length_map Button.rect), Hr in H. exact H. }
    simpl_state.
    rewrite is_clicked_miss.
    2:{ unfold Button.is_hovered. rewrite Hrb.
        apply (widgets_disjoint i 6 (Button.rect btn) _ pos Hrect
                 (reset_button_rect c Hlay)); [ | exact Hhit].
        assert (i < 5)%nat; [ | lia].
        destruct Hlay as [[Hr _] _].
        assert (i < List.length (buttons c))%nat
          by (apply nth_error_Some; congruence).
        rewrite <- (length_map Button.rect), Hr in H. exact H. }
    split; [reflexivity | ].
    destruct Hlay as [[Hr Ht] _]. rewrite Hsplit in Hr, Ht.
    unfold buttons_ok. rewrite <- Hr, <- Ht, !map_app. cbn [map].
    split; reflexivity.
  - intros b' Hb'. destruct (In_nth_error _ _ Hb') as [j Hj].
    apply (others_missed c i (Button.rect btn) pos Hlay Hrect Hhit j b').
    + assert (j < List.length pre)%nat by (apply nth_error_Some; congruence). lia.
    + rewrite Hsplit, nth_error_app1; [exact Hj | ].
      apply nth_error_Some; congruence.
  - intros b' Hb'. destruct (In_nth_error _ _ Hb') as [j Hj].
    apply (others_missed c i (Button.rect btn) pos Hlay Hrect Hhit
             (List.length pre + S j)%nat b').
    + lia.
    + rewrite Hsplit, nth_error_app2 by lia.
      replace (List.length pre + S j - List.length pre)%nat with (S j) by lia.
      exact Hj.
Qed.

Lemma click_start_button (c : state) (pos : Z * Z) :
  layout c ->
  Button.is_hovered (start_button c) pos = true ->
  exists c' : state,
    handle_event MOUSEBUTTONDOWN pos c = Ok c' /\
    scene c' = scene c /\ graph c' = graph c /\
    selected_height c' = selected_height c /\
    fit_results c' = fit_results c /\ match_status c' = match_status c /\
    buttons c' = buttons c /\ reset_button c' = reset_button c /\
    Button.rect (start_button c') = Button.rect (start_button c) /\
    (running c = false ->
       running c' = true /\ paused c' = false /\
       Button.text (start_button c') = "Pause") /\
    (running c = true ->
       running c' = true /\ paused c' = negb (paused c) /\
       Button.text (start_button c') =
         if paused c then "Pause" else "Resume").
Proof.
  intros Hlay Hhit.
  pose proof (start_button_rect c Hlay) as Hrect.
  unfold handle_event.
  rewrite (for_buttons_elsewhere c 5 _ pos Hlay Hrect Hhit) by lia.
  cbn [bind fst snd]. simpl_state.
  rewrite (is_clicked_hit _ pos Hhit). simpl_state.
  assert (Hmiss : Button.is_hovered (reset_button c) pos = false).
  { apply (widgets_disjoint 5 6 _ _ pos Hrect (reset_button_rect c Hlay));
      [lia | exact Hhit]. }
  unfold on_start_button; simpl_state.
  destruct (running c) eqn:Hr; cbn [negb]; simpl_state;
    rewrite (is_clicked_miss _ pos Hmiss);
    (eexists; split; [reflexivity | ]); simpl_state;
    splits; try reflexivity; try (intros; discriminate);
    intros _; splits; try reflexivity; try assumption.
  destruct (paused c); reflexivity.
Qed.

Lemma click_reset_button (c : state) (pos : Z * Z) :
  layout c ->
  Button.is_hovered (reset_button c) pos = true ->
  exists c' : state,
    handle_event MOUSEBUTTONDOWN pos c = Ok c' /\
    scene c' = InclineScene.reset (scene c) /\
    selected_height c' = selected_height c /\
    running c' = false /\ paused c' = false /\
    Button.text (start_button c') = "Start" /\
    GraphPlot.points (graph c') = [] /\
    fit_results c' = None /\ match_status c' = "" /\
    buttons c' = buttons c.
Proof.
  intros Hlay Hhit.
  pose proof (reset_button_rect c Hlay) as Hrect.
  unfold handle_event.
  rewrite (for_buttons_elsewhere c 6 _ pos Hlay Hrect Hhit) by lia.
  cbn [bind fst snd]. simpl_state.
  rewrite is_clicked_miss.
  2:{ apply (widgets_disjoint 6 5 _ _ pos Hrect (start_button_rect c Hlay));
        [lia | exact Hhit]. }
  simpl_state.
  rewrite (is_clicked_hit _ pos Hhit).
  eexists; split; [reflexivity | ].
  unfold on_reset_button; simpl_state.
  splits; reflexivity.
Qed.

End ControllerFacts.

(** * The properties of the specification *)

Section HeightAndReset.
Import SimulationController ControllerSpec ControllerFacts.

(** C5: a click on the [i]-th height button, whatever the controller was
    doing, selects the [i]-th preset height and its plane length, puts
    elapsed time and displacement back to 0, empties the sample trace,
    clears the fit result and the match verdict, and leaves the
    controller idle with the start button labelled "Start". *)
Theorem C5_height_click_resets (c : state) (i : nat) (btn : Button.state)
    (mouse_pos : Z * Z) :
  layout c ->
  nth_error (buttons c) i = Some btn ->
  Button.is_hovered btn mouse_pos = true ->
  exists (c' : state) (h len : Q),
    handle_events [MOUSEBUTTONDOWN] mouse_pos c = Ok (true, c') /\
    nth_error HEIGHTS i = Some h /\
    nth_error PLANE_LENGTHS i = Some len /\
    selected_height c' == h /\
    InclineScene.L (scene c') = len /\
    InclineScene.t (scene c') = 0 /\
    InclineScene.s (scene c') = 0 /\
    GraphPlot.points (graph c') = [] /\
    fit_results c' = None /\
    match_status c' = "" /\
    running c' = false /\
    paused c' = false /\
    Button.text (start_button c') = "Start".
Proof.
  intros Hlay Hi Hhit.
  destruct (click_height_button c i btn mouse_pos Hlay Hi Hhit)
    as (c1 & bs & Hon & Hev & _).
  set (b1 := Button.mk (Button.rect btn) (Button.text btn) true) in Hon.
  assert (Htxt : nth_error (map Button.text (buttons init)) i
                 = Some (Button.text btn)).
  { destruct Hlay as [[_ Ht] _]. rewrite <- Ht, nth_error_map, Hi. reflexivity. }
  destruct (on_height_button_spec b1 c (nth_error_In _ _ Htxt))
    as (h & idx & len & c1' & _ & Hidx & Hlen & Hnth & Hrun & Hsel & HL & Ht0 & Hs0
        & _ & _ & Hr & Hp & Hst & _ & _ & _ & Hpts & Hfit & Hms).
  rewrite Hon in Hrun. injection Hrun as <-.
  assert (idx = i) by (apply (labels_distinct idx i _ Hnth Htxt)). subst idx.
  destruct (py_index_nth _ _ _ Hidx) as (y & Hy & Hyh).
  exists (set_reset_button (reset_button c1)
            (set_start_button (start_button c1) (set_buttons bs c1))), y, len.
  cbn [handle_events is_quit]. rewrite Hev. cbn [bind].
  simpl_state.
  splits; try assumption; try reflexivity.
  rewrite Hsel. symmetry. exact Hyh.
Qed.

(** C6: a click on the reset button, from an idle, running or paused
    controller alike, leaves it idle, clears the fit result and the match
    verdict, empties the sample trace and puts the scene's elapsed time
    and displacement back to 0; the selected height and the plane length
    stay as they were. *)
Theorem C6_reset_click_returns_to_idle (c : state) (mouse_pos : Z * Z) :
  layout c ->
  Button.is_hovered (reset_button c) mouse_pos = true ->
  exists c' : state,
    handle_events [MOUSEBUTTONDOWN] mouse_pos c = Ok (true, c') /\
    running c' = false /\
    paused c' = false /\
    Button.text (start_button c') = "Start" /\
    fit_results c' = None /\
    match_status c' = "" /\
    GraphPlot.points (graph c') = [] /\
    InclineScene.t (scene c') = 0 /\
    InclineScene.s (scene c') = 0 /\
    selected_height c' = selected_height c /\
    InclineScene.L (scene c') = InclineScene.L (scene c).
Proof.
  intros Hlay Hhit.
  destruct (click_reset_button c mouse_pos Hlay Hhit)
    as (c' & Hev & Hsc & Hsel & Hr & Hp & Hst & Hpts & Hfit & Hms & _).
  exists c'. cbn [handle_events is_quit]. rewrite Hev. cbn [bind].
  rewrite Hsc. splits; try assumption; reflexivity.
Qed.

End HeightAndReset.

Lemma C5_height_click_witness :
  0 < InclineScene.t (SimulationController.scene Sample.c_long_done) /\
  InclineScene.L (SimulationController.scene Sample.c_long_done) == 2.50 /\
  GraphPlot.points (SimulationController.graph Sample.c_long_done) <> [] /\
  SimulationController.match_status Sample.c_long_done <> "" /\
  exists (c' : SimulationController.state) (h len : Q),
    SimulationController.handle_events [MOUSEBUTTONDOWN] (630, 240)%Z
      Sample.c_long_done = Ok (true, c') /\
    nth_error HEIGHTS 2 = Some h /\
    nth_error PLANE_LENGTHS 2 = Some len /\
    SimulationController.selected_height c' == h /\
    InclineScene.L (SimulationController.scene c') = len /\
    InclineScene.t (SimulationController.scene c') = 0 /\
    InclineScene.s (SimulationController.scene c') = 0 /\
    GraphPlot.points (SimulationController.graph c') = [] /\
    SimulationController.fit_results c' = None /\
    SimulationController.match_status c' = "" /\
    SimulationController.running c' = false /\
    SimulationController.paused c' = false /\
    Button.text (SimulationController.start_button c') = "Start".
Proof.
  split; [vm_compute; reflexivity |].
  split; [vm_compute; reflexivity |].
  split; [vm_compute; discriminate |].
  split; [vm_compute; discriminate |].
  apply (C5_height_click_resets Sample.c_long_done
           2 (Button.init 620 230 150 30 "h = 0.75 m") (630, 240)%Z).
  - vm_compute. repeat split.
  - vm_compute. reflexivity.
  - reflexivity.
Defined.

Lemma C6_reset_click_witness :
  0 < InclineScene.t (SimulationController.scene Sample.c_long_done) /\
  GraphPlot.points (SimulationController.graph Sample.c_long_done) <> [] /\
  SimulationController.match_status Sample.c_long_done <> "" /\
  exists c' : SimulationController.state,
    SimulationController.handle_events [MOUSEBUTTONDOWN] (700, 400)%Z
      Sample.c_long_done = Ok (true, c') /\
    SimulationController.running c' = false /\
    SimulationController.paused c' = false /\
    Button.text (SimulationController.start_button c') = "Start" /\
    SimulationController.fit_results c' = None /\
    SimulationController.match_status c' = "" /\
    GraphPlot.points (SimulationController.graph c') = [] /\
    InclineScene.t (SimulationController.scene c') = 0 /\
    InclineScene.s (SimulationController.scene c') = 0 /\
    SimulationController.selected_height c'
      = SimulationController.selected_height Sample.c_long_done /\
    InclineScene.L (SimulationController.scene c')
      = InclineScene.L (SimulationController.scene Sample.c_long_done).
Proof.
  split; [vm_compute; reflexivity |].
  split; [vm_compute; discriminate |].
  split; [vm_compute; discriminate |].
  apply (C6_reset_click_returns_to_idle Sample.c_long_done (700, 400)%Z).
  - vm_compute. repeat split.
  - reflexivity.
Defined.

Section Ticks.
Import SimulationController ControllerSpec ControllerFacts.
Context `{SciPy}.

(** One tick from a state of the main loop: it does not raise, keeps the
    invariant and the plane length, never lowers the displacement, and
    leaves a finished scene as it is. *)
Lemma tick_step (c : state) :
  inv c ->
  exists c' : state,
    update frame_dt c = Ok c' /\ inv c' /\
    InclineScene.s (scene c) <= InclineScene.s (scene c') /\
    InclineScene.L (scene c') = InclineScene.L (scene c) /\
    (InclineScene.L (scene c) <= InclineScene.s (scene c) -> scene c' = scene c).
Proof.
  intros Hinv.
  destruct (update_inv c Hinv) as (c' & Hupd & Hinv').
  exists c'. split; [exact Hupd | split; [exact Hinv' | ]].
  destruct (running c) eqn:Hr; [destruct (paused c) eqn:Hp | ].
  - rewrite update_idle in Hupd by (right; exact Hp). injection Hupd as <-.
    splits; [apply Qle_refl | reflexivity | reflexivity].
  - destruct Hinv as [Hcore _].
    destruct (update_running frame_dt c Hr Hp (proj1 (proj2 Hcore)))
      as (c1 & Hupd1 & Hsc & _).
    rewrite Hupd1 in Hupd. injection Hupd as <-. rewrite Hsc.
    destruct (SceneFacts.inv_update frame_dt (scene c)
                (Qlt_le_weak _ _ frame_dt_pos) (proj1 Hcore)) as [_ Hmono].
    splits; [exact Hmono | apply SceneFacts.update_L | ].
    intros Hdone. rewrite (SceneFacts.update_done _ _ Hdone). reflexivity.
  - rewrite update_idle in Hupd by (left; exact Hr). injection Hupd as <-.
    splits; [apply Qle_refl | reflexivity | reflexivity].
Qed.

Lemma ticks_steps (n : nat) (c : state) :
  inv c ->
  exists c' : state,
    ticks n c = Ok c' /\ inv c' /\
    InclineScene.s (scene c) <= InclineScene.s (scene c') /\
    InclineScene.L (scene c') = InclineScene.L (scene c) /\
    (InclineScene.L (scene c) <= InclineScene.s (scene c) -> scene c' = scene c).
Proof.
  revert c; induction n as [| n IH]; intros c Hinv; cbn [ticks].
  - exists c. splits; auto. apply Qle_refl.
  - destruct (tick_step c Hinv) as (c1 & -> & Hinv1 & Hmono1 & HL1 & Hdone1).
    cbn [bind].
    destruct (IH c1 Hinv1) as (c' & Ht & Hinv' & Hmono & HL & Hdone).
    exists c'. splits; [exact Ht | exact Hinv' | lra | congruence | ].
    intros Hd. rewrite Hdone, Hdone1; [reflexivity | exact Hd | ].
    rewrite (Hdone1 Hd). exact Hd.
Qed.

(** C1: in every state the main loop can reach, the displacement lies
    between 0 and the selected plane length; any number of ticks leaves it
    at least as large as it was; and once it equals the plane length, any
    number of further ticks leaves it exactly there. *)
Theorem C1_displacement_clamped_monotone (c : state) :
  reachable c ->
  (0 <= InclineScene.s (scene c) /\
   InclineScene.s (scene c) <= InclineScene.L (scene c)) /\
  (forall n : nat, exists c' : state,
      ticks n c = Ok c' /\
      InclineScene.s (scene c) <= InclineScene.s (scene c')) /\
  (InclineScene.s (scene c) == InclineScene.L (scene c) ->
   forall n : nat, exists c' : state,
      ticks n c = Ok c' /\
      InclineScene.s (scene c') = InclineScene.s (scene c) /\
      InclineScene.L (scene c') = InclineScene.L (scene c)).
Proof.
  intros Hreach. pose proof (reachable_inv c Hreach) as Hinv.
  split; [ | split].
  - destruct Hinv as [(Hsc & _) _]. split; apply Hsc.
  - intros n. destruct (ticks_steps n c Hinv) as (c' & Ht & _ & Hmono & _).
    exists c'. split; assumption.
  - intros Heq n.
    destruct (ticks_steps n c Hinv) as (c' & Ht & _ & _ & HL & Hdone).
    exists c'. split; [exact Ht | ].
    rewrite Hdone by (rewrite Heq; apply Qle_refl). split; reflexivity.
Qed.

Lemma verdict_cases (measured_v exp_v exp_sd : Q) :
  (verdict measured_v exp_v exp_sd = "Success" <->
     Qabs (measured_v - exp_v) <= exp_sd) /\
  (verdict measured_v exp_v exp_sd = "Deviation" <->
     ~ Qabs (measured_v - exp_v) <= exp_sd).
Proof.
  unfold verdict.
  destruct (py_le (Qabs (measured_v - exp_v)) exp_sd) eqn:E.
  - apply py_le_spec in E. split; split; intros Hx;
      try reflexivity; try assumption; try discriminate. contradiction.
  - apply py_le_false in E. split; split; intros Hx;
      try reflexivity; try discriminate.
    + exfalso; lra.
    + intros Hle; lra.
Qed.

(** The clock has run when the end of the plane is reached. *)
Lemma time_pos_at_end (sc : InclineScene.state) :
  SceneSpec.inv sc -> InclineScene.L sc <= InclineScene.s sc ->
  0 < InclineScene.t sc.
Proof.
  intros (Ht & _ & _ & Hkin & HL & _) Hdone.
  apply SceneFacts.plane_length_pos in HL.
  destruct (Qlt_le_dec 0 (InclineScene.t sc)) as [Hpos | Hneg]; [exact Hpos | ].
  exfalso.
  assert (E : InclineScene.t sc == 0) by lra.
  rewrite sq_power, E, A_value in Hkin. lra.
Qed.

(** C2: when a tick of a running controller with a preset selected
    brings the displacement to the plane length, the run stops, the
    measured speed is the plane length divided by the elapsed time (for a
    positive elapsed time, which is what every run of the main loop ends
    with), and the verdict is "Success" exactly when that speed is within
    one experimental standard deviation of the experimental mean of the
    selected height, and "Deviation" otherwise.  This holds from any
    state and for any tick size, not only in the states the main loop
    reaches. *)
Theorem C2_verdict_at_completion (dt : Q) (c : state) :
  running c = true -> paused c = false -> selection_ok c ->
  exists c' : state,
    update dt c = Ok c' /\
    let len := InclineScene.L (scene c') in
    let time := InclineScene.t (scene c') in
    (len <= InclineScene.s (scene c') ->
     exists (idx : nat) (exp_v exp_sd measured_v : Q),
       py_index (selected_height c') HEIGHTS = Ok idx /\
       nth_error PLANE_LENGTHS idx = Some len /\
       nth_error EXP_AVG_SPEEDS idx = Some exp_v /\
       nth_error EXP_STD_DEVS idx = Some exp_sd /\
       measured_speed len time = Ok measured_v /\
       (0 < time -> measured_v = len / time) /\
       running c' = false /\
       (match_status c' = "Success" <->
          Qabs (measured_v - exp_v) <= exp_sd) /\
       (match_status c' = "Deviation" <->
          ~ Qabs (measured_v - exp_v) <= exp_sd)) /\
    (reachable c -> dt = frame_dt ->
     len <= InclineScene.s (scene c') -> 0 < time).
Proof.
  intros Hr Hp Hsel.
  destruct (update_running dt c Hr Hp Hsel)
    as (c' & Hupd & Hsc & Hh & _ & _ & _ & _ & _ & _ & Hend).
  exists c'. split; [exact Hupd | ]. intros len time. subst len time.
  rewrite <- Hsc in Hend.
  split.
  - intros Hdone.
    destruct (Hend Hdone)
      as (Hrun & _ & _ & idx & exp_v & exp_sd & mv & Hidx & Hev & Hsd & Hmv & Hms).
    destruct Hsel as (idx0 & Hidx0 & Hlen0).
    assert (idx0 = idx) by congruence. subst idx0.
    destruct (measured_speed_spec (InclineScene.L (scene c'))
                (InclineScene.t (scene c'))) as (v & Hv & Hdiv & _).
    assert (mv = v) by congruence. subst mv.
    exists idx, exp_v, exp_sd, v. rewrite Hh, Hms.
    splits; try assumption; try apply verdict_cases.
    rewrite Hsc, SceneFacts.update_L. exact Hlen0.
  - intros Hreach -> Hdone.
    destruct (tick_step c (reachable_inv c Hreach)) as (c1 & Hupd1 & Hinv1 & _).
    assert (c1 = c') by congruence. subst c1.
    apply (time_pos_at_end (scene c') (proj1 (proj1 Hinv1)) Hdone).
Qed.

(** C7: a tick taken while the controller is not running, or is paused,
    returns the controller as it was; in particular the scene's elapsed
    time and displacement keep their values. *)
Theorem C7_time_frozen_unless_running (dt : Q) (c : state) :
  running c = false \/ paused c = true ->
  exists c' : state,
    update dt c = Ok c' /\ c' = c /\
    InclineScene.t (scene c') = InclineScene.t (scene c) /\
    InclineScene.s (scene c') = InclineScene.s (scene c).
Proof.
  intros Hidle. exists c.
  split; [apply update_idle, Hidle | splits; reflexivity].
Qed.

(** C9: for any tick size, a scene whose displacement has reached the
    plane length is returned unchanged by [update], field for field,
    together with the pair (s, A * t).  Hence a press on the start button
    after a completed run sets the controller running on the same scene,
    and the next tick leaves that scene as it is and ends the run again. *)
Theorem C9_finished_scene_is_frozen (dt : Q) :
  (forall sc : InclineScene.state,
      InclineScene.L sc <= InclineScene.s sc ->
      InclineScene.update dt sc
        = (sc, (InclineScene.s sc, A * InclineScene.t sc))) /\
  (forall (c : state) (mouse_pos : Z * Z),
      reachable c ->
      running c = false ->
      InclineScene.L (scene c) <= InclineScene.s (scene c) ->
      Button.is_hovered (start_button c) mouse_pos = true ->
      exists c1 c2 : state,
        handle_events [MOUSEBUTTONDOWN] mouse_pos c = Ok (true, c1) /\
        running c1 = true /\ paused c1 = false /\
        scene c1 = scene c /\
        update dt c1 = Ok c2 /\
        scene c2 = scene c /\
        running c2 = false).
Proof.
  split.
  - intros sc Hdone. apply SceneFacts.update_done, Hdone.
  - intros c pos Hreach Hr Hdone Hhit.
    pose proof (reachable_inv c Hreach) as Hinv.
    destruct (click_start_button c pos (inv_layout c Hinv) Hhit)
      as (c1 & Hev & Hsc & _ & Hsel & _ & _ & _ & _ & _ & Hidle & _).
    destruct (Hidle Hr) as (Hr1 & Hp1 & _).
    assert (Hsel1 : selection_ok c1).
    { destruct Hinv as [(_ & (idx & Hidx & Hlen) & _) _].
      exists idx. rewrite Hsel, Hsc. split; assumption. }
    destruct (update_running dt c1 Hr1 Hp1 Hsel1)
      as (c2 & Hupd & Hsc2 & _ & _ & _ & _ & _ & _ & _ & Hend).
    rewrite Hsc in Hsc2, Hend.
    rewrite (SceneFacts.update_done dt (scene c) Hdone) in Hsc2, Hend.
    cbn [fst] in Hsc2, Hend.
    exists c1, c2. cbn [handle_events is_quit]. rewrite Hev. cbn [bind].
    splits; try assumption; try reflexivity.
    apply (Hend Hdone).
Qed.

Lemma py_index_raises (x : Q) (l : list Q) (e : PyExc) :
  py_index x l = Raise e -> e = ValueError.
Proof.
  induction l as [| y l IH]; cbn [py_index].
  - intros E; injection E as <-; reflexivity.
  - destruct (Qeq_bool y x); [discriminate | ].
    destruct (py_index x l) as [i | e']; cbn [bind]; [discriminate | ].
    intros E; injection E as <-. apply IH; reflexivity.
Qed.

Lemma update_no_zero_division (dt : Q) (c : state) :
  update dt c <> Raise ZeroDivisionError.
Proof.
  unfold update.
  destruct (running c && negb (paused c))%bool; [ | discriminate].
  rewrite scene_update_shape.
  set (sc := fst (InclineScene.update dt (scene c))). simpl_state.
  destruct (py_ge _ _); [ | discriminate].
  destruct (py_index _ _) as [idx | e] eqn:Eidx; cbn [bind];
    [ | rewrite (py_index_raises _ _ _ Eidx); discriminate].
  destruct (measured_speed_spec (InclineScene.L sc) (InclineScene.t sc))
    as (mv & -> & _). cbn [bind].
  unfold py_getitem.
  destruct (nth_error EXP_AVG_SPEEDS idx); cbn [bind]; [ | discriminate].
  destruct (nth_error EXP_STD_DEVS idx); cbn [bind]; [ | discriminate].
  destruct (linregress _ _) as [[? ?] ?].
  destruct (curve_fit _ _ _) as [? ?].
  discriminate.
Qed.

(** C10: computing the measured speed never divides by zero.  The
    quotient is taken only for a positive elapsed time; otherwise, and so
    for an elapsed time of 0, the measured speed is 0; and no tick of the
    controller raises [ZeroDivisionError]. *)
Theorem C10_no_division_by_zero (len time : Q) :
  (0 < time -> measured_speed len time = py_div len time /\
               py_div len time = Ok (len / time)) /\
  (~ 0 < time -> measured_speed len time = Ok 0) /\
  (time == 0 -> measured_speed len time = Ok 0) /\
  (forall (dt : Q) (c : state), update dt c <> Raise ZeroDivisionError).
Proof.
  splits.
  - intros Hpos. unfold measured_speed.
    rewrite (proj2 (py_gt_spec time 0) Hpos). split; [reflexivity | ].
    unfold py_div. destruct (Qeq_bool time 0) eqn:E; [ | reflexivity].
    apply Qeq_bool_eq in E. exfalso; lra.
  - intros Hneg. unfold measured_speed.
    destruct (py_gt time 0) eqn:E; [ | reflexivity].
    apply py_gt_spec in E. contradiction.
  - intros Hz. unfold measured_speed.
    destruct (py_gt time 0) eqn:E; [ | reflexivity].
    apply py_gt_spec in E. exfalso; lra.
  - apply update_no_zero_division.
Qed.

End Ticks.

(** ** The graph *)

Module GraphFacts.
Import GraphPlot.

Lemma linspace_unfold (start stop : Q) (n : nat) :
  np_linspace start stop (S (S n)) =
    map (fun i => inject_Z (Z.of_nat i)
                  * ((stop - start) / inject_Z (Z.of_nat (S n))) + start)
        (seq 0 (S n)) ++ [stop].
Proof.
  unfold np_linspace.
  replace (S (S n) - 1)%nat with (S n) by lia.
  rewrite (seq_S (S n) 0), map_app. cbn [map].
  rewrite removelast_last. reflexivity.
Qed.

Lemma linspace_length (start stop : Q) (n : nat) :
  List.length (np_linspace start stop (S (S n))) = S (S n).
Proof.
  rewrite linspace_unfold, length_app, length_map, length_seq.
  cbn [List.length]. lia.
Qed.

(** The samples are evenly spaced from [start] to [stop]. *)
Lemma linspace_nth (start stop : Q) (n i : nat) :
  (i < S (S n))%nat ->
  nth i (np_linspace start stop (S (S n))) 0 ==
    start + inject_Z (Z.of_nat i) * ((stop - start) / inject_Z (Z.of_nat (S n))).
Proof.
  intros Hi. rewrite linspace_unfold.
  set (f := fun i0 : nat => _).
  destruct (Nat.eq_dec i (S n)) as [-> | Hne].
  - rewrite app_nth2; rewrite length_map, length_seq; [ | lia].
    rewrite Nat.sub_diag. cbn [nth].
    field. change 0 with (inject_Z 0). rewrite inject_Z_injective. lia.
  - rewrite app_nth1 by (rewrite length_map, length_seq; lia).
    rewrite (nth_indep _ 0 (f 0%nat)) by (rewrite length_map, length_seq; lia).
    rewrite map_nth, seq_nth by lia.
    unfold f. cbn [Nat.add]. ring.
Qed.

Lemma filter_map_all {X Y : Type} (p : Y -> bool) (f : X -> Y) (l : list X) :
  (forall x, p (f x) = true) -> filter p (map f l) = map f l.
Proof.
  intros Hp; induction l as [| x l IH]; cbn [map filter]; [reflexivity | ].
  rewrite Hp, IH. reflexivity.
Qed.

Lemma filter_map_none {X Y : Type} (p : Y -> bool) (f : X -> Y) (l : list X) :
  (forall x, p (f x) = false) -> filter p (map f l) = [].
Proof.
  intros Hp; induction l as [| x l IH]; cbn [map filter]; [reflexivity | ].
  rewrite Hp, IH. reflexivity.
Qed.

Lemma scatter_no_lines (color : Color) (g : state) (max_s max_v : Q) :
  lines_of color (scatter g max_s max_v) = [].
Proof.
  unfold scatter, lines_of.
  induction (points g) as [| [s v] l IH]; cbn [flat_map]; [reflexivity | ].
  rewrite filter_app, IH, app_nil_r.
  destruct (py_gt s max_s); reflexivity.
Qed.

(** The dots drawn are those of the samples with [s <= max_s]. *)
Lemma scatter_circles (g : state) (max_s max_v : Q) :
  circles_of RED (scatter g max_s max_v) =
    map (fun sv : Q * Q =>
           draw_circle RED
             (py_int (plot_x g max_s (fst sv)), py_int (plot_y g max_v (snd sv))) 2)
        (filter (fun sv : Q * Q => py_le (fst sv) max_s) (points g)).
Proof.
  unfold scatter, circles_of.
  induction (points g) as [| [s v] l IH]; cbn [flat_map]; [reflexivity | ].
  rewrite filter_app, IH. cbn [filter fst snd].
  unfold py_gt, py_lt, py_le.
  destruct (Qlt_le_dec max_s s); reflexivity.
Qed.

Lemma polyline_segments (g : state) (color : Color) (max_s max_v : Q)
    (x_vals : list Q) (f : Q -> Q) :
  polyline g color max_s max_v x_vals (map f x_vals) =
    map (fun i =>
           draw_line color
             (plot_x g max_s (nth i x_vals 0),
              plot_y g max_v (f (nth i x_vals 0)))
             (plot_x g max_s (nth (i + 1) x_vals 0),
              plot_y g max_v (f (nth (i + 1) x_vals 0))) 1)
        (seq 0 (List.length x_vals - 1)).
Proof.
  unfold polyline. apply map_ext_in. intros i Hi.
  apply in_seq in Hi.
  rewrite (nth_indep (map f x_vals) 0 (f 0)) by (rewrite length_map; lia).
  rewrite (nth_indep (map f x_vals) 0 (f 0) (n := (i + 1)%nat))
    by (rewrite length_map; lia).
  rewrite !map_nth. reflexivity.
Qed.

Lemma py_in_index (x : Q) (l : list Q) :
  py_in x l = true -> exists idx : nat, py_index x l = Ok idx.
Proof.
  unfold py_in. induction l as [| y l IH]; cbn [existsb py_index].
  - discriminate.
  - destruct (Qeq_bool y x); [intros _; exists 0%nat; reflexivity | ].
    cbn [orb]. intros Hin. destruct (IH Hin) as [idx ->].
    exists (S idx). reflexivity.
Qed.

End GraphFacts.

Section Overlay.
Import GraphPlot GraphFacts.
Context `{SciPy}.

(** C8: [max_s] is the largest plane length; the overlay samples 100
    evenly spaced abscissas from 0 to [max_s]; the green polyline joins
    the points whose ordinate is slope * (x / 2) + intercept and the
    yellow one those whose ordinate is A_fit * (x / 2) ** p, both
    evaluated at these abscissas; and the red dots are exactly the
    samples with s <= max_s, so none with s > max_s is plotted. *)
Theorem C8_overlay_sampling (g : state) (selected_height : Q) :
  py_in selected_height HEIGHTS = true ->
  let max_s := py_last PLANE_LENGTHS in
  let max_v := 4.0 in
  let x_vals := np_linspace 0 max_s 100 in
  let slope := fst (fst (linregress HEIGHTS EXP_AVG_SPEEDS)) in
  let intercept := snd (fst (linregress HEIGHTS EXP_AVG_SPEEDS)) in
  let A_fit := fst (curve_fit power_law HEIGHTS EXP_AVG_SPEEDS) in
  let p := snd (curve_fit power_law HEIGHTS EXP_AVG_SPEEDS) in
  let segment (color : Color) (f : Q -> Q) (i : nat) :=
    draw_line color
      (plot_x g max_s (nth i x_vals 0), plot_y g max_v (f (nth i x_vals 0)))
      (plot_x g max_s (nth (i + 1) x_vals 0),
       plot_y g max_v (f (nth (i + 1) x_vals 0))) 1 in
  (In max_s PLANE_LENGTHS /\ Forall (fun len => len <= max_s) PLANE_LENGTHS) /\
  List.length x_vals = 100%nat /\
  (forall i : nat, (i < 100)%nat ->
     nth i x_vals 0 == inject_Z (Z.of_nat i) * (max_s / 99)) /\
  nth 0 x_vals 0 == 0 /\
  nth 99 x_vals 0 == max_s /\
  exists cmds : list DrawCmd,
    draw g selected_height = Ok cmds /\
    lines_of GREEN cmds =
      map (segment GREEN (fun x => slope * (x / 2) + intercept)) (seq 0 99) /\
    lines_of YELLOW cmds =
      map (segment YELLOW (fun x => A_fit * np_power (x / 2) p)) (seq 0 99) /\
    circles_of RED cmds =
      map (fun sv : Q * Q =>
             draw_circle RED
               (py_int (plot_x g max_s (fst sv)),
                py_int (plot_y g max_v (snd sv))) 2)
          (filter (fun sv : Q * Q => py_le (fst sv) max_s) (points g)).
Proof.
  intros Hin max_s max_v x_vals slope intercept A_fit p segment.
  assert (Hnth : forall i : nat, (i < 100)%nat ->
            nth i x_vals 0 == inject_Z (Z.of_nat i) * (max_s / 99)).
  { intros i Hi. unfold x_vals. rewrite (linspace_nth 0 max_s 98 i Hi).
    change (inject_Z (Z.of_nat 99)) with 99. field. }
  split; [ | split; [ | split; [exact Hnth | split; [ | split]]]].
  - split; [unfold max_s; simpl; auto 10 | ].
    repeat constructor; discriminate.
  - apply (linspace_length 0 max_s 98).
  - rewrite (Hnth 0%nat) by lia. reflexivity.
  - rewrite (Hnth 99%nat) by lia. reflexivity.
  - unfold draw. rewrite Hin.
    destruct (py_in_index _ _ Hin) as [idx Hidx]. rewrite Hidx. cbn [bind].
    destruct (ControllerFacts.py_index_nth _ _ _ Hidx) as (y & Hy & _).
    destruct (ControllerFacts.getitem_same_length HEIGHTS PLANE_LENGTHS idx y
                eq_refl Hy) as (len & -> & _).
    destruct (ControllerFacts.getitem_same_length HEIGHTS EXP_AVG_SPEEDS idx y
                eq_refl Hy) as (vh & -> & _).
    cbn [bind].
    subst slope intercept A_fit p.
    destruct (linregress HEIGHTS EXP_AVG_SPEEDS) as [[slope intercept] r_value].
    destruct (curve_fit power_law HEIGHTS EXP_AVG_SPEEDS) as [A_fit p].
    cbn [fst snd] in *. cbn [bind].
    fold max_s. fold x_vals.
    eexists. split; [reflexivity | ].
    assert (Hlen : (List.length x_vals - 1 = 99)%nat).
    { unfold x_vals. rewrite (linspace_length 0 max_s 98). reflexivity. }
    rewrite !polyline_segments, Hlen.
    split; [ | split].
    + unfold lines_of. rewrite !filter_app.
      fold (lines_of GREEN (scatter g max_s 4.0)).
      rewrite scatter_no_lines.
      rewrite filter_map_all by (intros; reflexivity).
      rewrite filter_map_none by (intros; reflexivity).
      cbn [filter app color_eqb]. rewrite app_nil_r. reflexivity.
    + unfold lines_of. rewrite !filter_app.
      fold (lines_of YELLOW (scatter g max_s 4.0)).
      rewrite scatter_no_lines.
      rewrite filter_map_none by (intros; reflexivity).
      rewrite filter_map_all by (intros; reflexivity).
      cbn [filter app color_eqb]. rewrite app_nil_r. reflexivity.
    + unfold circles_of at 1. rewrite !filter_app.
      fold (circles_of RED (scatter g max_s 4.0)).
      rewrite scatter_circles.
      rewrite !filter_map_none by (intros; reflexivity).
      cbn [filter app color_eqb]. rewrite app_nil_r. reflexivity.
Qed.

End Overlay.

(** ** Every run ends *)

Section Completion.
Import SimulationController ControllerSpec ControllerFacts.

Lemma py_index_member (x : Q) (l : list Q) :
  In x l -> exists idx : nat, py_index x l = Ok idx.
Proof.
  intros Hin. apply GraphFacts.py_in_index. unfold py_in.
  apply existsb_exists. exists x. split; [exact Hin | apply Qeq_bool_refl].
Qed.

(** C4: for every preset height, [set_height] yields the reset scene of
    its plane length (elapsed time and displacement 0), and from there
    finitely many ticks of 1/60 s, under the acceleration 9.8 * sin 30
    degrees, bring the displacement to the plane length: the completion
    test [s >= L] succeeds. *)
Theorem C4_run_completes (h : Q) (sc0 : InclineScene.state) :
  In h HEIGHTS ->
  exists (sc : InclineScene.state) (n : nat),
    InclineScene.set_height h sc0 = Ok sc /\
    InclineScene.t sc = 0 /\ InclineScene.s sc = 0 /\
    In (InclineScene.L sc) PLANE_LENGTHS /\
    frame_dt == 1 / 60 /\ A == 9.8 * SIN_THETA /\
    py_ge (InclineScene.s (InclineScene.run n frame_dt sc)) (InclineScene.L sc)
      = true.
Proof.
  intros Hin.
  destruct (py_index_member h HEIGHTS Hin) as [idx Hidx].
  destruct (py_index_nth _ _ _ Hidx) as (y & Hy & _).
  destruct (getitem_same_length HEIGHTS PLANE_LENGTHS idx y eq_refl Hy)
    as (len & _ & Hlen).
  destruct (set_height_ok h idx len sc0 Hidx Hlen)
    as (sc & Hset & HL & Ht & Hs & _ & Hinv).
  destruct (SceneFacts.run_completes frame_dt sc frame_dt_pos Hinv) as [n Hn].
  exists sc, n.
  splits; try assumption; try reflexivity.
  - apply Hinv.
  - apply py_ge_spec. exact Hn.
Qed.

Context `{SciPy}.

(** The controller notices: a running, unpaused controller of the main
    loop stops after finitely many ticks, with the displacement at the
    plane length. *)
Lemma ticks_until_done (n : nat) (c : state) :
  inv c -> running c = true -> paused c = false ->
  InclineScene.L (scene c)
    <= InclineScene.s (InclineScene.run n frame_dt (scene c)) ->
  exists (m : nat) (c' : state),
    ticks m c = Ok c' /\ running c' = false /\
    InclineScene.L (scene c') <= InclineScene.s (scene c').
Proof.
  revert c; induction n as [| n IH]; intros c Hinv Hr Hp Hend.
  - cbn [InclineScene.run] in Hend.
    destruct (update_running frame_dt c Hr Hp (proj1 (proj2 (proj1 Hinv))))
      as (c1 & Hupd & Hsc & _ & _ & _ & _ & _ & _ & _ & Hdone).
    rewrite (SceneFacts.update_done _ _ Hend) in Hsc, Hdone.
    cbn [fst] in Hsc, Hdone.
    exists 1%nat, c1. cbn [ticks]. rewrite Hupd. cbn [bind].
    split; [reflexivity | split; [apply (Hdone Hend) | ]].
    rewrite Hsc. exact Hend.
  - cbn [InclineScene.run] in Hend.
    destruct (tick_step c Hinv) as (c1 & Hupd & Hinv1 & _ & HL1 & _).
    destruct (update_running frame_dt c Hr Hp (proj1 (proj2 (proj1 Hinv))))
      as (c1' & Hupd' & Hsc & _ & _ & _ & _ & Hp1 & _ & Hgo & Hdone).
    rewrite Hupd in Hupd'. injection Hupd' as <-.
    rewrite <- Hsc in Hgo, Hdone, Hend.
    destruct (Qlt_le_dec (InclineScene.s (scene c1)) (InclineScene.L (scene c1)))
      as [Hshort | Hfull].
    + destruct (Hgo Hshort) as (Hr1 & _).
      rewrite <- HL1 in Hend.
      destruct (IH c1 Hinv1 Hr1 Hp1 Hend) as (m & c' & Ht & Hr' & Hs').
      exists (S m), c'. cbn [ticks]. rewrite Hupd. cbn [bind].
      splits; assumption.
    + exists 1%nat, c1. cbn [ticks]. rewrite Hupd. cbn [bind].
      split; [reflexivity | split; [apply (Hdone Hfull) | exact Hfull]].
Qed.

Theorem controller_run_completes (c : state) :
  reachable c -> running c = true -> paused c = false ->
  exists (m : nat) (c' : state),
    ticks m c = Ok c' /\ running c' = false /\
    InclineScene.L (scene c') <= InclineScene.s (scene c').
Proof.
  intros Hreach Hr Hp. pose proof (reachable_inv c Hreach) as Hinv.
  destruct (SceneFacts.run_completes frame_dt (scene c) frame_dt_pos
              (proj1 (proj1 Hinv))) as [n Hn].
  apply (ticks_until_done n c); assumption.
Qed.

End Completion.

(** * Closed instances *)

Module SampleFacts.
Import SimulationController Sample.
#[local] Existing Instance no_fit.

Example labels :
  map Button.text (buttons init)
  = ["h = 0.25 m"; "h = 0.5 m"; "h = 0.75 m"; "h = 1.0 m"; "h = 1.25 m"].
Proof. vm_compute. reflexivity. Qed.

Example run_lengths :
  map ticks_needed HEIGHTS = [Some 28; Some 39; Some 47; Some 55; Some 61]%nat.
Proof. vm_compute. reflexivity. Qed.

Example started_is_running :
  running c_started = true /\ paused c_started = false /\
  Button.text (start_button c_started) = "Pause".
Proof. vm_compute. repeat split. Qed.

Example before_end :
  running c_before_end = true /\
  Qred (InclineScene.t (scene c_before_end)) = 9 # 20 /\
  Qred (InclineScene.s (scene c_before_end)) = 3969 # 8000.
Proof. vm_compute. repeat split. Qed.

Example done :
  running c_done = false /\
  Qred (InclineScene.t (scene c_done)) = 7 # 15 /\
  InclineScene.s (scene c_done) = 0.50 /\
  match_status c_done = "Deviation" /\
  List.length (GraphPlot.points (graph c_done)) = 28%nat.
Proof. vm_compute. repeat split. Qed.

Lemma reach_started : reachable c_started.
Proof.
  apply (reach_events init [MOUSEBUTTONDOWN] (630, 355)%Z true).
  - apply reach_init.
  - vm_compute. reflexivity.
Qed.

Lemma reach_before_end : reachable c_before_end.
Proof.
  apply (ControllerFacts.reachable_ticks 27 c_started).
  - exact reach_started.
  - vm_compute. reflexivity.
Qed.

Lemma reach_done : reachable c_done.
Proof.
  apply (ControllerFacts.reachable_ticks 28 c_started).
  - exact reach_started.
  - vm_compute. reflexivity.
Qed.

End SampleFacts.

Section Witnesses.
Import SimulationController.
#[local] Existing Instance no_fit.

Lemma C1_displacement_witness :
  reachable Sample.c_done /\
  ((0 <= InclineScene.s (scene Sample.c_done) /\
    InclineScene.s (scene Sample.c_done)
      <= InclineScene.L (scene Sample.c_done)) /\
   (forall n : nat, exists c' : state,
       ticks n Sample.c_done = Ok c' /\
       InclineScene.s (scene Sample.c_done) <= InclineScene.s (scene c')) /\
   (InclineScene.s (scene Sample.c_done)
      == InclineScene.L (scene Sample.c_done) ->
    forall n : nat, exists c' : state,
       ticks n Sample.c_done = Ok c' /\
       InclineScene.s (scene c') = InclineScene.s (scene Sample.c_done) /\
       InclineScene.L (scene c') = InclineScene.L (scene Sample.c_done))).
Proof.
  split.
  - exact SampleFacts.reach_done.
  - apply (C1_displacement_clamped_monotone Sample.c_done).
    exact SampleFacts.reach_done.
Defined.

Lemma C2_verdict_witness :
  exists c' : state,
    update frame_dt Sample.c_on_target = Ok c' /\
    InclineScene.L (scene c') <= InclineScene.s (scene c') /\
    running c' = false /\
    match_status c' = "Success".
Proof.
  destruct (C2_verdict_at_completion frame_dt Sample.c_on_target)
    as (c' & Hupd & Hend & _).
  - reflexivity.
  - reflexivity.
  - exists 1%nat. split; reflexivity.
  - exists c'. split; [exact Hupd | ].
    assert (Ec : c' = get_ok Sample.c_on_target
                        (update frame_dt Sample.c_on_target))
      by (rewrite Hupd; reflexivity).
    assert (Hdone : InclineScene.L (scene c') <= InclineScene.s (scene c'))
      by (rewrite Ec; vm_compute; discriminate).
    split; [exact Hdone | ].
    destruct (Hend Hdone)
      as (idx & exp_v & exp_sd & mv & Hidx & _ & Hev & Hsd & Hmv & _ & Hrun
          & Hsucc & _).
    split; [exact Hrun | ].
    apply Hsucc.
    rewrite Ec in Hidx, Hmv.
    vm_compute in Hidx. injection Hidx as <-.
    vm_compute in Hev. injection Hev as <-.
    vm_compute in Hsd. injection Hsd as <-.
    vm_compute in Hmv. injection Hmv as <-.
    vm_compute. discriminate.
Defined.

Lemma C4_run_completes_witness :
  In 0.25 HEIGHTS /\
  exists (sc : InclineScene.state) (n : nat),
    InclineScene.set_height 0.25 (scene init) = Ok sc /\
    InclineScene.t sc = 0 /\ InclineScene.s sc = 0 /\
    In (InclineScene.L sc) PLANE_LENGTHS /\
    frame_dt == 1 / 60 /\ A == 9.8 * SIN_THETA /\
    py_ge (InclineScene.s (InclineScene.run n frame_dt sc)) (InclineScene.L sc)
      = true.
Proof.
  split.
  - left; reflexivity.
  - apply (C4_run_completes 0.25 (scene init)). left; reflexivity.
Defined.

Lemma C7_time_frozen_witness :
  (running init = false \/ paused init = true) /\
  exists c' : state,
    update frame_dt init = Ok c' /\ c' = init /\
    InclineScene.t (scene c') = InclineScene.t (scene init) /\
    InclineScene.s (scene c') = InclineScene.s (scene init).
Proof.
  split.
  - left; reflexivity.
  - apply (C7_time_frozen_unless_running frame_dt init). left; reflexivity.
Defined.

Lemma C9_finished_scene_witness :
  InclineScene.update 3 (scene Sample.c_done)
    = (scene Sample.c_done,
       (InclineScene.s (scene Sample.c_done),
        A * InclineScene.t (scene Sample.c_done))) /\
  exists c1 c2 : state,
    handle_events [MOUSEBUTTONDOWN] (630, 355)%Z Sample.c_done = Ok (true, c1) /\
    running c1 = true /\ paused c1 = false /\
    scene c1 = scene Sample.c_done /\
    update 3 c1 = Ok c2 /\
    scene c2 = scene Sample.c_done /\
    running c2 = false.
Proof.
  destruct (C9_finished_scene_is_frozen 3) as [Hscene Hstart].
  split.
  - apply Hscene. vm_compute. discriminate.
  - apply Hstart.
    + exact SampleFacts.reach_done.
    + vm_compute; reflexivity.
    + vm_compute. discriminate.
    + vm_compute; reflexivity.
Defined.

Lemma C10_no_division_witness :
  (measured_speed 0.5 (7 # 15) = py_div 0.5 (7 # 15) /\
   py_div 0.5 (7 # 15) = Ok (0.5 / (7 # 15))) /\
  measured_speed 0.5 (-1) = Ok 0 /\
  measured_speed 0.5 0 = Ok 0.
Proof.
  destruct (C10_no_division_by_zero 0.5 (7 # 15)) as (Hpos & _).
  destruct (C10_no_division_by_zero 0.5 (-1)) as (_ & Hneg & _).
  destruct (C10_no_division_by_zero 0.5 0) as (_ & _ & Hzero & _).
  split; [apply Hpos; reflexivity | split].
  - apply Hneg. intros Habs. discriminate Habs.
  - apply Hzero. reflexivity.
Defined.

Lemma C8_overlay_witness :
  py_in 0.75 HEIGHTS = true /\
  exists cmds : list DrawCmd,
    GraphPlot.draw (GraphPlot.add_point (graph init) 3 1) 0.75 = Ok cmds /\
    List.length (lines_of GREEN cmds) = 99%nat /\
    List.length (lines_of YELLOW cmds) = 99%nat /\
    circles_of RED cmds = [].
Proof.
  split; [reflexivity | ].
  destruct (C8_overlay_sampling (GraphPlot.add_point (graph init) 3 1) 0.75
              eq_refl)
    as (_ & _ & _ & _ & _ & cmds & Hdraw & Hgreen & Hyellow & Hred).
  exists cmds. split; [exact Hdraw | ].
  rewrite Hgreen, Hyellow, Hred, !length_map, length_seq.
  repeat split.
Defined.

End Witnesses.

(** * Further properties of the program *)

(** ** Invariants proved through the event handler *)

Module LoopFacts.
Import SimulationController ControllerSpec ControllerFacts LoopSpec.

Lemma same_view_refl (c : state) : same_view c c.
Proof. unfold same_view. splits; reflexivity. Qed.

(** A property of the controller's view that each of the three button
    actions keeps is kept by the loop over the height buttons ... *)
Lemma for_buttons_preserves (P : state -> Prop) (ev : Event) (pos : Z * Z) :
  (forall btn c c',
      In (Button.text btn) (map Button.text (buttons init)) ->
      P c -> on_height_button btn c = Ok c' -> P c') ->
  forall (btns : list Button.state) (c : state) (r : list Button.state * state),
    (forall b, In b btns -> In (Button.text b) (map Button.text (buttons init))) ->
    P c -> for_buttons ev pos btns c = Ok r -> P (snd r).
Proof.
  intros Hheight btns.
  induction btns as [| b rest IH]; intros c r Htxt HP Hrun; cbn [for_buttons] in Hrun.
  - injection Hrun as <-. exact HP.
  - destruct (is_clicked_keeps b ev pos) as [_ Ht].
    destruct (Button.is_clicked b ev pos) as [b' hit]; cbn [fst] in Ht.
    destruct (if hit then on_height_button b' c else Ok c) as [c1 | e] eqn:Estep;
      cbn [bind] in Hrun; [ | discriminate].
    assert (HP1 : P c1).
    { destruct hit; [ | injection Estep as <-; exact HP].
      apply (Hheight b' c c1); [ | exact HP | exact Estep].
      rewrite Ht. apply Htxt. left; reflexivity. }
    destruct (for_buttons ev pos rest c1) as [r1 | e] eqn:Erest;
      cbn [bind] in Hrun; [ | discriminate].
    injection Hrun as <-. cbn [snd].
    apply (IH c1 r1); [ | exact HP1 | exact Erest].
    intros b0 Hb0. apply Htxt. right; exact Hb0.
Qed.

(** ... and by the handling of one event, ... *)
Lemma handle_event_preserves (P : state -> Prop) (ev : Event) (pos : Z * Z) :
  (forall c c', same_view c c' -> P c -> P c') ->
  (forall btn c c',
      In (Button.text btn) (map Button.text (buttons init)) ->
      P c -> on_height_button btn c = Ok c' -> P c') ->
  (forall c, P c -> P (on_start_button c)) ->
  (forall c, P c -> P (on_reset_button c)) ->
  forall c c' : state,
    buttons_ok (buttons c) -> P c -> handle_event ev pos c = Ok c' -> P c'.
Proof.
  intros Hview Hheight Hstart Hreset c c' Hbs HP Hrun.
  unfold handle_event in Hrun.
  destruct (for_buttons ev pos (buttons c) c) as [r | e] eqn:Efor;
    cbn [bind] in Hrun; [ | discriminate].
  pose proof (for_buttons_preserves P ev pos Hheight (buttons c) c r
                (buttons_ok_texts _ Hbs) HP Efor) as HP1.
  set (c2 := set_buttons (fst r) (snd r)) in Hrun.
  assert (HP2 : P c2).
  { apply (Hview (snd r)); [ | exact HP1]. unfold same_view. splits; reflexivity. }
  clearbody c2.
  destruct (is_clicked_keeps (start_button c2) ev pos) as [_ Ht].
  destruct (Button.is_clicked (start_button c2) ev pos) as [sb hit1].
  cbn [fst] in Ht.
  set (c3 := set_start_button sb c2) in Hrun.
  assert (HP3 : P c3).
  { apply (Hview c2); [ | exact HP2]. unfold same_view, c3. simpl_state.
    splits; try reflexivity. exact Ht. }
  clearbody c3.
  set (c4 := if hit1 then on_start_button c3 else c3) in Hrun.
  assert (HP4 : P c4).
  { unfold c4. destruct hit1; [apply Hstart | ]; exact HP3. }
  clearbody c4.
  destruct (is_clicked_keeps (reset_button c4) ev pos) as [_ Ht4].
  destruct (Button.is_clicked (reset_button c4) ev pos) as [rb hit2].
  set (c5 := set_reset_button rb c4) in Hrun.
  assert (HP5 : P c5).
  { apply (Hview c4); [ | exact HP4]. unfold same_view. splits; reflexivity. }
  clearbody c5.
  injection Hrun as <-.
  destruct hit2; [apply Hreset | ]; exact HP5.
Qed.

(** ... and so by the handling of any list of events from a state of the
    main loop. *)
Lemma handle_events_preserves (P : state -> Prop) (pos : Z * Z) :
  (forall c c', same_view c c' -> P c -> P c') ->
  (forall btn c c',
      In (Button.text btn) (map Button.text (buttons init)) ->
      P c -> on_height_button btn c = Ok c' -> P c') ->
  (forall c, P c -> P (on_start_button c)) ->
  (forall c, P c -> P (on_reset_button c)) ->
  forall (events : list Event) (c : state) (r : bool * state),
    inv c -> P c -> handle_events events pos c = Ok r -> P (snd r).
Proof.
  intros Hview Hheight Hstart Hreset events.
  induction events as [| ev rest IH]; intros c r Hinv HP Hrun;
    cbn [handle_events] in Hrun.
  - injection Hrun as <-. exact HP.
  - destruct (is_quit ev); [injection Hrun as <-; exact HP | ].
    destruct (handle_event_inv ev pos c Hinv) as (c1 & Hev & Hinv1).
    rewrite Hev in Hrun. cbn [bind] in Hrun.
    apply (IH c1 r Hinv1); [ | exact Hrun].
    apply (handle_event_preserves P ev pos Hview Hheight Hstart Hreset c c1);
      [apply Hinv | exact HP | exact Hev].
Qed.

(** *** The frame at which a run ends *)

(** [n] frames reach the length [len] and [n - 1] frames do not. *)
Lemma frames_unique (len : Q) (n m : Z) :
  (1 <= n)%Z -> (1 <= m)%Z ->
  0.5 * A * ((inject_Z n - 1) * frame_dt) ^ 2 < len ->
  len <= 0.5 * A * (inject_Z n * frame_dt) ^ 2 ->
  0.5 * A * ((inject_Z m - 1) * frame_dt) ^ 2 < len ->
  len <= 0.5 * A * (inject_Z m * frame_dt) ^ 2 ->
  n = m.
Proof.
  assert (Hgen : forall a b : Z,
             (1 <= a)%Z -> (a < b)%Z ->
             len <= 0.5 * A * (inject_Z a * frame_dt) ^ 2 ->
             0.5 * A * ((inject_Z b - 1) * frame_dt) ^ 2 < len -> False).
  { intros a b Ha Hab Hreach Hshort.
    assert (Ha0 : 0 <= inject_Z a).
    { change 0 with (inject_Z 0). rewrite <- Zle_Qle. lia. }
    assert (Hab' : inject_Z a <= inject_Z b - 1).
    { setoid_replace (inject_Z b - 1) with (inject_Z (b - 1)).
      - rewrite <- Zle_Qle. lia.
      - unfold Z.sub. rewrite inject_Z_plus. reflexivity. }
    pose proof frame_dt_pos as Hdt.
    assert (Hsq : (inject_Z a * frame_dt) * (inject_Z a * frame_dt)
                  <= ((inject_Z b - 1) * frame_dt) * ((inject_Z b - 1) * frame_dt)).
    { apply SceneFacts.sq_mono.
      - apply Qmult_le_0_compat; [exact Ha0 | apply Qlt_le_weak, Hdt].
      - apply Qmult_le_compat_r; [exact Hab' | apply Qlt_le_weak, Hdt]. }
    rewrite !sq_power, A_value in *. lra. }
  intros Hn Hm Hn1 Hn2 Hm1 Hm2.
  destruct (Z.lt_trichotomy n m) as [Hlt | [Heq | Hgt]].
  - exfalso. apply (Hgen n m); assumption.
  - exact Heq.
  - exfalso. apply (Hgen m n); assumption.
Qed.

(** A finished scene of the main loop has run for exactly the number of
    frames listed for its plane. *)
Lemma completion_frames (sc : InclineScene.state) (idx : nat) :
  SceneSpec.inv sc -> time_ok sc ->
  InclineScene.L sc <= InclineScene.s sc ->
  nth_error PLANE_LENGTHS idx = Some (InclineScene.L sc) ->
  exists k : nat,
    nth_error run_frames idx = Some k /\
    InclineScene.t sc == inject_Z (Z.of_nat k) * frame_dt.
Proof.
  intros Hinv [[k0 Hk0] Hprev] Hdone Hidx.
  pose proof (time_pos_at_end sc Hinv Hdone) as Hpos.
  specialize (Hprev Hdone).
  destruct Hinv as (_ & _ & _ & Hkin & _ & _).
  assert (Hreach : InclineScene.L sc
                   <= 0.5 * A * (inject_Z (Z.of_nat k0) * frame_dt) ^ 2).
  { rewrite <- Hk0. lra. }
  assert (Hshort : 0.5 * A * ((inject_Z (Z.of_nat k0) - 1) * frame_dt) ^ 2
                   < InclineScene.L sc).
  { setoid_replace ((inject_Z (Z.of_nat k0) - 1) * frame_dt)
      with (InclineScene.t sc - frame_dt); [exact Hprev | ].
    rewrite Hk0. ring. }
  assert (Hk1 : (1 <= Z.of_nat k0)%Z).
  { destruct k0 as [| k0]; [ | lia].
    exfalso. rewrite Hk0 in Hpos. change (inject_Z (Z.of_nat 0)) with 0 in Hpos.
    lra. }
  set (len := InclineScene.L sc) in *. clearbody len.
  assert (Hfind : forall m : nat,
             (1 <= Z.of_nat m)%Z ->
             0.5 * A * ((inject_Z (Z.of_nat m) - 1) * frame_dt) ^ 2 < len ->
             len <= 0.5 * A * (inject_Z (Z.of_nat m) * frame_dt) ^ 2 ->
             InclineScene.t sc == inject_Z (Z.of_nat m) * frame_dt).
  { intros m Hm Hm1 Hm2.
    assert (E : Z.of_nat k0 = Z.of_nat m)
      by (apply (frames_unique len); assumption).
    rewrite <- E. exact Hk0. }
  do 5 (destruct idx as [| idx];
        [injection Hidx as <-; eexists; split; [reflexivity | ];
         apply Hfind; [lia | reflexivity | discriminate] | ]).
  destruct idx; discriminate.
Qed.

(** With the five experimental means and deviations, the speed measured
    over such a run is judged "Deviation" on every preset. *)
Lemma verdict_of_finished_scene (sc : InclineScene.state) (idx : nat)
    (exp_v exp_sd : Q) :
  SceneSpec.inv sc -> time_ok sc ->
  InclineScene.L sc <= InclineScene.s sc ->
  nth_error PLANE_LENGTHS idx = Some (InclineScene.L sc) ->
  nth_error EXP_AVG_SPEEDS idx = Some exp_v ->
  nth_error EXP_STD_DEVS idx = Some exp_sd ->
  verdict (InclineScene.L sc / InclineScene.t sc) exp_v exp_sd = "Deviation".
Proof.
  intros Hinv Htime Hdone Hidx Hev Hsd.
  destruct (completion_frames sc idx Hinv Htime Hdone Hidx) as (k & Hk & Ht).
  apply verdict_cases. intros Hle. rewrite Ht in Hle. revert Hle.
  do 5 (destruct idx as [| idx];
        [injection Hidx as <-; injection Hev as <-; injection Hsd as <-;
         injection Hk as <-; vm_compute; intros Hle; apply Hle; reflexivity | ]).
  destruct idx; discriminate.
Qed.

(** *** The scene through reset and update *)

Lemma reset_scene_ok (sc : InclineScene.state) :
  In (InclineScene.L sc) PLANE_LENGTHS ->
  InclineScene.incline_start sc = (50, 718)%Z ->
  InclineScene.block_size sc = 30%Z ->
  SceneSpec.inv (InclineScene.reset sc) /\
  time_ok (InclineScene.reset sc) /\ block_ok (InclineScene.reset sc).
Proof.
  intros HL Hstart Hsize.
  split; [apply SceneFacts.inv_reset, HL | split].
  - split.
    + exists 0%nat. cbn [InclineScene.reset InclineScene.t].
      change (inject_Z (Z.of_nat 0)) with 0. ring.
    + cbn [InclineScene.reset InclineScene.s InclineScene.L]. intros Habs.
      apply SceneFacts.plane_length_pos in HL. exfalso. lra.
  - unfold block_ok, InclineScene.screen_pos.
    cbn [InclineScene.reset InclineScene.incline_start InclineScene.block_size
         InclineScene.block_pos InclineScene.s].
    rewrite Hstart. cbn [ZQ fst snd].
    splits; try reflexivity; try assumption.
Qed.

Lemma set_height_keeps (h : Q) (sc sc' : InclineScene.state) :
  InclineScene.set_height h sc = Ok sc' ->
  sc' = InclineScene.reset
          (InclineScene.mk (InclineScene.rect sc) (InclineScene.incline_start sc)
             (InclineScene.block_size sc) (InclineScene.block_pos sc)
             (InclineScene.t sc) (InclineScene.s sc) (InclineScene.L sc')) /\
  In (InclineScene.L sc') PLANE_LENGTHS.
Proof.
  unfold InclineScene.set_height, py_getitem. intros Hset.
  destruct (py_index h HEIGHTS) as [idx | e]; cbn [bind] in Hset; [ | discriminate].
  destruct (nth_error PLANE_LENGTHS idx) as [len | ] eqn:Elen;
    cbn [bind] in Hset; [ | discriminate].
  injection Hset as <-. cbn [InclineScene.reset InclineScene.L].
  split; [reflexivity | eapply nth_error_In; exact Elen].
Qed.

Lemma on_height_button_effect (btn : Button.state) (c c' : state) :
  on_height_button btn c = Ok c' ->
  (exists h : Q, InclineScene.set_height h (scene c) = Ok (scene c')) /\
  running c' = false /\ paused c' = false /\
  Button.text (start_button c') = "Start" /\
  GraphPlot.points (graph c') = [] /\
  fit_results c' = None /\ match_status c' = "".
Proof.
  unfold on_height_button. intros Hrun.
  destruct (height_of_text (Button.text btn)) as [h | e]; cbn [bind] in Hrun;
    [ | discriminate].
  simpl_state.
  destruct (InclineScene.set_height h (scene c)) as [sc' | e] eqn:Eset;
    cbn [bind] in Hrun; [ | discriminate].
  injection Hrun as <-. simpl_state.
  splits; try reflexivity. exists h. exact Eset.
Qed.

(** The block position written by a moving [update]. *)
Lemma update_block (dt : Q) (sc : InclineScene.state) :
  InclineScene.s sc < InclineScene.L sc ->
  let sc' := fst (InclineScene.update dt sc) in
  InclineScene.incline_start sc' = InclineScene.incline_start sc /\
  InclineScene.block_size sc' = InclineScene.block_size sc /\
  InclineScene.block_pos sc' = InclineScene.screen_pos sc' (InclineScene.s sc').
Proof.
  intros Hmov. apply py_lt_spec in Hmov.
  unfold InclineScene.update. rewrite Hmov. cbn [fst].
  unfold InclineScene.screen_pos.
  cbn [InclineScene.incline_start InclineScene.block_size InclineScene.block_pos
       InclineScene.s].
  splits; reflexivity.
Qed.

Lemma update_scene_ok (sc : InclineScene.state) :
  SceneSpec.inv sc -> time_ok sc -> block_ok sc ->
  let sc' := fst (InclineScene.update frame_dt sc) in
  SceneSpec.inv sc' /\ time_ok sc' /\ block_ok sc' /\
  InclineScene.s sc <= InclineScene.s sc' /\ 0 <= InclineScene.t sc'.
Proof.
  intros Hinv Htime Hblock sc'.
  destruct (SceneFacts.inv_update frame_dt sc (Qlt_le_weak _ _ frame_dt_pos) Hinv)
    as [Hinv' Hmono]. fold sc' in Hinv', Hmono.
  split; [exact Hinv' | ].
  assert (Ht' : 0 <= InclineScene.t sc') by apply Hinv'.
  destruct (Qlt_le_dec (InclineScene.s sc) (InclineScene.L sc)) as [Hmov | Hdone].
  - destruct (SceneFacts.update_moving frame_dt sc Hmov) as (Et & _).
    destruct (update_block frame_dt sc Hmov) as (Es & Eb & Ep).
    fold sc' in Et, Es, Eb, Ep.
    splits; try assumption.
    + split.
      * destruct Htime as [[k Hk] _]. exists (S k).
        rewrite Et, Hk, Nat2Z.inj_succ. unfold Z.succ.
        rewrite inject_Z_plus. change (inject_Z 1) with 1. ring.
      * intros _. unfold sc' at 2. rewrite SceneFacts.update_L.
        setoid_replace (InclineScene.t sc' - frame_dt) with (InclineScene.t sc)
          by (rewrite Et; ring).
        destruct Hinv as (_ & _ & _ & _ & _ & Hfree).
        rewrite <- (Hfree Hmov). exact Hmov.
    + destruct Hblock as (Hs0 & Hb0 & _).
      unfold block_ok. rewrite Es, Eb, Ep.
      splits; try assumption; reflexivity.
  - unfold sc'. rewrite (SceneFacts.update_done frame_dt sc Hdone). cbn [fst].
    splits; try assumption; try apply Qle_refl. apply Hinv.
Qed.

(** *** The invariant of the view *)

Section ViewInvariant.
Context `{SciPy}.

Lemma view_inv_init : view_inv init.
Proof.
  unfold view_inv. splits.
  - apply SceneFacts.inv_init.
  - split; [discriminate | reflexivity].
  - split; [exists 0%nat; reflexivity | ].
    cbn. intros Habs. exfalso. revert Habs. vm_compute. auto.
  - constructor.
  - unfold block_ok. splits; reflexivity.
  - left. split; reflexivity.
Qed.

Lemma view_inv_view (c c' : state) : same_view c c' -> view_inv c -> view_inv c'.
Proof.
  intros (Hh & Hr & Hp & Hsc & Hg & Ht & Hf & Hm) (Hi & Hfl & Hti & Htr & Hb & Hfit).
  unfold view_inv, flags_ok, trace_ok, fit_ok in *.
  rewrite Hr, Hp, Hsc, Hg, Ht, Hf, Hm.
  exact (conj Hi (conj Hfl (conj Hti (conj Htr (conj Hb Hfit))))).
Qed.

Lemma view_inv_restart (c c' : state) (sc : InclineScene.state) :
  view_inv c ->
  In (InclineScene.L sc) PLANE_LENGTHS ->
  InclineScene.incline_start sc = InclineScene.incline_start (scene c) ->
  InclineScene.block_size sc = InclineScene.block_size (scene c) ->
  scene c' = InclineScene.reset sc ->
  running c' = false -> paused c' = false ->
  Button.text (start_button c') = "Start" ->
  GraphPlot.points (graph c') = [] ->
  fit_results c' = None -> match_status c' = "" ->
  view_inv c'.
Proof.
  intros (_ & _ & _ & _ & (Hs0 & Hb0 & _) & _) HL Hst Hsz Hsc Hr Hp Ht Hpts Hf Hm.
  destruct (reset_scene_ok sc HL) as (Hi & Hti & Hb); [congruence | congruence | ].
  unfold view_inv, flags_ok, trace_ok, fit_ok.
  rewrite Hsc, Hr, Hp, Ht, Hpts, Hf, Hm.
  splits; try assumption.
  - discriminate.
  - reflexivity.
  - constructor.
  - left. split; reflexivity.
Qed.

Lemma view_inv_height (btn : Button.state) (c c' : state) :
  view_inv c -> on_height_button btn c = Ok c' -> view_inv c'.
Proof.
  intros Hv Hrun.
  destruct (on_height_button_effect btn c c' Hrun)
    as ([h Hset] & Hr & Hp & Ht & Hpts & Hf & Hm).
  destruct (set_height_keeps h (scene c) (scene c') Hset) as [Hsc HL].
  eapply (view_inv_restart c c' _ Hv); [ | | | exact Hsc | | | | | | ];
    try assumption; reflexivity.
Qed.

Lemma view_inv_reset (c : state) : view_inv c -> view_inv (on_reset_button c).
Proof.
  intros Hv.
  apply (view_inv_restart c _ (scene c) Hv); try reflexivity.
  apply Hv.
Qed.

Lemma view_inv_start (c : state) : view_inv c -> view_inv (on_start_button c).
Proof.
  intros (Hi & (Hpr & Hlab) & Hti & Htr & Hb & Hfit).
  unfold view_inv, flags_ok, trace_ok, fit_ok, on_start_button in *.
  destruct (running c) eqn:Hr; cbn [negb]; simpl_state.
  - rewrite Hr. splits; try assumption; try (intros; reflexivity).
  - splits; try assumption; try (intros; reflexivity).
Qed.

(** On completion [update] stores the fit of the fixed data set. *)
Lemma update_stores_fit (dt : Q) (c c' : state) :
  running c = true -> paused c = false ->
  update dt c = Ok c' ->
  InclineScene.L (scene c') <= InclineScene.s (scene c') ->
  fit_results c' = Some the_fit.
Proof.
  intros Hr Hp Hupd Hdone. unfold update in Hupd.
  rewrite Hr, Hp in Hupd. cbn [andb negb] in Hupd.
  rewrite scene_update_shape in Hupd.
  set (sc := fst (InclineScene.update dt (scene c))) in *. simpl_state.
  destruct (py_ge (InclineScene.s sc) (InclineScene.L sc)) eqn:Hge.
  - destruct (py_index (selected_height c) HEIGHTS) as [idx | e];
      cbn [bind] in Hupd; [ | discriminate].
    destruct (measured_speed _ _) as [mv | e]; cbn [bind] in Hupd; [ | discriminate].
    destruct (py_getitem EXP_AVG_SPEEDS idx) as [ev | e]; cbn [bind] in Hupd;
      [ | discriminate].
    destruct (py_getitem EXP_STD_DEVS idx) as [sd | e]; cbn [bind] in Hupd;
      [ | discriminate].
    unfold the_fit.
    destruct (linregress HEIGHTS EXP_AVG_SPEEDS) as [[slope intercept] r_value].
    destruct (curve_fit power_law HEIGHTS EXP_AVG_SPEEDS) as [A_fit p].
    injection Hupd as <-. reflexivity.
  - apply py_ge_false in Hge. injection Hupd as <-. simpl_state. exfalso. lra.
Qed.

Lemma view_inv_update (c c' : state) :
  inv c -> view_inv c -> update frame_dt c = Ok c' -> view_inv c'.
Proof.
  intros Hinv Hv Hupd.
  destruct (running c) eqn:Hr; [destruct (paused c) eqn:Hp | ].
  - rewrite update_idle in Hupd by (right; exact Hp). injection Hupd as <-. exact Hv.
  - destruct Hinv as [(_ & Hsel & _) _].
    destruct (update_running frame_dt c Hr Hp Hsel)
      as (c1 & Hupd1 & Hsc & _ & _ & _ & _ & Hp1 & Hpts & Hgo & Hend).
    rewrite Hupd in Hupd1. injection Hupd1 as <-.
    destruct Hv as (Hi & (_ & Hlab) & Hti & Htr & Hb & Hfit).
    destruct (update_scene_ok (scene c) Hi Hti Hb)
      as (Hi' & Hti' & Hb' & Hmono & Ht0).
    rewrite <- Hsc in Hi', Hti', Hb', Hmono, Ht0, Hgo, Hend, Hpts.
    assert (Htr' : trace_ok c').
    { unfold trace_ok in *. rewrite Hpts. apply Forall_app. split.
      - eapply Forall_impl; [ | exact Htr].
        intros [s v] (Ha & Hb2 & Hc). cbn [fst snd] in *. splits; try assumption. lra.
      - constructor; [ | constructor]. cbn [fst snd].
        splits; [apply Hi' | apply Qle_refl | ].
        rewrite A_value. apply Qmult_le_0_compat; [discriminate | exact Ht0]. }
    unfold view_inv. splits; try assumption.
    + unfold flags_ok. rewrite Hp1.
      destruct (Qlt_le_dec (InclineScene.s (scene c'))
                  (InclineScene.L (scene c'))) as [Hshort | Hfull].
      * destruct (Hgo Hshort) as (-> & _ & _ & ->).
        rewrite Hlab, Hr, Hp. split; [discriminate | reflexivity].
      * destruct (Hend Hfull) as (-> & -> & _).
        split; [discriminate | reflexivity].
    + unfold fit_ok.
      destruct (Qlt_le_dec (InclineScene.s (scene c'))
                  (InclineScene.L (scene c'))) as [Hshort | Hfull].
      * destruct (Hgo Hshort) as (_ & -> & -> & _).
        destruct Hfit as [Hnone | (_ & _ & Hwas)]; [left; exact Hnone | ].
        exfalso.
        rewrite Hsc, (SceneFacts.update_done _ _ Hwas) in Hshort.
        cbn [fst] in Hshort. lra.
      * right.
        destruct (Hend Hfull)
          as (_ & _ & _ & idx & ev & sd & mv & Hidx & Hev & Hsd & Hmv & Hms).
        split; [apply (update_stores_fit frame_dt c c'); assumption | ].
        split; [ | exact Hfull].
        rewrite Hms.
        destruct (measured_speed_spec (InclineScene.L (scene c'))
                    (InclineScene.t (scene c'))) as (v & Hv & Hdiv & _).
        assert (mv = v) by congruence. subst mv.
        rewrite (Hdiv (time_pos_at_end _ Hi' Hfull)).
        destruct Hsel as (idx0 & Hidx0 & Hlen0).
        assert (idx0 = idx) by congruence. subst idx0.
        apply (verdict_of_finished_scene (scene c') idx); try assumption.
        rewrite Hsc, SceneFacts.update_L. exact Hlen0.
  - rewrite update_idle in Hupd by (left; exact Hr). injection Hupd as <-. exact Hv.
Qed.

(** Every state of the main loop satisfies it. *)
Lemma reachable_view_inv (c : state) : reachable c -> view_inv c.
Proof.
  induction 1 as [| c events pos b c' Hreach IH Hev | c c' Hreach IH Hup].
  - apply view_inv_init.
  - apply (handle_events_preserves view_inv pos view_inv_view
             (fun btn c0 c1 _ => view_inv_height btn c0 c1)
             view_inv_start view_inv_reset events c (b, c')
             (reachable_inv c Hreach) IH Hev).
  - apply (view_inv_update c c' (reachable_inv c Hreach) IH Hup).
Qed.

End ViewInvariant.

(** *** Events that click nothing, and quitting *)

Lemma state_eta (c : state) :
  set_reset_button (reset_button c)
    (set_start_button (start_button c) (set_buttons (buttons c) c)) = c.
Proof. destruct c; reflexivity. Qed.

Lemma handle_event_unclicked (ev : Event) (pos : Z * Z) (c : state) :
  (forall b, In b (buttons c ++ [start_button c; reset_button c]) ->
             Button.is_clicked b ev pos = (b, false)) ->
  handle_event ev pos c = Ok c.
Proof.
  intros Hmiss. unfold handle_event.
  rewrite for_buttons_miss
    by (intros b Hb; apply Hmiss, in_or_app; left; exact Hb).
  cbn [bind fst snd]. simpl_state.
  rewrite (Hmiss (start_button c))
    by (apply in_or_app; right; left; reflexivity).
  simpl_state.
  rewrite (Hmiss (reset_button c))
    by (apply in_or_app; right; right; left; reflexivity).
  rewrite state_eta. reflexivity.
Qed.

Lemma is_quit_spec (ev : Event) :
  is_quit ev = true <-> ev = QUIT \/ ev = KEYDOWN K_ESCAPE.
Proof.
  destruct ev as [| key | | ]; cbn [is_quit]; split;
    try (intros [E | E]; discriminate); try discriminate; auto.
  - intros E. apply Z.eqb_eq in E. subst key. right; reflexivity.
  - intros [E | E]; [discriminate | ]. injection E as ->. reflexivity.
Qed.

(** The answer of [handle_events] says whether a quit event was met. *)
Lemma handle_events_flag (events : list Event) (pos : Z * Z) (c : state)
    (r : bool * state) :
  handle_events events pos c = Ok r -> fst r = negb (existsb is_quit events).
Proof.
  revert c; induction events as [| ev rest IH]; intros c Hrun;
    cbn [handle_events existsb] in *.
  - injection Hrun as <-. reflexivity.
  - destruct (is_quit ev); cbn [orb].
    + injection Hrun as <-. reflexivity.
    + destruct (handle_event ev pos c) as [c1 | e]; cbn [bind] in Hrun;
        [ | discriminate].
      apply (IH c1 Hrun).
Qed.

Lemma handle_events_quit (pre post : list Event) (q : Event) (pos : Z * Z)
    (c : state) :
  is_quit q = true ->
  handle_events (pre ++ q :: post) pos c =
    (r <- handle_events pre pos c ;; Ok (false, snd r)).
Proof.
  intros Hq. revert c; induction pre as [| ev rest IH]; intros c;
    cbn [app handle_events].
  - rewrite Hq. reflexivity.
  - destruct (is_quit ev); [reflexivity | ].
    destruct (handle_event ev pos c) as [c1 | e]; cbn [bind]; [ | reflexivity].
    apply IH.
Qed.

End LoopFacts.

(** ** Properties of the controller's state machine *)

Section EventProperties.
Import SimulationController ControllerSpec ControllerFacts LoopSpec LoopFacts.

(** X2: a window-close request or a press on the escape key ends the
    handling of the frame's events: those before it take effect, those
    after it are dropped, and the answer is [False].  Conversely the
    answer is [False] only when the events hold one of the two. *)
Theorem quit_ends_event_handling (pre post : list Event) (q : Event)
    (mouse_pos : Z * Z) (c : state) :
  q = QUIT \/ q = KEYDOWN K_ESCAPE ->
  handle_events (pre ++ q :: post) mouse_pos c =
    (r <- handle_events pre mouse_pos c ;; Ok (false, snd r)) /\
  (forall (events : list Event) (b : bool) (c' : state),
      handle_events events mouse_pos c = Ok (b, c') ->
      (b = false <->
       exists ev, In ev events /\ (ev = QUIT \/ ev = KEYDOWN K_ESCAPE))).
Proof.
  intros Hq. split.
  - apply handle_events_quit, is_quit_spec, Hq.
  - intros events b c' Hrun.
    pose proof (handle_events_flag events mouse_pos c (b, c') Hrun) as Hb.
    cbn [fst] in Hb. rewrite Hb. split.
    + intros Hneg. apply negb_false_iff in Hneg.
      apply existsb_exists in Hneg. destruct Hneg as (ev & Hin & Hev).
      exists ev. split; [exact Hin | apply is_quit_spec, Hev].
    + intros (ev & Hin & Hev). apply negb_false_iff, existsb_exists.
      exists ev. split; [exact Hin | apply is_quit_spec, Hev].
Qed.

(** X3: an event that is neither a quit event nor a mouse press inside a
    widget (a key other than escape, mouse motion, a press on the
    background) leaves the controller exactly as it was. *)
Theorem unclicked_event_changes_nothing (ev : Event) (mouse_pos : Z * Z)
    (c : state) :
  ev <> QUIT -> ev <> KEYDOWN K_ESCAPE ->
  ev <> MOUSEBUTTONDOWN \/
  (forall b, In b (buttons c ++ [start_button c; reset_button c]) ->
             Button.is_hovered b mouse_pos = false) ->
  handle_events [ev] mouse_pos c = Ok (true, c).
Proof.
  intros Hq1 Hq2 Hmiss. cbn [handle_events].
  destruct (is_quit ev) eqn:Eq.
  - apply is_quit_spec in Eq. destruct Eq; contradiction.
  - rewrite handle_event_unclicked; [reflexivity | ].
    intros b Hb. destruct Hmiss as [Hne | Hout].
    + unfold Button.is_clicked. destruct ev; try reflexivity. contradiction.
    + destruct ev; try reflexivity. apply is_clicked_miss, Hout, Hb.
Qed.

(** X6: a second press on the reset button changes nothing: the first one
    already left the controller in the state the second one produces. *)
Theorem reset_twice_is_reset_once (c : state) (mouse_pos : Z * Z) :
  layout c ->
  Button.is_hovered (reset_button c) mouse_pos = true ->
  exists c1 : state,
    handle_events [MOUSEBUTTONDOWN] mouse_pos c = Ok (true, c1) /\
    handle_events [MOUSEBUTTONDOWN] mouse_pos c1 = Ok (true, c1).
Proof.
  assert (Hstep : forall c0 : state,
             layout c0 ->
             Button.is_hovered (reset_button c0) mouse_pos = true ->
             handle_event MOUSEBUTTONDOWN mouse_pos c0 =
               Ok (on_reset_button
                     (set_reset_button
                        (Button.mk (Button.rect (reset_button c0))
                           (Button.text (reset_button c0)) true) c0))).
  { intros c0 Hlay Hhit.
    pose proof (reset_button_rect c0 Hlay) as Hrect.
    unfold handle_event.
    rewrite (for_buttons_elsewhere c0 6 _ mouse_pos Hlay Hrect Hhit) by lia.
    cbn [bind fst snd]. simpl_state.
    rewrite is_clicked_miss.
    2:{ apply (widgets_disjoint 6 5 _ _ mouse_pos Hrect (start_button_rect c0 Hlay));
          [lia | exact Hhit]. }
    simpl_state. rewrite (is_clicked_hit _ mouse_pos Hhit).
    destruct c0; reflexivity. }
  intros Hlay Hhit.
  eexists. cbn [handle_events is_quit]. rewrite (Hstep c Hlay Hhit). cbn [bind].
  split; [reflexivity | ].
  rewrite Hstep.
  - destruct c as [h r p sc g bs sb rb f m]. destruct sc. reflexivity.
  - destruct Hlay as (Hb & Hs & Hr). repeat split; try assumption; apply Hb.
  - exact Hhit.
Qed.

End EventProperties.

Section LoopProperties.
Import SimulationController ControllerSpec ControllerFacts LoopSpec LoopFacts.
Context `{SciPy}.

(** X1: the start button walks the controller through its three states.
    From idle a press starts the run ("Pause"); from running it pauses
    ("Resume"); from paused it resumes ("Pause").  Scene, trace, selected
    height, fit result and verdict are not touched. *)
Theorem start_button_cycles (c : state) (mouse_pos : Z * Z) :
  reachable c ->
  Button.is_hovered (start_button c) mouse_pos = true ->
  exists c' : state,
    handle_events [MOUSEBUTTONDOWN] mouse_pos c = Ok (true, c') /\
    running c' = true /\
    paused c' = (running c && negb (paused c))%bool /\
    Button.text (start_button c') = (if paused c' then "Resume" else "Pause") /\
    scene c' = scene c /\ graph c' = graph c /\
    selected_height c' = selected_height c /\
    fit_results c' = fit_results c /\ match_status c' = match_status c.
Proof.
  intros Hreach Hhit.
  pose proof (reachable_inv c Hreach) as Hinv.
  destruct (reachable_view_inv c Hreach) as (_ & (Hpr & _) & _).
  destruct (click_start_button c mouse_pos (inv_layout c Hinv) Hhit)
    as (c' & Hev & Hsc & Hg & Hsel & Hf & Hm & _ & _ & _ & Hidle & Hrun).
  exists c'. cbn [handle_events is_quit]. rewrite Hev. cbn [bind].
  destruct (running c) eqn:Hr.
  - destruct (Hrun eq_refl) as (Hr' & Hp' & Ht').
    rewrite Hp', Ht'. cbn [andb].
    splits; try assumption; try reflexivity.
    destruct (paused c); reflexivity.
  - destruct (Hidle eq_refl) as (Hr' & Hp' & Ht').
    rewrite Hp', Ht'. cbn [andb].
    splits; try assumption; reflexivity.
Qed.

(** X5: in the frame in which a quit event arrives the simulation is
    still ticked once, after the events before the quit event; the frames
    that follow are never looked at. *)
Theorem quit_frame_still_updates (events : list Event) (mouse_pos : Z * Z)
    (rest : list (list Event * (Z * Z))) (c : state) :
  (exists ev, In ev events /\ (ev = QUIT \/ ev = KEYDOWN K_ESCAPE)) ->
  main_loop ((events, mouse_pos) :: rest) c =
    (r <- handle_events events mouse_pos c ;; update frame_dt (snd r)).
Proof.
  intros (ev & Hin & Hev). cbn [main_loop]. unfold frame.
  destruct (handle_events events mouse_pos c) as [r | e] eqn:Erun;
    cbn [bind]; [ | reflexivity].
  rewrite (handle_events_flag events mouse_pos c r Erun).
  assert (Hq : existsb is_quit events = true).
  { apply existsb_exists. exists ev. split; [exact Hin | apply is_quit_spec, Hev]. }
  rewrite Hq. cbn [negb].
  destruct (update frame_dt (snd r)); reflexivity.
Qed.

Lemma frame_dt_value : frame_dt == 1 / 60.
Proof. reflexivity. Qed.

(** X7: in every reachable state the start button's label tells the
    state: "Start" when idle, "Pause" when running, "Resume" when paused;
    and the controller is never paused without running. *)
Theorem start_label_tracks_state (c : state) :
  reachable c ->
  (paused c = true -> running c = true) /\
  Button.text (start_button c) =
    (if running c then (if paused c then "Resume" else "Pause") else "Start").
Proof.
  intros Hreach. destruct (reachable_view_inv c Hreach) as (_ & Hflags & _).
  exact Hflags.
Qed.

(** X8: in every reachable state the selected height is one of the
    presets and the scene's plane length is the entry of the length table
    at the same index, twice the selected height. *)
Theorem plane_length_matches_height (c : state) :
  reachable c ->
  exists (idx : nat) (h : Q),
    py_index (selected_height c) HEIGHTS = Ok idx /\
    nth_error HEIGHTS idx = Some h /\ h == selected_height c /\
    nth_error PLANE_LENGTHS idx = Some (InclineScene.L (scene c)) /\
    InclineScene.L (scene c) == 2 * selected_height c.
Proof.
  intros Hreach.
  destruct (reachable_inv c Hreach) as [(_ & (idx & Hidx & Hlen) & _) _].
  destruct (py_index_nth _ _ _ Hidx) as (h & Hh & Heq).
  exists idx, h. splits; try assumption.
  rewrite <- Heq. clear Hidx Heq. revert Hh Hlen.
  generalize (InclineScene.L (scene c)). intros len Hh Hlen.
  do 5 (destruct idx as [| idx];
        [injection Hh as <-; injection Hlen as <-; reflexivity | ]).
  destruct idx; discriminate.
Qed.

(** X9: a fit result and a verdict exist together or not at all, and
    only while the scene is at the end of the plane; the fit is always
    the one of the fixed data set, never an accumulation. *)
Theorem fit_only_for_finished_run (c : state) :
  reachable c ->
  (fit_results c = None /\ match_status c = "") \/
  (fit_results c = Some the_fit /\ match_status c <> "" /\
   InclineScene.L (scene c) <= InclineScene.s (scene c)).
Proof.
  intros Hreach.
  destruct (reachable_view_inv c Hreach) as (_ & _ & _ & _ & _ & Hfit).
  destruct Hfit as [Hnone | (Hf & Hm & Hdone)]; [left; exact Hnone | right].
  rewrite Hm. splits; [exact Hf | discriminate | exact Hdone].
Qed.

(** X10: with the experimental data of the program no run is ever judged
    a success: in every reachable state the verdict is empty or
    "Deviation". *)
Theorem verdict_never_success (c : state) :
  reachable c ->
  (match_status c = "" \/ match_status c = "Deviation") /\
  match_status c <> "Success".
Proof.
  intros Hreach.
  destruct (reachable_view_inv c Hreach) as (_ & _ & _ & _ & _ & Hfit).
  destruct Hfit as [(_ & Hm) | (_ & Hm & _)]; rewrite Hm;
    (split; [auto | discriminate]).
Qed.

(** X11: in every reachable state the displacement is the kinematic
    value of the elapsed time clamped to the plane length: s = A t^2 / 2
    as long as that does not exceed L, and s = L once it does.  Elapsed
    time is never negative, and a finished scene stopped at the first
    frame that reached the end: one frame earlier the kinematic value was
    still below L.  Pausing, resetting and selecting heights never put
    time and displacement out of step. *)
Theorem displacement_is_clamped_kinematics (c : state) :
  reachable c ->
  let time := InclineScene.t (scene c) in
  let len := InclineScene.L (scene c) in
  0 <= time /\
  InclineScene.s (scene c)
    == (if py_gt (0.5 * A * time ^ 2) len then len else 0.5 * A * time ^ 2) /\
  (len <= InclineScene.s (scene c) ->
   0.5 * A * (time - 1 / 60) ^ 2 < len).
Proof.
  intros Hreach time len.
  destruct (reachable_view_inv c Hreach) as (Hinv & _ & [_ Hprev] & _).
  destruct Hinv as (Ht & _ & HsL & Hkin & _ & Hfree).
  fold time len in Ht, HsL, Hkin, Hfree, Hprev.
  splits.
  - exact Ht.
  - destruct (py_gt (0.5 * A * time ^ 2) len) eqn:Hgt.
    + apply py_gt_spec in Hgt.
      destruct (Qlt_le_dec (InclineScene.s (scene c)) len) as [Hshort | Hfull].
      * exfalso. rewrite (Hfree Hshort) in Hshort. lra.
      * lra.
    + apply py_gt_false in Hgt.
      destruct (Qlt_le_dec (InclineScene.s (scene c)) len) as [Hshort | Hfull].
      * exact (Hfree Hshort).
      * lra.
  - intros Hdone. rewrite <- frame_dt_value. exact (Hprev Hdone).
Qed.

Lemma run_add (a b : nat) (dt : Q) (sc : InclineScene.state) :
  InclineScene.run (a + b) dt sc = InclineScene.run b dt (InclineScene.run a dt sc).
Proof.
  revert sc; induction a as [| a IH]; intros sc; cbn [Nat.add InclineScene.run].
  - reflexivity.
  - apply IH.
Qed.

(** Once the update that first reaches the end is known, the outcome of
    the completion test is known after any number of updates. *)
Lemma completion_point (sc : InclineScene.state) (k : nat) :
  SceneSpec.inv sc ->
  InclineScene.s (InclineScene.run k frame_dt sc) < InclineScene.L sc ->
  InclineScene.L sc <= InclineScene.s (InclineScene.run (S k) frame_dt sc) ->
  forall n : nat,
    py_ge (InclineScene.s (InclineScene.run n frame_dt sc)) (InclineScene.L sc)
      = true <-> (S k <= n)%nat.
Proof.
  intros Hinv Hshort Hfull n.
  pose proof (Qlt_le_weak _ _ frame_dt_pos) as Hdt.
  rewrite py_ge_spec. split.
  - intros Hn. destruct (le_lt_dec (S k) n) as [Hle | Hlt]; [exact Hle | exfalso].
    destruct (SceneFacts.inv_run n frame_dt sc Hdt Hinv) as [Hinvn _].
    destruct (SceneFacts.inv_run (k - n) frame_dt _ Hdt Hinvn) as [_ Hmono].
    rewrite <- run_add in Hmono.
    replace (n + (k - n))%nat with k in Hmono by lia.
    lra.
  - intros Hle.
    replace n with (S k + (n - S k))%nat by lia.
    rewrite run_add, SceneFacts.run_done; [exact Hfull | ].
    rewrite SceneFacts.run_L. exact Hfull.
Qed.

(** X12: started from the reset scene of the i-th preset, the block
    reaches the end of the plane at exactly the 28th, 39th, 47th, 55th or
    61st update of 1/60 s: after fewer updates the completion test
    [s >= L] fails, from that update on it succeeds. *)
Theorem run_completes_at_fixed_frame (idx : nat) (h : Q) (k : nat)
    (sc0 : InclineScene.state) :
  nth_error HEIGHTS idx = Some h ->
  nth_error [28; 39; 47; 55; 61]%nat idx = Some k ->
  exists sc : InclineScene.state,
    InclineScene.set_height h sc0 = Ok sc /\
    forall n : nat,
      py_ge (InclineScene.s (InclineScene.run n frame_dt sc)) (InclineScene.L sc)
        = true <-> (k <= n)%nat.
Proof.
  intros Hh Hk.
  assert (Hcase : forall (len : Q) (k' : nat),
             py_index h HEIGHTS = Ok idx ->
             nth_error PLANE_LENGTHS idx = Some len ->
             (forall sc : InclineScene.state,
                 InclineScene.L sc = len -> InclineScene.t sc = 0 ->
                 InclineScene.s sc = 0 ->
                 InclineScene.s (InclineScene.run k' frame_dt sc) < len /\
                 len <= InclineScene.s (InclineScene.run (S k') frame_dt sc)) ->
             exists sc : InclineScene.state,
               InclineScene.set_height h sc0 = Ok sc /\
               forall n : nat,
                 py_ge (InclineScene.s (InclineScene.run n frame_dt sc))
                   (InclineScene.L sc) = true <-> (S k' <= n)%nat).
  { intros len k' Hidx Hlen Hrun.
    destruct (set_height_ok h idx len sc0 Hidx Hlen)
      as (sc & Hset & HL & Ht & Hs & _ & Hinv).
    exists sc. split; [exact Hset | ].
    destruct (Hrun sc HL Ht Hs) as [Hshort Hfull].
    apply completion_point; [exact Hinv | | ]; rewrite HL; assumption. }
  do 5 (destruct idx as [| idx];
        [injection Hh as <-; injection Hk as <-;
         eapply Hcase; [reflexivity | reflexivity | ];
         intros [r st bs bp t0 s0 l0]; cbn [InclineScene.L InclineScene.t InclineScene.s];
         intros -> -> ->; split; vm_compute; [reflexivity | discriminate] | ]).
  destruct idx; discriminate.
Qed.

(** X18: the speed axis of the graph ends at 4.0 m/s, but a run on the
    2.0 m or the 2.5 m plane ends faster than that, so its last sample is
    drawn above the top of the axis of any plot taller than its
    margins. *)
Theorem final_speed_exceeds_axis (c : state) (g : GraphPlot.state) :
  reachable c ->
  InclineScene.L (scene c) <= InclineScene.s (scene c) ->
  2.0 <= InclineScene.L (scene c) ->
  (40 < rect_height (GraphPlot.rect g))%Z ->
  4.0 < A * InclineScene.t (scene c) /\
  GraphPlot.plot_y g 4.0 (A * InclineScene.t (scene c))
    < inject_Z (rect_top (GraphPlot.rect g)) + 20.
Proof.
  intros Hreach Hdone Hlong Htall.
  destruct (reachable_inv c Hreach) as [(_ & (idx & _ & Hlen) & _) _].
  destruct (reachable_view_inv c Hreach) as (Hinv & _ & Htime & _).
  destruct (completion_frames (scene c) idx Hinv Htime Hdone Hlen) as (k & Hk & Ht).
  assert (Hfast : 4.0 < A * InclineScene.t (scene c)).
  { rewrite Ht. revert Hlen Hk Hlong.
    generalize (InclineScene.L (scene c)). intros len Hlen Hk Hlong.
    do 5 (destruct idx as [| idx];
          [injection Hlen as <-; injection Hk as <-;
           first [reflexivity | exfalso; revert Hlong; vm_compute; auto] | ]).
    destruct idx; discriminate. }
  split; [exact Hfast | ].
  unfold GraphPlot.plot_y, rect_bottom, rect_top, rect_height in *.
  set (v := A * InclineScene.t (scene c)) in *.
  rewrite inject_Z_plus.
  assert (Hh : 40 < inject_Z (rh (GraphPlot.rect g))).
  { change 40 with (inject_Z 40). rewrite <- Zlt_Qlt. exact Htall. }
  set (hh := inject_Z (rh (GraphPlot.rect g))) in *.
  set (yy := inject_Z (ry (GraphPlot.rect g))).
  assert (Hq : 1 < v / 4.0).
  { apply Qlt_shift_div_l; [reflexivity | lra]. }
  set (q := v / 4.0) in *.
  assert (Hprod : (hh - 40) < q * (hh - 40)) by nra.
  lra.
Qed.

Lemma plane_length_bound (len : Q) :
  In len PLANE_LENGTHS -> len <= py_last PLANE_LENGTHS.
Proof.
  unfold PLANE_LENGTHS; simpl.
  intros [E | [E | [E | [E | [E | []]]]]]; subst len; discriminate.
Qed.

Lemma filter_all {X : Type} (p : X -> bool) (l : list X) :
  Forall (fun x => p x = true) l -> filter p l = l.
Proof.
  induction 1 as [| x l Hx _ IH]; cbn [filter]; [reflexivity | ].
  rewrite Hx, IH. reflexivity.
Qed.

Lemma circles_app (col : Color) (a b : list DrawCmd) :
  circles_of col (a ++ b) = circles_of col a ++ circles_of col b.
Proof. apply filter_app. Qed.

Lemma lines_app (col : Color) (a b : list DrawCmd) :
  lines_of col (a ++ b) = lines_of col a ++ lines_of col b.
Proof. apply filter_app. Qed.

Lemma scatter_no_black (g : GraphPlot.state) (max_s max_v : Q) :
  circles_of BLACK (GraphPlot.scatter g max_s max_v) = [].
Proof.
  unfold GraphPlot.scatter.
  induction (GraphPlot.points g) as [| [s v] l IH]; cbn [flat_map]; [reflexivity | ].
  rewrite circles_app, IH, app_nil_r.
  destruct (py_gt s max_s); reflexivity.
Qed.

Lemma polyline_no_circles (col col' : Color) (g : GraphPlot.state)
    (max_s max_v : Q) (xs vs : list Q) :
  circles_of col (GraphPlot.polyline g col' max_s max_v xs vs) = [].
Proof.
  unfold GraphPlot.polyline, circles_of.
  apply GraphFacts.filter_map_none. intros; reflexivity.
Qed.

(** What [GraphPlot.draw] puts on the surface, for any graph and any
    selected height. *)
Lemma draw_shape (g : GraphPlot.state) (h : Q) :
  exists cmds : list DrawCmd,
    GraphPlot.draw g h = Ok cmds /\
    circles_of RED cmds =
      circles_of RED (GraphPlot.scatter g (py_last PLANE_LENGTHS) 4.0) /\
    (py_in h HEIGHTS = false ->
     lines_of GREEN cmds = [] /\ lines_of YELLOW cmds = [] /\
     circles_of BLACK cmds = []) /\
    (py_in h HEIGHTS = true ->
     exists (idx : nat) (len exp_v : Q),
       py_index h HEIGHTS = Ok idx /\
       nth_error PLANE_LENGTHS idx = Some len /\
       nth_error EXP_AVG_SPEEDS idx = Some exp_v /\
       circles_of BLACK cmds =
         [draw_circle BLACK
            (py_int (GraphPlot.plot_x g (py_last PLANE_LENGTHS) len),
             py_int (GraphPlot.plot_y g 4.0 exp_v)) 5]).
Proof.
  unfold GraphPlot.draw. cbv zeta.
  destruct (py_in h HEIGHTS) eqn:Hin.
  - destruct (GraphFacts.py_in_index _ _ Hin) as [idx Hidx]. rewrite Hidx.
    cbn [bind].
    destruct (py_index_nth _ _ _ Hidx) as (y & Hy & _).
    destruct (getitem_same_length HEIGHTS PLANE_LENGTHS idx y eq_refl Hy)
      as (len & -> & Hlen).
    destruct (getitem_same_length HEIGHTS EXP_AVG_SPEEDS idx y eq_refl Hy)
      as (ev & -> & Hev).
    cbn [bind].
    destruct (linregress HEIGHTS EXP_AVG_SPEEDS) as [[slope intercept] r_value].
    destruct (curve_fit GraphPlot.power_law HEIGHTS EXP_AVG_SPEEDS) as [A_fit p].
    cbn [bind]. eexists. split; [reflexivity | ].
    rewrite !circles_app, !polyline_no_circles, scatter_no_black.
    cbn [circles_of lines_of filter color_eqb app BLACK RED WHITE GREEN YELLOW
         Z.eqb Pos.eqb andb].
    rewrite ?app_nil_r.
    splits.
    + reflexivity.
    + discriminate.
    + intros _. exists idx, len, ev. splits; try assumption; reflexivity.
  - eexists. split; [reflexivity | ].
    rewrite !circles_app, !lines_app, !GraphFacts.scatter_no_lines, scatter_no_black.
    cbn [circles_of lines_of filter color_eqb app BLACK RED WHITE GREEN YELLOW
         Z.eqb Pos.eqb andb].
    rewrite ?app_nil_r.
    splits.
    + reflexivity.
    + intros _. splits; reflexivity.
    + discriminate.
Qed.


(** X13: every sample the main loop records has a displacement between 0
    and the plane length, so the filter [s > max_s] of the scatter plot
    never drops one: the graph shows one red dot per recorded sample, in
    the order of recording. *)
Theorem every_sample_is_plotted (c : state) :
  reachable c ->
  Forall (fun sv : Q * Q =>
            0 <= fst sv /\ fst sv <= InclineScene.L (scene c) /\ 0 <= snd sv)
         (GraphPlot.points (graph c)) /\
  exists cmds : list DrawCmd,
    GraphPlot.draw (graph c) (selected_height c) = Ok cmds /\
    circles_of RED cmds =
      map (fun sv : Q * Q =>
             draw_circle RED
               (py_int (GraphPlot.plot_x (graph c) (py_last PLANE_LENGTHS) (fst sv)),
                py_int (GraphPlot.plot_y (graph c) 4.0 (snd sv))) 2)
          (GraphPlot.points (graph c)).
Proof.
  intros Hreach.
  destruct (reachable_view_inv c Hreach) as (Hinv & _ & _ & Htrace & _).
  assert (HsL : InclineScene.s (scene c) <= InclineScene.L (scene c)) by apply Hinv.
  assert (HL : InclineScene.L (scene c) <= py_last PLANE_LENGTHS)
    by (apply plane_length_bound, Hinv).
  split.
  - eapply Forall_impl; [ | exact Htrace].
    intros sv (Ha & Hb & Hc). splits; try assumption. lra.
  - destruct (draw_shape (graph c) (selected_height c)) as (cmds & Hdraw & Hred & _).
    exists cmds. split; [exact Hdraw | ].
    rewrite Hred, GraphFacts.scatter_circles. f_equal.
    apply filter_all.
    eapply Forall_impl; [ | exact Htrace].
    intros sv (_ & Hb & _). apply py_le_spec. lra.
Qed.

(** X14: in every reachable state the block is drawn where its
    displacement puts it: at pixel distance d = s / 2.5 * 400 from the
    point (50, 718) along the incline, with d between 0 and 400. *)
Theorem block_drawn_at_displacement (c : state) :
  reachable c ->
  exists d : Q,
    d == InclineScene.s (scene c) / L_PHYSICAL_MAX * L_PIXEL_MAX /\
    0 <= d /\ d <= L_PIXEL_MAX /\
    fst (InclineScene.block_pos (scene c)) == 50 + d * COS_THETA /\
    snd (InclineScene.block_pos (scene c)) == 718 - d * SIN_THETA.
Proof.
  intros Hreach.
  destruct (reachable_view_inv c Hreach) as (Hinv & _ & _ & _ & Hblock & _).
  destruct Hblock as (Hstart & _ & Hx & Hy).
  unfold InclineScene.screen_pos in Hx, Hy. rewrite Hstart in Hx, Hy.
  cbn [fst snd] in Hx, Hy.
  assert (HL : InclineScene.L (scene c) <= py_last PLANE_LENGTHS)
    by (apply plane_length_bound, Hinv).
  destruct Hinv as (_ & Hs0 & HsL & _).
  exists (InclineScene.s (scene c) / L_PHYSICAL_MAX * L_PIXEL_MAX).
  change (py_last PLANE_LENGTHS) with 2.50 in HL.
  set (s := InclineScene.s (scene c)) in *.
  assert (Hd : s / L_PHYSICAL_MAX * L_PIXEL_MAX == 160 * s)
    by (unfold L_PHYSICAL_MAX, L_PIXEL_MAX; field).
  splits; try assumption; try reflexivity.
  - rewrite Hd. lra.
  - rewrite Hd. unfold L_PIXEL_MAX. lra.
Qed.

Lemma py_int_Qeq (x y : Q) : x == y -> py_int x = py_int y.
Proof.
  unfold Qeq, py_int. intros E.
  rewrite <- (Z.quot_mul_cancel_r (Qnum x) (QDen x) (QDen y)) by discriminate.
  rewrite <- (Z.quot_mul_cancel_r (Qnum y) (QDen y) (QDen x)) by discriminate.
  rewrite E. f_equal. apply Z.mul_comm.
Qed.

(** The mark drawn for the [i]-th half metre. *)
Lemma mark_drawn (sc : InclineScene.state) (i : nat) :
  (i < 6)%nat ->
  In (scene_circle BLACK
        (py_int (fst (InclineScene.screen_pos sc (inject_Z (Z.of_nat i) * 0.5))),
         py_int (snd (InclineScene.screen_pos sc (inject_Z (Z.of_nat i) * 0.5))))
        3)
     (InclineScene.draw sc).
Proof.
  intros Hi. unfold InclineScene.draw.
  apply in_or_app. right. apply in_or_app. left.
  apply in_map_iff. exists i. split; [reflexivity | ].
  apply in_seq. change (Z.to_nat (py_int (L_PHYSICAL_MAX * 2) + 1)) with 6%nat. lia.
Qed.

(** X15: whenever the block is at rest, at the top after a reset or a
    height selection (s = 0) or at the end of a run (s >= L), its position,
    cut to whole pixels, is the centre of one of the six marks drawn along
    the incline: the plane lengths are whole numbers of half metres. *)
Theorem block_rests_on_a_mark (c : state) :
  reachable c ->
  InclineScene.s (scene c) == 0 \/
  InclineScene.L (scene c) <= InclineScene.s (scene c) ->
  In (scene_circle BLACK
        (py_int (fst (InclineScene.block_pos (scene c))),
         py_int (snd (InclineScene.block_pos (scene c)))) 3)
     (InclineScene.draw (scene c)).
Proof.
  intros Hreach Hrest.
  destruct (reachable_view_inv c Hreach) as (Hinv & _ & _ & _ & Hblock & _).
  destruct Hblock as (_ & _ & Hx & Hy).
  assert (Hmark : exists i : nat,
             (i < 6)%nat /\
             InclineScene.s (scene c) == inject_Z (Z.of_nat i) * 0.5).
  { destruct Hrest as [Hzero | Hdone].
    - exists 0%nat. split; [lia | rewrite Hzero; reflexivity].
    - assert (Heq : InclineScene.s (scene c) == InclineScene.L (scene c)).
      { destruct Hinv as (_ & _ & HsL & _). lra. }
      destruct Hinv as (_ & _ & _ & _ & HL & _).
      revert Heq HL. generalize (InclineScene.L (scene c)).
      unfold PLANE_LENGTHS; simpl.
      intros len Heq [E | [E | [E | [E | [E | []]]]]]; subst len.
      + exists 1%nat. split; [lia | rewrite Heq; reflexivity].
      + exists 2%nat. split; [lia | rewrite Heq; reflexivity].
      + exists 3%nat. split; [lia | rewrite Heq; reflexivity].
      + exists 4%nat. split; [lia | rewrite Heq; reflexivity].
      + exists 5%nat. split; [lia | rewrite Heq; reflexivity]. }
  destruct Hmark as (i & Hi & Hs).
  assert (Ex : fst (InclineScene.block_pos (scene c))
               == fst (InclineScene.screen_pos (scene c) (inject_Z (Z.of_nat i) * 0.5))).
  { rewrite Hx. unfold InclineScene.screen_pos. cbn [fst]. rewrite Hs. reflexivity. }
  assert (Ey : snd (InclineScene.block_pos (scene c))
               == snd (InclineScene.screen_pos (scene c) (inject_Z (Z.of_nat i) * 0.5))).
  { rewrite Hy. unfold InclineScene.screen_pos. cbn [snd]. rewrite Hs. reflexivity. }
  rewrite (py_int_Qeq _ _ Ex), (py_int_Qeq _ _ Ey).
  apply mark_drawn, Hi.
Qed.

End LoopProperties.

Section Labels.
Import SimulationController.

(** X17: the label of each height button, built by formatting the preset
    height, reads back through [split], [strip] and [float] as that
    height, and [HEIGHTS.index] of the value read is the button's own
    position. *)
Theorem labels_read_back (i : nat) (h : Q) :
  nth_error HEIGHTS i = Some h ->
  exists (btn : Button.state) (h' : Q),
    nth_error (buttons init) i = Some btn /\
    Button.text btn = ("h = " ++ py_str_float h ++ " m")%string /\
    height_of_text (Button.text btn) = Ok h' /\
    h' == h /\
    py_index h' HEIGHTS = Ok i.
Proof.
  intros Hi.
  do 5 (destruct i as [| i];
        [injection Hi as <-; eexists; eexists;
         split; [reflexivity | ];
         split; [vm_compute; reflexivity | ];
         split; [vm_compute; reflexivity | ];
         split; reflexivity | ]).
  destruct i; discriminate.
Qed.

End Labels.

(** ** Closed instances of the further properties *)

Section MoreWitnesses.
Import SimulationController.
#[local] Existing Instance no_fit.

Lemma reach_long_done : reachable Sample.c_long_done.
Proof.
  apply (ControllerFacts.reachable_ticks 61 Sample.c_long_started).
  - apply (reach_events
             (snd (get_ok (true, init)
                     (handle_events [MOUSEBUTTONDOWN] (630, 320)%Z init)))
             [MOUSEBUTTONDOWN] (630, 355)%Z true).
    + apply (reach_events init [MOUSEBUTTONDOWN] (630, 320)%Z true).
      * apply reach_init.
      * vm_compute. reflexivity.
    + vm_compute. reflexivity.
  - vm_compute. reflexivity.
Qed.

Lemma start_button_cycles_witness :
  exists c' : state,
    handle_events [MOUSEBUTTONDOWN] (630, 355)%Z Sample.c_started = Ok (true, c') /\
    running c' = true /\
    paused c' = (running Sample.c_started && negb (paused Sample.c_started))%bool /\
    Button.text (start_button c') = (if paused c' then "Resume" else "Pause") /\
    scene c' = scene Sample.c_started /\ graph c' = graph Sample.c_started /\
    selected_height c' = selected_height Sample.c_started /\
    fit_results c' = fit_results Sample.c_started /\
    match_status c' = match_status Sample.c_started.
Proof.
  apply (start_button_cycles Sample.c_started (630, 355)%Z).
  - exact SampleFacts.reach_started.
  - vm_compute. reflexivity.
Defined.

Lemma quit_ends_event_handling_witness :
  handle_events ([MOUSEBUTTONDOWN] ++ QUIT :: [MOUSEBUTTONDOWN]) (630, 355)%Z init =
    (r <- handle_events [MOUSEBUTTONDOWN] (630, 355)%Z init ;; Ok (false, snd r)).
Proof.
  apply (quit_ends_event_handling [MOUSEBUTTONDOWN] [MOUSEBUTTONDOWN] QUIT
           (630, 355)%Z init).
  left; reflexivity.
Defined.

Lemma unclicked_event_witness :
  handle_events [KEYDOWN 32] (630, 355)%Z Sample.c_started
    = Ok (true, Sample.c_started) /\
  handle_events [MOUSEBUTTONDOWN] (10, 10)%Z init = Ok (true, init).
Proof.
  split.
  - apply (unclicked_event_changes_nothing (KEYDOWN 32) (630, 355)%Z
             Sample.c_started); [discriminate | discriminate | ].
    left; discriminate.
  - apply (unclicked_event_changes_nothing MOUSEBUTTONDOWN (10, 10)%Z init);
      [discriminate | discriminate | ].
    right. intros b Hb. vm_compute in Hb.
    repeat (destruct Hb as [<- | Hb]; [reflexivity | ]). destruct Hb.
Defined.

Lemma quit_frame_still_updates_witness :
  main_loop (([KEYDOWN K_ESCAPE], (630, 355)%Z) :: [([MOUSEBUTTONDOWN], (630, 355)%Z)])
    Sample.c_started =
  (r <- handle_events [KEYDOWN K_ESCAPE] (630, 355)%Z Sample.c_started ;;
   update frame_dt (snd r)).
Proof.
  apply (quit_frame_still_updates [KEYDOWN K_ESCAPE] (630, 355)%Z
           [([MOUSEBUTTONDOWN], (630, 355)%Z)] Sample.c_started).
  exists (KEYDOWN K_ESCAPE). split; [left; reflexivity | right; reflexivity].
Defined.

Lemma reset_twice_witness :
  exists c1 : state,
    handle_events [MOUSEBUTTONDOWN] (700, 400)%Z Sample.c_done = Ok (true, c1) /\
    handle_events [MOUSEBUTTONDOWN] (700, 400)%Z c1 = Ok (true, c1).
Proof.
  apply (reset_twice_is_reset_once Sample.c_done (700, 400)%Z).
  - vm_compute. repeat split.
  - vm_compute. reflexivity.
Defined.

Lemma start_label_witness :
  (paused Sample.c_done = true -> running Sample.c_done = true) /\
  Button.text (start_button Sample.c_done) =
    (if running Sample.c_done
     then (if paused Sample.c_done then "Resume" else "Pause") else "Start").
Proof. apply (start_label_tracks_state Sample.c_done), SampleFacts.reach_done. Defined.

Lemma plane_length_matches_height_witness :
  exists (idx : nat) (h : Q),
    py_index (selected_height Sample.c_long_done) HEIGHTS = Ok idx /\
    nth_error HEIGHTS idx = Some h /\ h == selected_height Sample.c_long_done /\
    nth_error PLANE_LENGTHS idx = Some (InclineScene.L (scene Sample.c_long_done)) /\
    InclineScene.L (scene Sample.c_long_done) == 2 * selected_height Sample.c_long_done.
Proof. apply (plane_length_matches_height Sample.c_long_done), reach_long_done. Defined.

Lemma fit_only_for_finished_run_witness :
  (fit_results Sample.c_done = None /\ match_status Sample.c_done = "") \/
  (fit_results Sample.c_done = Some LoopSpec.the_fit /\
   match_status Sample.c_done <> "" /\
   InclineScene.L (scene Sample.c_done) <= InclineScene.s (scene Sample.c_done)).
Proof. apply (fit_only_for_finished_run Sample.c_done), SampleFacts.reach_done. Defined.

Lemma verdict_never_success_witness :
  (match_status Sample.c_long_done = "" \/
   match_status Sample.c_long_done = "Deviation") /\
  match_status Sample.c_long_done <> "Success".
Proof. apply (verdict_never_success Sample.c_long_done), reach_long_done. Defined.

Lemma displacement_is_clamped_kinematics_witness :
  let time := InclineScene.t (scene Sample.c_done) in
  let len := InclineScene.L (scene Sample.c_done) in
  0 <= time /\
  InclineScene.s (scene Sample.c_done)
    == (if py_gt (0.5 * A * time ^ 2) len then len else 0.5 * A * time ^ 2) /\
  (len <= InclineScene.s (scene Sample.c_done) ->
   0.5 * A * (time - 1 / 60) ^ 2 < len).
Proof.
  apply (displacement_is_clamped_kinematics Sample.c_done), SampleFacts.reach_done.
Defined.

Lemma run_completes_at_fixed_frame_witness :
  exists sc : InclineScene.state,
    InclineScene.set_height 1.25 (scene init) = Ok sc /\
    forall n : nat,
      py_ge (InclineScene.s (InclineScene.run n frame_dt sc)) (InclineScene.L sc)
        = true <-> (61 <= n)%nat.
Proof.
  apply (run_completes_at_fixed_frame 4 1.25 61 (scene init)); reflexivity.
Defined.

Lemma every_sample_is_plotted_witness :
  exists cmds : list DrawCmd,
    GraphPlot.draw (graph Sample.c_done) (selected_height Sample.c_done) = Ok cmds /\
    List.length (circles_of RED cmds) = 28%nat.
Proof.
  destruct (every_sample_is_plotted Sample.c_done SampleFacts.reach_done)
    as (_ & cmds & Hdraw & Hred).
  exists cmds. split; [exact Hdraw | ].
  rewrite Hred, length_map. vm_compute. reflexivity.
Defined.

Lemma block_drawn_at_displacement_witness :
  exists d : Q,
    d == InclineScene.s (scene Sample.c_before_end) / L_PHYSICAL_MAX * L_PIXEL_MAX /\
    0 <= d /\ d <= L_PIXEL_MAX /\
    fst (InclineScene.block_pos (scene Sample.c_before_end)) == 50 + d * COS_THETA /\
    snd (InclineScene.block_pos (scene Sample.c_before_end)) == 718 - d * SIN_THETA.
Proof.
  apply (block_drawn_at_displacement Sample.c_before_end),
    SampleFacts.reach_before_end.
Defined.

Lemma block_rests_on_a_mark_witness :
  In (scene_circle BLACK
        (py_int (fst (InclineScene.block_pos (scene Sample.c_long_done))),
         py_int (snd (InclineScene.block_pos (scene Sample.c_long_done)))) 3)
     (InclineScene.draw (scene Sample.c_long_done)).
Proof.
  apply (block_rests_on_a_mark Sample.c_long_done).
  - exact reach_long_done.
  - right. vm_compute. discriminate.
Defined.


Lemma labels_read_back_witness :
  exists (btn : Button.state) (h' : Q),
    nth_error (buttons init) 3 = Some btn /\
    Button.text btn = ("h = " ++ py_str_float 1.00 ++ " m")%string /\
    height_of_text (Button.text btn) = Ok h' /\
    h' == 1.00 /\
    py_index h' HEIGHTS = Ok 3%nat.
Proof. apply (labels_read_back 3 1.00). reflexivity. Defined.

Lemma final_speed_exceeds_axis_witness :
  4.0 < A * InclineScene.t (scene Sample.c_long_done) /\
  GraphPlot.plot_y (graph init) 4.0 (A * InclineScene.t (scene Sample.c_long_done))
    < inject_Z (rect_top (GraphPlot.rect (graph init))) + 20.
Proof.
  apply (final_speed_exceeds_axis Sample.c_long_done (graph init)).
  - exact reach_long_done.
  - vm_compute. discriminate.
  - vm_compute. discriminate.
  - reflexivity.
Defined.

End MoreWitnesses.

(** ** Selecting a height that is not a preset *)

Lemma py_index_absent (x : Q) (l : list Q) :
  py_in x l = false -> py_index x l = Raise ValueError.
Proof.
  unfold py_in. induction l as [| y l IH]; cbn [existsb py_index].
  - reflexivity.
  - destruct (Qeq_bool y x); cbn [orb]; [discriminate | ].
    intros Hout. rewrite (IH Hout). reflexivity.
Qed.

(** X19: [set_height] accepts exactly the preset heights.  For any other
    value [HEIGHTS.index] raises [ValueError] and the scene is not built;
    for a preset it returns the reset scene of the plane length at the
    preset's index, the block back at the top of the incline. *)
Theorem set_height_accepts_presets_only (h : Q) (sc : InclineScene.state) :
  (py_in h HEIGHTS = false ->
   InclineScene.set_height h sc = Raise ValueError) /\
  (py_in h HEIGHTS = true ->
   exists (idx : nat) (sc' : InclineScene.state),
     InclineScene.set_height h sc = Ok sc' /\
     py_index h HEIGHTS = Ok idx /\
     nth_error PLANE_LENGTHS idx = Some (InclineScene.L sc') /\
     InclineScene.t sc' = 0 /\ InclineScene.s sc' = 0 /\
     InclineScene.block_pos sc' = ZQ (InclineScene.incline_start sc) /\
     InclineScene.incline_start sc' = InclineScene.incline_start sc).
Proof.
  split.
  - intros Hout. unfold InclineScene.set_height.
    rewrite (py_index_absent h HEIGHTS Hout). reflexivity.
  - intros Hin.
    destruct (GraphFacts.py_in_index _ _ Hin) as [idx Hidx].
    destruct (ControllerFacts.py_index_nth _ _ _ Hidx) as (y & Hy & _).
    destruct (ControllerFacts.getitem_same_length HEIGHTS PLANE_LENGTHS idx y
                eq_refl Hy) as (len & Hget & Hlen).
    unfold InclineScene.set_height. rewrite Hidx. cbn [bind].
    rewrite Hget. cbn [bind].
    exists idx. eexists. split; [reflexivity | ].
    cbn [InclineScene.reset InclineScene.L InclineScene.t InclineScene.s
         InclineScene.block_pos InclineScene.incline_start].
    splits; try assumption; reflexivity.
Qed.

Lemma set_height_witness :
  InclineScene.set_height 0.3 (SimulationController.scene SimulationController.init)
    = Raise ValueError /\
  exists (idx : nat) (sc' : InclineScene.state),
    InclineScene.set_height 0.75
      (SimulationController.scene SimulationController.init) = Ok sc' /\
    py_index 0.75 HEIGHTS = Ok idx /\
    nth_error PLANE_LENGTHS idx = Some (InclineScene.L sc') /\
    InclineScene.t sc' = 0 /\ InclineScene.s sc' = 0 /\
    InclineScene.block_pos sc'
      = ZQ (InclineScene.incline_start
              (SimulationController.scene SimulationController.init)) /\
    InclineScene.incline_start sc'
      = InclineScene.incline_start
          (SimulationController.scene SimulationController.init).
Proof.
  split.
  - apply (set_height_accepts_presets_only 0.3
             (SimulationController.scene SimulationController.init)).
    reflexivity.
  - apply (set_height_accepts_presets_only 0.75
             (SimulationController.scene SimulationController.init)).
    reflexivity.
Defined.

(** ** The main loop with its drawing *)

Section DrawingFacts.
Import SimulationController ControllerSpec ControllerFacts.
Context `{SciPy} `{Display}.

(** In a state of the main loop [draw] raises nothing, provided the
    square root of a positive float is positive. *)
Lemma draw_never_raises (mouse_pos : Z * Z) (fps : Q) (c : state) :
  (forall x : Q, 0 < x -> 0 < sqrt_value x) ->
  inv c ->
  exists screen : list ScreenCmd, draw mouse_pos fps c = Ok screen.
Proof.
  intros Hsqrt [(Hscene & (idx & Hidx & Hlen) & _) _].
  assert (HL : 0 < InclineScene.L (scene c))
    by (apply SceneFacts.plane_length_pos, Hscene).
  set (len := InclineScene.L (scene c)) in *.
  unfold draw. rewrite Hidx. cbn [bind].
  unfold py_getitem at 1. rewrite Hlen. cbn [bind].
  assert (Harg : 0 < 2 * len / A).
  { apply Qlt_shift_div_l; [reflexivity | lra]. }
  unfold math_sqrt.
  rewrite (proj2 (py_lt_false (2 * len / A) 0)) by (apply Qlt_le_weak, Harg).
  cbn [bind].
  pose proof (Hsqrt _ Harg) as Hroot.
  unfold py_div.
  destruct (Qeq_bool (sqrt_value (2 * len / A)) 0) eqn:Ez.
  { apply Qeq_bool_eq in Ez. exfalso. lra. }
  cbn [bind]. unfold data_texts.
  destruct (getitem_same_length PLANE_LENGTHS EXP_AVG_SPEEDS idx len eq_refl Hlen)
    as (ev & -> & _).
  destruct (getitem_same_length PLANE_LENGTHS EXP_STD_DEVS idx len eq_refl Hlen)
    as (sd & -> & _).
  cbn [bind].
  destruct (draw_shape (graph c) (selected_height c)) as (cmds & -> & _).
  cbn [bind]. eexists. reflexivity.
Qed.

(** X4: fed any frames (any events and mouse positions, any frame rate
    read by [draw]), the main loop started on a fresh controller raises no
    exception in [handle_events], in [update] or in [draw]:
    [HEIGHTS.index] always finds the selected height, every subscript is
    in range, the square root is taken of a positive number and nothing is
    divided by zero.  The state it ends in is a reachable one. *)
Theorem main_loop_never_raises (frames : list FrameInput) :
  (forall x : Q, 0 < x -> 0 < sqrt_value x) ->
  exists (c : state) (screens : list (list ScreenCmd)),
    main_loop_drawn frames init = Ok (c, screens) /\ reachable c.
Proof.
  intros Hsqrt.
  assert (Hgen : forall c0 : state,
             reachable c0 ->
             exists (c : state) (screens : list (list ScreenCmd)),
               main_loop_drawn frames c0 = Ok (c, screens) /\ reachable c).
  { induction frames as [| i rest IH]; intros c0 Hreach; cbn [main_loop_drawn].
    - exists c0, []. split; [reflexivity | exact Hreach].
    - unfold frame_drawn.
      destruct (handle_events_inv (frame_events i) (frame_mouse i) c0
                  (reachable_inv c0 Hreach)) as (b & c1 & Hev & Hinv1).
      rewrite Hev. cbn [bind fst snd].
      assert (Hreach1 : reachable c1)
        by (apply (reach_events c0 (frame_events i) (frame_mouse i) b); assumption).
      destruct (update_inv c1 Hinv1) as (c2 & Hupd & Hinv2).
      rewrite Hupd. cbn [bind fst snd].
      assert (Hreach2 : reachable c2) by (apply (reach_update c1); assumption).
      destruct (draw_never_raises (draw_mouse i) (frame_fps i) c2 Hsqrt Hinv2)
        as (screen & ->).
      cbn [bind].
      destruct b.
      + destruct (IH c2 Hreach2) as (c & screens & -> & Hc). cbn [bind fst snd].
        exists c, (screen :: screens). split; [reflexivity | exact Hc].
      + exists c2, [screen]. split; [reflexivity | exact Hreach2]. }
  apply Hgen, reach_init.
Qed.

End DrawingFacts.

Lemma newton_sqrt_pos (x : Q) : 0 < x -> 0 < newton_sqrt x.
Proof.
  intros Hx. unfold newton_sqrt.
  assert (Hstep : forall y : Q, 0 < y -> 0 < Qred ((y + x / y) / 2)).
  { intros y Hy. rewrite Qred_correct.
    assert (Hq : 0 < x / y) by (apply Qlt_shift_div_l; [exact Hy | lra]).
    apply Qlt_shift_div_l; [reflexivity | lra]. }
  cbn [Nat.iter]. do 4 apply Hstep. reflexivity.
Qed.

Lemma main_loop_never_raises_witness :
  exists (c : SimulationController.state) (screens : list (list ScreenCmd)),
    SimulationController.main_loop_drawn (H := no_fit) (H0 := plain_display)
      [ SimulationController.mkFrameInput [MOUSEBUTTONDOWN] (630, 355)%Z
          (630, 355)%Z 60;
        SimulationController.mkFrameInput [KEYDOWN 32] (0, 0)%Z (0, 0)%Z 59.5;
        SimulationController.mkFrameInput [QUIT] (0, 0)%Z (0, 0)%Z 60 ]
      SimulationController.init = Ok (c, screens) /\
    SimulationController.reachable (H := no_fit) c.
Proof.
  apply (main_loop_never_raises (H := no_fit) (H0 := plain_display)).
  exact newton_sqrt_pos.
Defined.

(** The comparison of the verdict is [<=]: a measured speed exactly one
    standard deviation off the mean is a "Success", anything further a
    "Deviation". *)
Example verdict_boundary :
  SimulationController.verdict 1.5 1 0.5 = "Success" /\
  SimulationController.verdict 0.5 1 0.5 = "Success" /\
  SimulationController.verdict 1.75 1 0.5 = "Deviation".
Proof. vm_compute. repeat split. Qed.
